(** * Access control of the task-management API

    A shallow embedding of the authorization core of the Express/Mongoose
    task API: the permission helpers ([utils/permissions.ts]), the
    authentication and role middleware, the task, analytics and auth
    controllers, and the Redis cache service.

    Conventions.
    - Identifiers are stored, matched by queries and rendered as strings,
      as [IUser] and [ITask] declare them.  What a handler compares with
      [===] is the run-time value: the ObjectId object of a Mongoose
      document, or the string of a route parameter or body field (section
      "Identifiers at run time").
    - Strings are ASCII text: one character of the model is one UTF-16 code
      unit below 128, so that [String.length] is the [length] that the
      validators read and [trim] and [toLowerCase] act as in JavaScript;
      other text is outside the model.
    - A JavaScript value that may be [undefined] is an [option]; the
      truthiness test [if (x)] on such a string is [truthy].
    - Date strings are represented by the instant they denote (a [Z]).
    - A handler is a function from the request and the current [World] to a
      response and the next [World].  Failures of the database or of Redis
      themselves (the [catch] branches that answer 500 for a lost connection)
      are outside the model; validation errors raised by the schemas are in. *)

From Stdlib Require Import ZArith Lia Ascii String.
From stdpp Require Import base option list strings gmap sorting.

Local Open Scope string_scope.
Local Open Scope Z_scope.

(** ** Data model ([types/index.ts]) *)

Inductive Role := RAdmin | RManager | RUser.

#[export] Instance Role_eq_dec : EqDecision Role.
Proof. solve_decision. Defined.

(** The string literal of each role. *)
Definition role_name (r : Role) : string :=
  match r with
  | RAdmin => "admin"
  | RManager => "manager"
  | RUser => "user"
  end.

(** The [enum] validator of [UserSchema.role]: the three literals and
    nothing else. *)
Definition role_of_string (s : string) : option Role :=
  if decide (s = "admin") then Some RAdmin
  else if decide (s = "manager") then Some RManager
  else if decide (s = "user") then Some RUser
  else None.

(** Of [IUser], the fields that the modelled handlers read or write; the
    password hash and the e-mail verification fields are left out. *)
Module IUser.
Record t := mk {
  _id : string;
  username : string;
  email : string;
  role : Role;
  team : option string;
}.
End IUser.

Module ITask.
Record t := mk {
  _id : string;
  title : string;
  description : option string;
  dueDate : option Z;
  priority : string;
  status : string;
  createdBy : string;
  assignedTo : option string;
  team : option string;
  createdAt : Z;
  updatedAt : Z;
}.
End ITask.

Record ITokenBlacklist := mkBlacklisted {
  token : string;
  expiresAt : Z;
}.

#[export] Instance IUser_eq_dec : EqDecision IUser.t.
Proof. solve_decision. Defined.

#[export] Instance ITask_eq_dec : EqDecision ITask.t.
Proof. solve_decision. Defined.

(** ** Identifiers at run time

    [IUser] and [ITask] declare identifiers as strings; that is how they are
    stored, how queries match them and what [toString()] renders, and the
    records above hold them so.  The handlers never hold a user or a task as
    such a plain object: [authenticate] attaches the Mongoose document that
    [User.findById] returned ([req.user = user as any]) and the handlers
    load tasks and users with [findById], so the identifiers read from these
    documents are ObjectId objects (after [populate], user documents), while
    route parameters and body fields are strings.  [===] compares two
    strings by their characters and two objects by identity, and an object
    never equals a string. *)

(** [JsObject v p hex] is the object read at path [p] of the document bound
    to the variable [v]; [hex] is what its [toString()] gives. *)
Inductive JsValue :=
| JsUndefined
| JsString (s : string)
| JsObject (variable path : string) (hex : string).

(** [a === b]. *)
Definition strictEquals (a b : JsValue) : bool :=
  match a, b with
  | JsUndefined, JsUndefined => true
  | JsString x, JsString y => bool_decide (x = y)
  | JsObject v p _, JsObject v' p' _ => bool_decide (v = v') && bool_decide (p = p')
  | _, _ => false
  end.

(** How a caller holds the user or task it passes: as a Mongoose document
    bound to a variable (every handler), or as a plain object whose
    identifiers are strings (the unit tests of the permission helpers). *)
Inductive Held := Document (variable : string) | Plain.

Record Arg (A : Type) := mkArg {
  held : Held;
  value : A;
}.

Arguments mkArg {A}.
Arguments held {A}.
Arguments value {A}.

(** [req.user], the document that [authenticate] attached. *)
Definition ofRequest (u : IUser.t) : Arg IUser.t := mkArg (Document "req.user") u.

(** A document that the handler loaded into the variable [variable]. *)
Definition ofQuery {A} (variable : string) (x : A) : Arg A :=
  mkArg (Document variable) x.

Definition plain {A} (x : A) : Arg A := mkArg Plain x.

Definition idAt (h : Held) (path hex : string) : JsValue :=
  match h with
  | Document v => JsObject v path hex
  | Plain => JsString hex
  end.

(** [user._id], [task.createdBy] and [task.assignedTo]. *)
Definition user_id (u : Arg IUser.t) : JsValue :=
  idAt (held u) "_id" (IUser._id (value u)).

Definition task_createdBy (t : Arg ITask.t) : JsValue :=
  idAt (held t) "createdBy" (ITask.createdBy (value t)).

Definition task_assignedTo (t : Arg ITask.t) : JsValue :=
  match ITask.assignedTo (value t) with
  | Some a => idAt (held t) "assignedTo" a
  | None => JsUndefined
  end.

(** A body field or route parameter. *)
Definition ofBody (x : option string) : JsValue :=
  match x with
  | Some s => JsString s
  | None => JsUndefined
  end.

(** [if (x)] for an optional string: [undefined] and the empty string are
    falsy. *)
Definition truthy (x : option string) : bool :=
  match x with
  | Some (String _ _) => true
  | _ => false
  end.

(** [a || b] on optional strings. *)
Definition or_else (a : option string) (b : string) : string :=
  match a with
  | Some (String c s) => String c s
  | _ => b
  end.

(** ** String helpers *)

(** [s.trim()], for the ASCII white space characters. *)
Fixpoint trimStart (s : string) : string :=
  match s with
  | String a s' => if Ascii.is_space a then trimStart s' else s
  | EmptyString => EmptyString
  end.

Definition trim (s : string) : string :=
  String.rev (trimStart (String.rev (trimStart s))).

(** [s.toLowerCase()], for the ASCII letters. *)
Definition lower (a : ascii) : ascii :=
  let n := N_of_ascii a in
  if ((65 <=? n) && (n <=? 90))%N then ascii_of_N (n + 32) else a.

Fixpoint toLowerCase (s : string) : string :=
  match s with
  | String a s' => String (lower a) (toLowerCase s')
  | EmptyString => EmptyString
  end.

(** [s.split(sep)] for a one-character separator. *)
Fixpoint split_go (sep : ascii) (cur s : string) : list string :=
  match s with
  | String a s' =>
      if Ascii.eqb a sep then String.rev cur :: split_go sep EmptyString s'
      else split_go sep (String a cur) s'
  | EmptyString => [String.rev cur]
  end.

Definition split (sep : ascii) (s : string) : list string :=
  split_go sep EmptyString s.

Definition strlen (s : string) : Z := Z.of_nat (String.length s).

(** ** Permission helpers ([utils/permissions.ts]) *)

Definition getRoleLevel (role : string) : Z :=
  let r := toLowerCase role in
  if decide (r = "admin") then 3
  else if decide (r = "manager") then 2
  else 1.

Definition hasHigherOrEqualRole (userRole requiredRole : string) : bool :=
  getRoleLevel requiredRole <=? getRoleLevel userRole.

Definition canAccessTask (user : Arg IUser.t) (task : Arg ITask.t) : bool :=
  if bool_decide (IUser.role (value user) = RAdmin) then true
  else if bool_decide (IUser.role (value user) = RManager)
          && truthy (IUser.team (value user))
          && bool_decide (ITask.team (value task) = IUser.team (value user)) then true
  else if strictEquals (task_createdBy task) (user_id user)
          || strictEquals (task_assignedTo task) (user_id user) then true
  else false.

Definition canAssignTask (user : IUser.t) : bool :=
  bool_decide (IUser.role user = RAdmin) || bool_decide (IUser.role user = RManager).

Definition canManageUser (user targetUser : IUser.t) : bool :=
  if bool_decide (IUser.role user = RAdmin) then true
  else if bool_decide (IUser.role user = RManager)
          && truthy (IUser.team user)
          && bool_decide (IUser.team targetUser = IUser.team user)
          && bool_decide (IUser.role targetUser = RUser) then true
  else false.

(** [targetRole] is the raw string of the request body. *)
Definition canAssignRole (user : IUser.t) (targetRole : option string) : bool :=
  if negb (bool_decide (IUser.role user = RAdmin)) then false
  else match targetRole with
       | Some r => bool_decide (is_Some (role_of_string r))
       | None => false
       end.

Definition isSameTeam (user1 user2 : IUser.t) : bool :=
  if negb (truthy (IUser.team user1)) || negb (truthy (IUser.team user2)) then false
  else bool_decide (IUser.team user1 = IUser.team user2).

(** The access predicate as the specification words it. *)
Definition may_access (P : IUser.t) (T : ITask.t) : Prop :=
  IUser.role P = RAdmin
  \/ (IUser.role P = RManager
      /\ exists l, IUser.team P = Some l /\ l <> "" /\ ITask.team T = Some l)
  \/ ITask.createdBy T = IUser._id P
  \/ ITask.assignedTo T = Some (IUser._id P).

(** What grants access to a task in the handlers, where the creator and
    assignee test compares two different objects: the role and team tests
    of [canAccessTask]. *)
Definition grantedByRole (P : IUser.t) (T : ITask.t) : Prop :=
  IUser.role P = RAdmin
  \/ (IUser.role P = RManager
      /\ truthy (IUser.team P) = true
      /\ ITask.team T = IUser.team P).

(** ** Responses *)

(** The result of the analytics overview.  [completionRate] is computed from
    [completed] and [totalTasks] in floating point and is left out. *)
Record Overview := mkOverview {
  totalTasks : Z;
  completed : Z;
  pending : Z;
  overdue : Z;
}.

#[export] Instance Overview_eq_dec : EqDecision Overview.
Proof. solve_decision. Defined.

Inductive Payload :=
| Error (message code : string)
| Message (message : string)
| TaskData (message : option string) (task : ITask.t)
| TaskPage (page_tasks : list ITask.t) (page limit total : Z)
| ModifiedCount (n : Z)
| OverviewData (o : Overview) (cached : bool)
| StatusCounts (n_todo n_inProgress n_completed n_overdue : Z)
| UserData (message : string) (u : IUser.t).

(** [res.status(code).json({ success, data | error })]. *)
Record Response := mkResponse {
  statusCode : Z;
  success : bool;
  payload : Payload;
}.

Definition fail (code : Z) (message errcode : string) : Response :=
  mkResponse code false (Error message errcode).

Definition ok (code : Z) (p : Payload) : Response :=
  mkResponse code true p.

Definition unauthorized : Response :=
  fail 401 "Authentication required" "UNAUTHORIZED".

Definition taskNotFound : Response :=
  fail 404 "Task not found" "NOT_FOUND".

(** ** The world: the three collections and the Redis cache *)

Record World := mkWorld {
  tasks : list ITask.t;
  users : list IUser.t;
  tokenBlacklist : list ITokenBlacklist;
  redis : option (gmap string Overview);
}.

Definition set_tasks (ts : list ITask.t) (w : World) : World :=
  mkWorld ts (users w) (tokenBlacklist w) (redis w).

Definition set_users (us : list IUser.t) (w : World) : World :=
  mkWorld (tasks w) us (tokenBlacklist w) (redis w).

Definition set_redis (r : option (gmap string Overview)) (w : World) : World :=
  mkWorld (tasks w) (users w) (tokenBlacklist w) r.

(** ** Mongoose models *)

(** [User.findById]. *)
Definition User_findById (id : string) (us : list IUser.t) : option IUser.t :=
  List.find (fun u => bool_decide (IUser._id u = id)) us.

(** [Task.findById]. *)
Definition Task_findById (id : string) (ts : list ITask.t) : option ITask.t :=
  List.find (fun t => bool_decide (ITask._id t = id)) ts.

(** Writing a document back under its [_id]. *)
Definition Task_replace (t' : ITask.t) (ts : list ITask.t) : list ITask.t :=
  (fun t => if bool_decide (ITask._id t = ITask._id t') then t' else t) <$> ts.

(** [task.deleteOne()]. *)
Definition Task_deleteOne (t' : ITask.t) (ts : list ITask.t) : list ITask.t :=
  List.filter (fun t => negb (bool_decide (ITask._id t = ITask._id t'))) ts.

(** Field updates of a task document. *)
Definition with_title (v : string) (t : ITask.t) : ITask.t :=
  ITask.mk (ITask._id t) v (ITask.description t) (ITask.dueDate t)
    (ITask.priority t) (ITask.status t) (ITask.createdBy t)
    (ITask.assignedTo t) (ITask.team t) (ITask.createdAt t) (ITask.updatedAt t).

Definition with_description (v : option string) (t : ITask.t) : ITask.t :=
  ITask.mk (ITask._id t) (ITask.title t) v (ITask.dueDate t)
    (ITask.priority t) (ITask.status t) (ITask.createdBy t)
    (ITask.assignedTo t) (ITask.team t) (ITask.createdAt t) (ITask.updatedAt t).

Definition with_dueDate (v : option Z) (t : ITask.t) : ITask.t :=
  ITask.mk (ITask._id t) (ITask.title t) (ITask.description t) v
    (ITask.priority t) (ITask.status t) (ITask.createdBy t)
    (ITask.assignedTo t) (ITask.team t) (ITask.createdAt t) (ITask.updatedAt t).

Definition with_priority (v : string) (t : ITask.t) : ITask.t :=
  ITask.mk (ITask._id t) (ITask.title t) (ITask.description t) (ITask.dueDate t)
    v (ITask.status t) (ITask.createdBy t)
    (ITask.assignedTo t) (ITask.team t) (ITask.createdAt t) (ITask.updatedAt t).

Definition with_status (v : string) (t : ITask.t) : ITask.t :=
  ITask.mk (ITask._id t) (ITask.title t) (ITask.description t) (ITask.dueDate t)
    (ITask.priority t) v (ITask.createdBy t)
    (ITask.assignedTo t) (ITask.team t) (ITask.createdAt t) (ITask.updatedAt t).

Definition with_assignedTo (v : option string) (t : ITask.t) : ITask.t :=
  ITask.mk (ITask._id t) (ITask.title t) (ITask.description t) (ITask.dueDate t)
    (ITask.priority t) (ITask.status t) (ITask.createdBy t)
    v (ITask.team t) (ITask.createdAt t) (ITask.updatedAt t).

Definition with_updatedAt (v : Z) (t : ITask.t) : ITask.t :=
  ITask.mk (ITask._id t) (ITask.title t) (ITask.description t) (ITask.dueDate t)
    (ITask.priority t) (ITask.status t) (ITask.createdBy t)
    (ITask.assignedTo t) (ITask.team t) (ITask.createdAt t) v.

(** The setters of [TaskSchema] ([trim: true] on [title], [description] and
    [team]); a setter runs when its path is assigned. *)
Definition Task_setters (t : ITask.t) : ITask.t :=
  ITask.mk (ITask._id t) (trim (ITask.title t)) (trim <$> ITask.description t)
    (ITask.dueDate t) (ITask.priority t) (ITask.status t) (ITask.createdBy t)
    (ITask.assignedTo t) (trim <$> ITask.team t)
    (ITask.createdAt t) (ITask.updatedAt t).

(** The validators of [TaskSchema], path by path. *)
Definition title_ok (s : string) : bool :=
  (3 <=? strlen s) && (strlen s <=? 200).

Definition description_ok (d : option string) : bool :=
  from_option (fun s => strlen s <=? 2000) true d.

Definition priority_ok (p : string) : bool :=
  bool_decide (p ∈ ["low"; "medium"; "high"]).

Definition status_ok (s : string) : bool :=
  bool_decide (s ∈ ["todo"; "in-progress"; "completed"; "overdue"]).

Definition Task_valid (t : ITask.t) : bool :=
  title_ok (ITask.title t) && description_ok (ITask.description t)
  && priority_ok (ITask.priority t) && status_ok (ITask.status t).

(** On [save] of a loaded document only the modified paths are validated. *)
Definition Task_valid_modified (orig t : ITask.t) : bool :=
  (bool_decide (ITask.title t = ITask.title orig) || title_ok (ITask.title t))
  && (bool_decide (ITask.description t = ITask.description orig)
      || description_ok (ITask.description t))
  && (bool_decide (ITask.priority t = ITask.priority orig)
      || priority_ok (ITask.priority t))
  && (bool_decide (ITask.status t = ITask.status orig)
      || status_ok (ITask.status t)).

(** The [pre('save')] hook of [TaskSchema]. *)
Definition Task_preSave (now : Z) (t : ITask.t) : ITask.t :=
  match ITask.dueDate t with
  | Some d =>
      if (d <? now) && negb (bool_decide (ITask.status t = "completed"))
      then with_status "overdue" t
      else t
  | None => t
  end.

(** The [timestamps: true] hook: [updatedAt] moves when the document was
    modified. *)
Definition Task_touch (now : Z) (orig t : ITask.t) : ITask.t :=
  if bool_decide (t = orig) then t else with_updatedAt now t.

(** [Task.create(doc)]: setters, validation, then the hook; [None] is the
    [ValidationError]. *)
Definition Task_create (now : Z) (doc : ITask.t) : option ITask.t :=
  let t := Task_setters doc in
  if Task_valid t then Some (Task_preSave now t) else None.

(** [doc.save()] of a loaded document [orig] changed into [t]. *)
Definition Task_save (now : Z) (orig t : ITask.t) : option ITask.t :=
  if Task_valid_modified orig t
  then Some (Task_preSave now (Task_touch now orig t))
  else None.

(** ** Query filters

    The filter object that the controllers build ([const query: any = {}])
    is a finite map from keys to conditions; assigning to a key that is
    already present replaces its condition. *)

Inductive Cond :=
| Is (v : string)                        (* { key: v } *)
| OneOf (vs : list string)               (* { key: { $in: vs } } *)
| Between (lte gte : option Z)           (* { dueDate: { $lte, $gte } } *)
| AnyOf (alts : list (string * string))  (* { $or: [{ k1: v1 }, ...] } *)
| AllAnyMatch (cs : list (list (string * (string -> bool)))).
                                         (* { $and: [{ $or: [{ k: /re/ }, ...] }, ...] } *)

(** The string-valued paths of a task document. *)
Definition field (k : string) (t : ITask.t) : option string :=
  if decide (k = "_id") then Some (ITask._id t)
  else if decide (k = "title") then Some (ITask.title t)
  else if decide (k = "description") then ITask.description t
  else if decide (k = "priority") then Some (ITask.priority t)
  else if decide (k = "status") then Some (ITask.status t)
  else if decide (k = "createdBy") then Some (ITask.createdBy t)
  else if decide (k = "assignedTo") then ITask.assignedTo t
  else if decide (k = "team") then ITask.team t
  else None.

Definition sat (t : ITask.t) (k : string) (c : Cond) : bool :=
  match c with
  | Is v => bool_decide (field k t = Some v)
  | OneOf vs => from_option (fun x => bool_decide (x ∈ vs)) false (field k t)
  | Between lte gte =>
      match ITask.dueDate t with
      | Some d => from_option (fun hi => d <=? hi) true lte
                  && from_option (fun lo => lo <=? d) true gte
      | None => false
      end
  | AnyOf alts =>
      existsb (fun kv => bool_decide (field kv.1 t = Some kv.2)) alts
  | AllAnyMatch cs =>
      forallb (existsb (fun kr => from_option kr.2 false (field kr.1 t))) cs
  end.

Definition matches (q : gmap string Cond) (t : ITask.t) : bool :=
  bool_decide (map_Forall (fun k c => sat t k c = true) q).

(** [Task.find(query)] in the collection's natural order, and
    [Task.countDocuments(query)]. *)
Definition Task_find (q : gmap string Cond) (ts : list ITask.t) : list ITask.t :=
  List.filter (matches q) ts.

Definition Task_countDocuments (q : gmap string Cond) (ts : list ITask.t) : Z :=
  Z.of_nat (length (Task_find q ts)).

(** [Task.updateMany({ _id: { $in: ids } }, { $set: { assignedTo } })]; the
    [timestamps] option adds [updatedAt] to the [$set]. *)
Definition Task_assignMany (now : Z) (ids : list string) (assignee : string)
    (ts : list ITask.t) : list ITask.t :=
  (fun t =>
     if bool_decide (ITask._id t ∈ ids)
     then with_updatedAt now (with_assignedTo (Some assignee) t)
     else t) <$> ts.

(** The role scope that every bulk handler starts its query from. *)
Definition roleScope (user : IUser.t) : gmap string Cond :=
  if bool_decide (IUser.role user = RUser) then
    {[ "$or" := AnyOf [("createdBy", IUser._id user); ("assignedTo", IUser._id user)] ]}
  else if bool_decide (IUser.role user = RManager) && truthy (IUser.team user) then
    {[ "team" := Is (from_option id "" (IUser.team user)) ]}
  else ∅.

(** [if (v) query[k] = c]. *)
Definition set_if (v : option string) (k : string) (c : string -> Cond)
    (q : gmap string Cond) : gmap string Cond :=
  match v with
  | Some (String a s) => <[k := c (String a s)]> q
  | _ => q
  end.

(** ** Cache service ([services/cacheService.ts])

    [redis w = None] is [getRedisClient()] returning no client.  Entries are
    kept until deleted: the expiry that [setex] attaches can only remove an
    entry earlier. *)

(** Redis [KEYS] pattern matching, for patterns whose only special
    character is the star. *)
Fixpoint glob (pattern key : string) : bool :=
  match pattern with
  | EmptyString => bool_decide (key = EmptyString)
  | String a pattern' =>
      if Ascii.eqb a "*"%char then
        (fix any (k : string) : bool :=
           glob pattern' k
           || match k with
              | String _ k' => any k'
              | EmptyString => false
              end) key
      else
        match key with
        | String b key' => Ascii.eqb a b && glob pattern' key'
        | EmptyString => false
        end
  end.

Definition cache_get (key : string) (w : World) : option Overview :=
  match redis w with
  | Some r => r !! key
  | None => None
  end.

Definition cache_set (key : string) (value : Overview) (w : World) : World :=
  match redis w with
  | Some r => set_redis (Some (<[key := value]> r)) w
  | None => w
  end.

Definition delPattern (pattern : string) (w : World) : World :=
  match redis w with
  | Some r => set_redis (Some (filter (fun kv => glob pattern kv.1 = false) r)) w
  | None => w
  end.

Definition getAnalyticsKey (type : string) (identifier : option string) : string :=
  match identifier with
  | Some (String a s) => "analytics:" +:+ type +:+ ":" +:+ String a s
  | _ => "analytics:" +:+ type
  end.

Definition invalidateTaskCaches (w : World) : World :=
  delPattern "analytics:*" (delPattern "tasks:*" w).

Definition invalidateAnalyticsCaches (w : World) : World :=
  delPattern "analytics:*" w.

(** ** Request parameters *)

(** [parseInt(x) || d]: [None] is [NaN]. *)
Definition parseIntOr (x : option Z) (d : Z) : Z :=
  match x with
  | Some n => if n =? 0 then d else n
  | None => d
  end.

Module GetTasksQuery.
Record t := mk {
  page : option Z;
  limit : option Z;
  status : option string;
  priority : option string;
  sortBy : option string;
  order : option string;
}.
End GetTasksQuery.

Module SearchQuery.
Record t := mk {
  page : option Z;
  limit : option Z;
  q : option string;
  status : option string;
  priority : option string;
  assignee : option string;
  creator : option string;
  team : option string;
  dueBefore : option Z;
  dueAfter : option Z;
}.
End SearchQuery.

(** ** Bulk reads ([controllers/task.controller.ts],
       [controllers/analytics.controller.ts]) *)

Section BulkReads.

(** [new RegExp(q, 'i')]: [None] when the pattern does not compile, else
    the test of the compiled expression. *)
Variable RegExp_i : string -> option (string -> bool).

(** The order of the store on one path of two documents. *)
Variable field_le : string -> ITask.t -> ITask.t -> bool.

(** [.sort({ k1: d1, ... })]; the direction is [true] for ascending. *)
Fixpoint sort_le (spec : list (string * bool)) (a b : ITask.t) : bool :=
  match spec with
  | [] => true
  | (k, asc) :: spec' =>
      let x := if asc then a else b in
      let y := if asc then b else a in
      if field_le k x y
      then (if field_le k y x then sort_le spec' a b else true)
      else false
  end.

(** [Task.find(query).skip(skip).limit(limit).sort(spec)].  The store
    refuses a negative [skip] and reads a negative [limit] as its absolute
    value. *)
Definition Task_query (query : gmap string Cond) (spec : list (string * bool))
    (skip limit : Z) (ts : list ITask.t) : option (list ITask.t) :=
  if skip <? 0 then None
  else Some (take (Z.to_nat (Z.abs limit))
               (drop (Z.to_nat skip)
                  (merge_sort (fun a b => Is_true (sort_le spec a b))
                     (Task_find query ts)))).

Definition getTasks (user : option IUser.t) (rq : GetTasksQuery.t) (w : World)
    : Response :=
  match user with
  | None => unauthorized
  | Some user =>
      let page := parseIntOr (GetTasksQuery.page rq) 1 in
      let limit := Z.min (parseIntOr (GetTasksQuery.limit rq) 10) 100 in
      let sortBy := from_option id "createdAt" (GetTasksQuery.sortBy rq) in
      let query := roleScope user in
      let query := set_if (GetTasksQuery.status rq) "status" Is query in
      let query := set_if (GetTasksQuery.priority rq) "priority" Is query in
      let skip := (page - 1) * limit in
      let sortOrder := bool_decide (GetTasksQuery.order rq = Some "asc") in
      match Task_query query [(sortBy, sortOrder)] skip limit (tasks w) with
      | Some found =>
          ok 200 (TaskPage found page limit (Task_countDocuments query (tasks w)))
      | None => fail 500 "Failed to retrieve tasks" "GET_TASKS_ERROR"
      end
  end.

Definition getMyAssignedTasks (user : option IUser.t) (rq : GetTasksQuery.t)
    (w : World) : Response :=
  match user with
  | None => unauthorized
  | Some user =>
      let page := parseIntOr (GetTasksQuery.page rq) 1 in
      let limit := Z.min (parseIntOr (GetTasksQuery.limit rq) 10) 100 in
      let query : gmap string Cond := {[ "assignedTo" := Is (IUser._id user) ]} in
      let query := set_if (GetTasksQuery.status rq) "status" Is query in
      let query := set_if (GetTasksQuery.priority rq) "priority" Is query in
      let skip := (page - 1) * limit in
      match Task_query query [("dueDate", true); ("createdAt", false)]
              skip limit (tasks w) with
      | Some found =>
          ok 200 (TaskPage found page limit (Task_countDocuments query (tasks w)))
      | None =>
          fail 500 "Failed to retrieve assigned tasks" "GET_ASSIGNED_TASKS_ERROR"
      end
  end.

(** The [$and] clause that the free-text parameter pushes. *)
Definition push_text (re : string -> bool) (query : gmap string Cond)
    : gmap string Cond :=
  let clauses := match query !! "$and" with
                 | Some (AllAnyMatch cs) => cs
                 | _ => []
                 end in
  <["$and" := AllAnyMatch (clauses ++ [[("title", re); ("description", re)]])]>
    query.

Definition searchTasks (user : option IUser.t) (rq : SearchQuery.t) (w : World)
    : Response :=
  let searchError := fail 500 "Failed to search tasks" "SEARCH_ERROR" in
  match user with
  | None => unauthorized
  | Some user =>
      let page := parseIntOr (SearchQuery.page rq) 1 in
      let limit := Z.min (parseIntOr (SearchQuery.limit rq) 10) 100 in
      let query := roleScope user in
      let text :=
        if truthy (SearchQuery.q rq)
        then match RegExp_i (from_option id "" (SearchQuery.q rq)) with
             | Some re => Some (push_text re query)
             | None => None
             end
        else Some query in
      match text with
      | None => searchError
      | Some query =>
          let query := set_if (SearchQuery.status rq) "status"
                         (fun s => OneOf (split "," s)) query in
          let query := set_if (SearchQuery.priority rq) "priority"
                         (fun s => OneOf (split "," s)) query in
          let query := set_if (SearchQuery.assignee rq) "assignedTo" Is query in
          let query := set_if (SearchQuery.creator rq) "createdBy" Is query in
          let query := set_if (SearchQuery.team rq) "team" Is query in
          let query :=
            match SearchQuery.dueBefore rq, SearchQuery.dueAfter rq with
            | None, None => query
            | lte, gte => <["dueDate" := Between lte gte]> query
            end in
          let skip := (page - 1) * limit in
          match Task_query query [("createdAt", false)] skip limit (tasks w) with
          | Some found =>
              ok 200 (TaskPage found page limit
                        (Task_countDocuments query (tasks w)))
          | None => searchError
          end
      end
  end.

(** The tasks a response lists. *)
Definition listed (r : Response) : list ITask.t :=
  match payload r with
  | TaskPage found _ _ _ => found
  | _ => []
  end.

End BulkReads.

(** ** Analytics ([controllers/analytics.controller.ts]) *)

Definition overviewKey (user : IUser.t) : string :=
  getAnalyticsKey "overview"
    (Some (IUser._id user +:+ ":" +:+ role_name (IUser.role user))).

(** The four counts of the overview under a base query. *)
Definition countOverview (query : gmap string Cond) (ts : list ITask.t) : Overview :=
  mkOverview
    (Task_countDocuments query ts)
    (Task_countDocuments (<["status" := Is "completed"]> query) ts)
    (Task_countDocuments (<["status" := OneOf ["todo"; "in-progress"]]> query) ts)
    (Task_countDocuments (<["status" := Is "overdue"]> query) ts).

Definition getOverview (user : option IUser.t) (w : World) : Response * World :=
  match user with
  | None => (unauthorized, w)
  | Some user =>
      let cacheKey := overviewKey user in
      match cache_get cacheKey w with
      | Some cachedData => (ok 200 (OverviewData cachedData true), w)
      | None =>
          let query := roleScope user in
          let result := countOverview query (tasks w) in
          (ok 200 (OverviewData result false), cache_set cacheKey result w)
      end
  end.

Definition getTasksByStatus (user : option IUser.t) (w : World) : Response :=
  match user with
  | None => unauthorized
  | Some user =>
      let baseQuery := roleScope user in
      ok 200 (StatusCounts
                (Task_countDocuments (<["status" := Is "todo"]> baseQuery) (tasks w))
                (Task_countDocuments (<["status" := Is "in-progress"]> baseQuery) (tasks w))
                (Task_countDocuments (<["status" := Is "completed"]> baseQuery) (tasks w))
                (Task_countDocuments (<["status" := Is "overdue"]> baseQuery) (tasks w)))
  end.

(** ** Single-task handlers ([controllers/task.controller.ts]) *)

Module CreateTaskBody.
Record t := mk {
  title : option string;
  description : option string;
  dueDate : option Z;
  priority : option string;
  assignedTo : option string;
  team : option string;
}.
End CreateTaskBody.

Module UpdateTaskBody.
Record t := mk {
  title : option string;
  description : option string;
  dueDate : option (option Z);
  priority : option string;
  status : option string;
}.
End UpdateTaskBody.

Definition validationFailed : Response :=
  fail 400 "Validation failed" "VALIDATION_ERROR".

(** [oid] is the identifier the driver gives the new document and [now] the
    time of the request.  The handler reads [title], [description],
    [dueDate], [priority] and [assignedTo] of the body and nothing else. *)
Definition createTask (user : option IUser.t) (body : CreateTaskBody.t)
    (oid : string) (now : Z) (w : World) : Response * World :=
  match user with
  | None => (unauthorized, w)
  | Some user =>
      let assignedTo := CreateTaskBody.assignedTo body in
      if truthy assignedTo
         && negb (strictEquals (ofBody assignedTo) (user_id (ofRequest user)))
         && negb (canAssignTask user)
      then (fail 403 "You do not have permission to assign tasks to others"
              "FORBIDDEN", w)
      else
        match Task_create now
                (ITask.mk oid
                   (from_option id "" (CreateTaskBody.title body))
                   (CreateTaskBody.description body)
                   (CreateTaskBody.dueDate body)
                   (or_else (CreateTaskBody.priority body) "medium")
                   "todo"
                   (IUser._id user)
                   (Some (or_else assignedTo (IUser._id user)))
                   (IUser.team user)
                   now now) with
        | Some task =>
            (ok 201 (TaskData (Some "Task created successfully") task),
             invalidateTaskCaches (set_tasks (tasks w ++ [task]) w))
        | None => (validationFailed, w)
        end
  end.

Definition getTaskById (user : option IUser.t) (id : string) (w : World)
    : Response :=
  match user with
  | None => unauthorized
  | Some user =>
      match Task_findById id (tasks w) with
      | None => taskNotFound
      | Some task =>
          if negb (canAccessTask (ofRequest user) (ofQuery "task" task))
          then taskNotFound
          else ok 200 (TaskData None task)
      end
  end.

(** The assignments [if (title) task.title = title; ...] of [updateTask]. *)
Definition applyUpdate (body : UpdateTaskBody.t) (task : ITask.t) : ITask.t :=
  let task := if truthy (UpdateTaskBody.title body)
              then with_title (trim (from_option id "" (UpdateTaskBody.title body))) task
              else task in
  let task := match UpdateTaskBody.description body with
              | Some d => with_description (Some (trim d)) task
              | None => task
              end in
  let task := match UpdateTaskBody.dueDate body with
              | Some d => with_dueDate d task
              | None => task
              end in
  let task := if truthy (UpdateTaskBody.priority body)
              then with_priority (from_option id "" (UpdateTaskBody.priority body)) task
              else task in
  let task := if truthy (UpdateTaskBody.status body)
              then with_status (from_option id "" (UpdateTaskBody.status body)) task
              else task in
  task.

Definition updateTask (user : option IUser.t) (id : string)
    (body : UpdateTaskBody.t) (now : Z) (w : World) : Response * World :=
  match user with
  | None => (unauthorized, w)
  | Some user =>
      match Task_findById id (tasks w) with
      | None => (taskNotFound, w)
      | Some task =>
          if negb (canAccessTask (ofRequest user) (ofQuery "task" task))
          then (taskNotFound, w)
          else
            match Task_save now task (applyUpdate body task) with
            | Some task' =>
                (ok 200 (TaskData (Some "Task updated successfully") task'),
                 invalidateTaskCaches (set_tasks (Task_replace task' (tasks w)) w))
            | None => (validationFailed, w)
            end
      end
  end.

Definition deleteTask (user : option IUser.t) (id : string) (w : World)
    : Response * World :=
  match user with
  | None => (unauthorized, w)
  | Some user =>
      match Task_findById id (tasks w) with
      | None => (taskNotFound, w)
      | Some task =>
          if negb (canAccessTask (ofRequest user) (ofQuery "task" task))
          then (taskNotFound, w)
          else
            (ok 200 (Message "Task deleted successfully"),
             invalidateTaskCaches (set_tasks (Task_deleteOne task (tasks w)) w))
      end
  end.

Definition cannotAssign : Response :=
  fail 403 "You do not have permission to assign tasks" "FORBIDDEN".

(** [assignedTo] has no validator, so the [save] of [assignTask] only runs
    the hooks. *)
Definition assignTask (user : option IUser.t) (id : string)
    (assignedTo : option string) (now : Z) (w : World) : Response * World :=
  match user with
  | None => (unauthorized, w)
  | Some user =>
      if negb (canAssignTask user) then (cannotAssign, w)
      else
        match Task_findById id (tasks w) with
        | None => (taskNotFound, w)
        | Some task =>
            if negb (canAccessTask (ofRequest user) (ofQuery "task" task))
            then (taskNotFound, w)
            else
              let task' :=
                Task_preSave now
                  (Task_touch now task (with_assignedTo assignedTo task)) in
              (ok 200 (TaskData (Some "Task assigned successfully") task'),
               invalidateTaskCaches (set_tasks (Task_replace task' (tasks w)) w))
        end
  end.

(** [taskIds] is [None] when the body field is not an array. *)
Definition bulkAssignTasks (user : option IUser.t) (taskIds : option (list string))
    (assignedTo : option string) (now : Z) (w : World) : Response * World :=
  match user with
  | None => (unauthorized, w)
  | Some user =>
      if negb (canAssignTask user) then (cannotAssign, w)
      else
        match taskIds with
        | None | Some [] =>
            (fail 400 "taskIds must be a non-empty array" "INVALID_INPUT", w)
        | Some taskIds =>
            match assignedTo ≫= (fun a => User_findById a (users w)), assignedTo with
            | Some assignee, Some a =>
                let modifiedCount :=
                  Z.of_nat (length (List.filter
                                      (fun t => bool_decide (ITask._id t ∈ taskIds))
                                      (tasks w))) in
                (ok 200 (ModifiedCount modifiedCount),
                 set_tasks (Task_assignMany now taskIds a (tasks w)) w)
            | _, _ => (fail 404 "Assignee user not found" "USER_NOT_FOUND", w)
            end
        end
  end.

(** ** Authentication and role middleware
       ([middleware/auth.middleware.ts], [middleware/rbac.middleware.ts]) *)

Module TokenPayload.
Record t := mk {
  userId : string;
  email : string;
  role : string;
}.
End TokenPayload.

Section Authentication.

(** The three helpers of [utils/tokenManager], which [authenticate]
    imports: the bearer token of an [Authorization] header, membership of
    the revoked-token collection, and the decoded payload of a token whose
    signature and expiry verify ([None] is the [null] that
    [if (!decoded)] tests). *)
Variable extractTokenFromHeader : option string -> option string.
Variable isTokenBlacklisted : list ITokenBlacklist -> string -> bool.
Variable verifyToken : string -> option TokenPayload.t.

(** [inl] is the response that ends the request, [inr] the user attached
    to [req.user] before [next()]. *)
Definition authenticate (authorization : option string) (w : World)
    : Response + IUser.t :=
  match extractTokenFromHeader authorization with
  | None =>
      inl (fail 401 "Authentication required. Please provide a valid token"
             "NO_TOKEN")
  | Some token =>
      if isTokenBlacklisted (tokenBlacklist w) token then
        inl (fail 401 "Token has been invalidated. Please login again"
               "TOKEN_BLACKLISTED")
      else
        match verifyToken token with
        | None => inl (fail 401 "Invalid or expired token" "INVALID_TOKEN")
        | Some decoded =>
            match User_findById (TokenPayload.userId decoded) (users w) with
            | None => inl (fail 401 "User not found" "USER_NOT_FOUND")
            | Some user => inr user
            end
        end
  end.

(** [optionalAuthenticate] always calls [next()]; the result is
    [req.user]. *)
Definition optionalAuthenticate (authorization : option string) (w : World)
    : option IUser.t :=
  match extractTokenFromHeader authorization with
  | None => None
  | Some token =>
      if isTokenBlacklisted (tokenBlacklist w) token then None
      else
        match verifyToken token with
        | None => None
        | Some decoded => User_findById (TokenPayload.userId decoded) (users w)
        end
  end.

End Authentication.

(** [requireRole(...roles)]: [None] is [next()]. *)
Definition requireRole (roles : list string) (user : option IUser.t)
    : option Response :=
  match user with
  | None => Some unauthorized
  | Some user =>
      if negb (bool_decide (role_name (IUser.role user) ∈ roles)) then
        Some (fail 403
                ("Access denied. Required role(s): " +:+
                   foldr (fun r acc => if decide (acc = "") then r
                                       else r +:+ ", " +:+ acc) "" roles)
                "FORBIDDEN")
      else None
  end.

Definition requireAdmin : option IUser.t -> option Response :=
  requireRole ["admin"].

Definition requireManager : option IUser.t -> option Response :=
  requireRole ["admin"; "manager"].

(** ** User management ([controllers/auth.controller.ts]) *)

Definition with_role (r : Role) (u : IUser.t) : IUser.t :=
  IUser.mk (IUser._id u) (IUser.username u) (IUser.email u) r (IUser.team u).

Definition User_replace (u' : IUser.t) (us : list IUser.t) : list IUser.t :=
  (fun u => if bool_decide (IUser._id u = IUser._id u') then u' else u) <$> us.

Definition notAuthenticated : Response :=
  fail 401 "Not authenticated" "NOT_AUTHENTICATED".

Definition userNotFound : Response :=
  fail 404 "User not found" "USER_NOT_FOUND".

Definition selfRoleChange : Response :=
  fail 400 "Cannot change your own role" "SELF_ROLE_CHANGE".

(** [role] is the raw body field.  Past the [canAssignRole] test it is one of
    the three literals, so the default of [from_option] is never used. *)
Definition updateUserRole (reqUser : option IUser.t) (userId : string)
    (role : option string) (w : World) : Response * World :=
  match reqUser with
  | None => (notAuthenticated, w)
  | Some reqUser =>
      if negb (canAssignRole reqUser role) then
        (fail 403 "Insufficient permissions to assign this role" "FORBIDDEN", w)
      else
        match User_findById userId (users w) with
        | None => (userNotFound, w)
        | Some user =>
            if strictEquals (JsString (IUser._id user)) (user_id (ofRequest reqUser))
            then (selfRoleChange, w)
            else
              let user' :=
                with_role (from_option id RUser (role ≫= role_of_string)) user in
              (ok 200 (UserData "User role updated successfully" user'),
               set_users (User_replace user' (users w)) w)
        end
  end.

Definition deleteUser (reqUser : option IUser.t) (userId : string) (w : World)
    : Response * World :=
  match reqUser with
  | None => (notAuthenticated, w)
  | Some reqUser =>
      if strictEquals (JsString userId) (user_id (ofRequest reqUser)) then
        (fail 400 "Cannot delete your own account" "SELF_DELETE", w)
      else
        match User_findById userId (users w) with
        | None => (userNotFound, w)
        | Some user =>
            (ok 200 (Message "User deleted successfully"),
             set_users
               (List.filter
                  (fun u => negb (bool_decide (IUser._id u = IUser._id user)))
                  (users w)) w)
        end
  end.

(** *** Registration *)

Module RegisterBody.
Record t := mk {
  username : option string;
  email : option string;
  password : option string;
  role : option string;
  team : option string;
}.
End RegisterBody.

(** [/^[a-zA-Z0-9_]+$/]. *)
Definition word_char (a : ascii) : bool :=
  let n := N_of_ascii a in
  ((48 <=? n) && (n <=? 57) || (65 <=? n) && (n <=? 90)
   || (97 <=? n) && (n <=? 122) || (n =? 95))%N.

Fixpoint all_chars (p : ascii -> bool) (s : string) : bool :=
  match s with
  | String a s' => p a && all_chars p s'
  | EmptyString => true
  end.

Definition username_ok (s : string) : bool :=
  (3 <=? strlen s) && (strlen s <=? 30) && all_chars word_char s.

(** [/^[^\s@]+@[^\s@]+\.[^\s@]+$/]: one at-sign, no white space, and after
    the at-sign a dot that is neither first nor last. *)
Definition plain_char (a : ascii) : bool :=
  negb (Ascii.is_space a) && negb (Ascii.eqb a "@"%char).

Fixpoint cut_at (sep : ascii) (s : string) : option (string * string) :=
  match s with
  | String a s' =>
      if Ascii.eqb a sep then Some (EmptyString, s')
      else match cut_at sep s' with
           | Some (l, r) => Some (String a l, r)
           | None => None
           end
  | EmptyString => None
  end.

Fixpoint dot_inside (s : string) : bool :=
  match s with
  | String a s' =>
      (Ascii.eqb a "."%char && negb (bool_decide (s' = EmptyString)))
      || dot_inside s'
  | EmptyString => false
  end.

Definition email_ok (s : string) : bool :=
  match cut_at "@"%char s with
  | Some (String a l, String b r) =>
      all_chars plain_char (String a l) && all_chars plain_char (String b r)
      && dot_inside r
  | _ => false
  end.

Definition password_ok (s : string) : bool := 8 <=? strlen s.

(** [User.findOne({ $or: [{ email }, { username }] })]. *)
Definition User_findOne (email : string) (username : option string)
    (us : list IUser.t) : option IUser.t :=
  List.find (fun u => bool_decide (IUser.email u = email)
                      || bool_decide (Some (IUser.username u) = username)) us.

Inductive CreateError := ValidationError | DuplicateKey.

(** [User.create]: the setters of [UserSchema] ([trim], [lowercase]), its
    validators, and the two unique indexes.  The password is checked and then
    hashed; the stored hash is not part of [IUser.t] here. *)
Definition User_create (oid : string) (username email password : option string)
    (role : string) (team : option string) (us : list IUser.t)
    : CreateError + IUser.t :=
  let username := trim (from_option id "" username) in
  let email := trim (toLowerCase (from_option id "" email)) in
  match role_of_string role with
  | Some r =>
      if username_ok username && email_ok email
         && password_ok (from_option id "" password)
      then
        if existsb (fun u => bool_decide (IUser.username u = username)
                             || bool_decide (IUser.email u = email)) us
        then inl DuplicateKey
        else inr (IUser.mk oid username email r (trim <$> team))
      else inl ValidationError
  | None => inl ValidationError
  end.

Definition registrationError : Response :=
  fail 500 "Registration failed" "REGISTRATION_ERROR".

(** [role && ['admin', 'manager'].includes(role) ? 'user' : (role || 'user')]. *)
Definition assignedRole (role : option string) : string :=
  if truthy role && bool_decide (from_option id "" role ∈ ["admin"; "manager"])
  then "user"
  else or_else role "user".

(** [email.toLowerCase()] throws when the body has no [email]: the handler
    answers 500. *)
Definition register (body : RegisterBody.t) (oid : string) (w : World)
    : Response * World :=
  match RegisterBody.email body with
  | None => (registrationError, w)
  | Some email =>
      match User_findOne (toLowerCase email) (RegisterBody.username body)
              (users w) with
      | Some existingUser =>
          (fail 400 "User with this email or username already exists"
             "USER_EXISTS", w)
      | None =>
          match User_create oid (RegisterBody.username body) (Some email)
                  (RegisterBody.password body)
                  (assignedRole (RegisterBody.role body))
                  (RegisterBody.team body) (users w) with
          | inr user =>
              (ok 201 (UserData "User registered successfully" user),
               set_users (users w ++ [user]) w)
          | inl ValidationError => (validationFailed, w)
          | inl DuplicateKey => (registrationError, w)
          end
      end
  end.

(** ** A seeded world ([tests/setup/testDb.ts])

    The four seeded users and three seeded tasks of the test database, and a
    manager that has no team. *)

Definition seedAdmin : IUser.t :=
  IUser.mk "u0" "admin" "admin@example.com" RAdmin (Some "Engineering").

Definition seedManager : IUser.t :=
  IUser.mk "u1" "manager" "manager@example.com" RManager (Some "Engineering").

Definition seedUser : IUser.t :=
  IUser.mk "u2" "user" "user@example.com" RUser (Some "Engineering").

Definition seedUser2 : IUser.t :=
  IUser.mk "u3" "user2" "user2@example.com" RUser (Some "Sales").

Definition teamlessManager : IUser.t :=
  IUser.mk "u4" "lead" "lead@example.com" RManager None.

Definition seedTask1 : ITask.t :=
  ITask.mk "t1" "Task 1" (Some "First test task") None "high" "todo"
    "u0" (Some "u2") (Some "Engineering") 10 10.

Definition seedTask2 : ITask.t :=
  ITask.mk "t2" "Task 2" (Some "Second test task") None "medium" "in-progress"
    "u1" (Some "u2") (Some "Engineering") 20 20.

Definition seedTask3 : ITask.t :=
  ITask.mk "t3" "Task 3" (Some "Third test task") None "low" "completed"
    "u0" (Some "u3") (Some "Sales") 30 30.

Definition seedWorld : World :=
  mkWorld [seedTask1; seedTask2; seedTask3]
    [seedAdmin; seedManager; seedUser; seedUser2; teamlessManager]
    [] (Some ∅).

(** The invariant that the [trim] setter of [UserSchema] maintains: the team
    label of a stored user is its own trimmed form. *)
Definition teamTrimmed (u : IUser.t) : Prop :=
  trim <$> IUser.team u = IUser.team u.

Definition teamsTrimmed (w : World) : Prop :=
  Forall teamTrimmed (users w).

(** A string that does not begin with white space. *)
Definition startsPlain (s : string) : Prop :=
  match s with
  | String a _ => Ascii.is_space a = false
  | EmptyString => True
  end.

(** ** Sample store order and pattern compiler

    One concrete choice of the two store operations left open in
    [BulkReads], used to run the bulk handlers: documents are ordered by the
    instant in [createdAt] (and equal on every other path), and a pattern is
    read literally, case-insensitively. *)

Definition sampleFieldLe (k : string) (a b : ITask.t) : bool :=
  if decide (k = "createdAt") then ITask.createdAt a <=? ITask.createdAt b
  else true.

Definition sampleRegExp (pattern : string) : option (string -> bool) :=
  Some (fun s => match String.index 0 (toLowerCase pattern) (toLowerCase s) with
                | Some _ => true
                | None => false
                end).

(** Requests without any parameter. *)
Definition plainList : GetTasksQuery.t :=
  GetTasksQuery.mk None None None None None None.

Definition plainSearch : SearchQuery.t :=
  SearchQuery.mk None None None None None None None None None None.

(** A search whose only parameter is [team]. *)
Definition searchTeam (team : string) : SearchQuery.t :=
  SearchQuery.mk None None None None None None None (Some team) None None.

(** The user-level scope of the specification: the tasks that a principal
    created or is assigned. *)
Definition ownTask (P : IUser.t) (T : ITask.t) : bool :=
  bool_decide (ITask.createdBy T = IUser._id P)
  || bool_decide (ITask.assignedTo T = Some (IUser._id P)).

(** The role scope of a bulk query as the specification words it: every task
    for an admin, the tasks of the team for a manager with a team label, and
    the user-level scope for everybody else. *)
Definition scopeSpec (P : IUser.t) (T : ITask.t) : bool :=
  match IUser.role P with
  | RAdmin => true
  | RManager =>
      if truthy (IUser.team P) then bool_decide (ITask.team T = IUser.team P)
      else ownTask P T
  | RUser => ownTask P T
  end.

(** ** Sample token helpers

    One concrete choice of the three token helpers, used to run
    [authenticate]: the header is the token, a token is revoked when the
    collection holds it, and a token names the user it was issued to. *)

Definition sampleExtract (authorization : option string) : option string :=
  if truthy authorization then authorization else None.

Definition sampleBlacklisted (bl : list ITokenBlacklist) (tok : string) : bool :=
  bool_decide (tok ∈ token <$> bl).

Definition sampleVerify (tok : string) : option TokenPayload.t :=
  match cut_at ":"%char tok with
  | Some (uid, signature) =>
      if bool_decide (signature = "signed") then Some (TokenPayload.mk uid "" "")
      else None
  | None => None
  end.

(** The error code of a response, if it is an error. *)
Definition errorCode (r : Response) : option string :=
  match payload r with
  | Error _ code => Some code
  | _ => None
  end.

(** The error code with which a middleware ended the request, if it did. *)
Definition rejectedWith (r : Response + IUser.t) : option string :=
  match r with
  | inl r => errorCode r
  | inr _ => None
  end.

(** ** Token manager ([utils/tokenManager.ts]) *)

Fixpoint dropChars (n : nat) (s : string) : string :=
  match n, s with
  | S n', String _ s' => dropChars n' s'
  | _, _ => s
  end.

(** [authHeader.startsWith('Bearer ') ? authHeader.substring(7) : null]. *)
Definition extractTokenFromHeader (authHeader : option string) : option string :=
  match authHeader with
  | Some h => if String.prefix "Bearer " h then Some (dropChars 7 h) else None
  | None => None
  end.

(** The token that [authenticate] and [logout] go on with: the result of
    [extractTokenFromHeader] once it has passed their test [if (!token)],
    which also stops the empty token of the header ["Bearer "]. *)
Definition presentToken (authHeader : option string) : option string :=
  let token := extractTokenFromHeader authHeader in
  if truthy token then token else None.

(** [!!(await TokenBlacklist.findOne({ token }))]. *)
Definition isTokenBlacklisted (bl : list ITokenBlacklist) (tok : string) : bool :=
  bool_decide (tok ∈ token <$> bl).

Section Sessions.

(** [jwt.verify] and the expiry instant that [jwt.decode] reads off a token
    ([None] when the token does not decode or carries no [exp]). *)
Variable verifyToken : string -> option TokenPayload.t.
Variable decodeExp : string -> option Z.

(** [blacklistToken]: [None] is the thrown "Failed to blacklist token",
    for a token that does not decode and for one that the unique index of
    the collection already holds. *)
Definition blacklistToken (tok : string) (w : World) : option World :=
  match decodeExp tok with
  | Some exp =>
      if isTokenBlacklisted (tokenBlacklist w) tok then None
      else Some (mkWorld (tasks w) (users w)
                   (tokenBlacklist w ++ [mkBlacklisted tok exp])%list (redis w))
  | None => None
  end.

Definition logout (authorization : option string) (w : World) : Response * World :=
  match presentToken authorization with
  | None => (fail 401 "No token provided" "NO_TOKEN", w)
  | Some tok =>
      match blacklistToken tok w with
      | Some w' => (ok 200 (Message "Logout successful"), w')
      | None => (fail 500 "Logout failed" "LOGOUT_ERROR", w)
      end
  end.

(** [authenticate] with the helpers of the token manager. *)
Definition authenticateBearer (authorization : option string) (w : World)
    : Response + IUser.t :=
  authenticate presentToken isTokenBlacklisted verifyToken authorization w.

Definition optionalAuthenticateBearer (authorization : option string) (w : World)
    : option IUser.t :=
  optionalAuthenticate presentToken isTokenBlacklisted verifyToken authorization w.

End Sessions.

(** ** More of the cache service *)

Definition getUserProfileKey (userId : string) : string :=
  "user:profile:" +:+ userId.

(** [del]: the result tells whether a client was there. *)
Definition cache_del (key : string) (w : World) : bool * World :=
  match redis w with
  | Some r => (true, set_redis (Some (delete key r)) w)
  | None => (false, w)
  end.

Definition cache_exists (key : string) (w : World) : bool :=
  match redis w with
  | Some r => bool_decide (is_Some (r !! key))
  | None => false
  end.

Definition invalidateUserCache (userId : string) (w : World) : World :=
  delPattern ("tasks:list:" +:+ userId +:+ ":*")
    (snd (cache_del (getUserProfileKey userId) w)).

(** [cached(key, ttl, fetchFunction)]; [fresh] is what [fetchFunction]
    resolves to. *)
Definition cached (key : string) (fresh : Overview) (w : World) : Overview * World :=
  match cache_get key w with
  | Some cachedData => (cachedData, w)
  | None => (fresh, cache_set key fresh w)
  end.

(** [clearAll]: [flushdb]. *)
Definition clearAll (w : World) : World :=
  match redis w with
  | Some _ => set_redis (Some ∅) w
  | None => w
  end.

(** ** Team and user statistics ([controllers/analytics.controller.ts]) *)

Module MemberStats.
Record t := mk {
  userId : string;
  username : string;
  email : string;
  tasksAssigned : Z;
  tasksCompleted : Z;
}.
End MemberStats.

Module TeamStats.
Record t := mk {
  team : string;
  totalTasks : Z;
  completed : Z;
  pending : Z;
  overdue : Z;
  members : list MemberStats.t;
}.
End TeamStats.

(** [avgCompletionTime] is computed in floating point and is left out. *)
Module UserStats.
Record t := mk {
  userId : string;
  username : string;
  email : string;
  totalAssigned : Z;
  completed : Z;
  pending : Z;
  overdue : Z;
  totalCreated : Z;
}.
End UserStats.



Definition insufficientPermissions : Response :=
  fail 403 "Insufficient permissions" "FORBIDDEN".


(** The access test of [getUserStats]. *)
Definition canViewUserStats (user : IUser.t) (userId : string) (targetUser : IUser.t)
    : bool :=
  strictEquals (user_id (ofRequest user)) (JsString userId)
  || bool_decide (IUser.role user = RAdmin)
  || (bool_decide (IUser.role user = RManager)
      && bool_decide (IUser.team user = IUser.team targetUser)).

Definition getUserStats (reqUser : option IUser.t) (userId : string) (w : World)
    : Response + UserStats.t :=
  match reqUser with
  | None => inl unauthorized
  | Some user =>
      match User_findById userId (users w) with
      | None => inl (fail 404 "User not found" "NOT_FOUND")
      | Some targetUser =>
          if negb (canViewUserStats user userId targetUser)
          then inl insufficientPermissions
          else
            let q : gmap string Cond := {[ "assignedTo" := Is userId ]} in
            inr (UserStats.mk (IUser._id targetUser) (IUser.username targetUser)
                   (IUser.email targetUser)
                   (Task_countDocuments q (tasks w))
                   (Task_countDocuments (<["status" := Is "completed"]> q) (tasks w))
                   (Task_countDocuments
                      (<["status" := OneOf ["todo"; "in-progress"]]> q) (tasks w))
                   (Task_countDocuments (<["status" := Is "overdue"]> q) (tasks w))
                   (Task_countDocuments {[ "createdBy" := Is userId ]} (tasks w)))
      end
  end.

(** ** User listing ([controllers/auth.controller.ts]) *)

Module ListUsersQuery.
Record t := mk {
  page : option Z;
  limit : option Z;
  role : option string;
  team : option string;
}.
End ListUsersQuery.

Module UserPage.
Record t := mk {
  found : list IUser.t;
  page : Z;
  limit : Z;
  total : Z;
}.
End UserPage.




Section UserListing.

(** The order of the store on [createdAt] of two user documents. *)
Variable createdAt_le : IUser.t -> IUser.t -> bool.


End UserListing.

(** ** Socket notifications ([services/socketService.ts]) *)

(** The rooms that the connection handler lets a socket join. *)
Definition rooms (u : IUser.t) : list string :=
  ["user:" +:+ IUser._id u]
  ++ (if truthy (IUser.team u) then ["team:" +:+ from_option id "" (IUser.team u)]
      else [])
  ++ (if bool_decide (IUser.role u = RAdmin) then ["admins"] else []).

(** [io.to(room).emit(event, { message, ... })]. *)
Record Emit := mkEmit {
  room : string;
  event : string;
  message : string;
}.

(** A task after [populate('createdBy assignedTo')]: the two references are
    replaced by the user documents, or by [null] when no such user is
    stored. *)
Record Populated := mkPopulated {
  doc : ITask.t;
  creatorDoc : option IUser.t;
  assigneeDoc : option IUser.t;
}.

Definition populate (w : World) (t : ITask.t) : Populated :=
  mkPopulated t
    (User_findById (ITask.createdBy t) (users w))
    (ITask.assignedTo t ≫= fun a => User_findById a (users w)).

Definition emitToUser (userId event message : string) : list Emit :=
  [mkEmit ("user:" +:+ userId) event message].

Definition emitToTeam (teamName event message : string) : list Emit :=
  [mkEmit ("team:" +:+ teamName) event message].

Definition emitToAdmins (event message : string) : list Emit :=
  [mkEmit "admins" event message].

(** [io] is [false] while the server is not initialised: every function
    returns before it emits. *)
Definition notifyTaskCreated (io : bool) (task : Populated) : list Emit :=
  if negb io then []
  else
    (match assigneeDoc task with
     | Some a => emitToUser (IUser._id a) "task:created" "New task assigned to you"
     | None => []
     end)
    ++ (if truthy (ITask.team (doc task))
        then emitToTeam (from_option id "" (ITask.team (doc task)))
               "task:created" "New task created"
        else [])
    ++ emitToAdmins "task:created" "New task created".

Definition notifyTaskAssigned (io : bool) (task : Populated) (assigneeId : string)
    : list Emit :=
  if negb io then []
  else
    emitToUser assigneeId "task:assigned" "Task assigned to you"
    ++ (if truthy (ITask.team (doc task))
        then emitToTeam (from_option id "" (ITask.team (doc task)))
               "task:assigned" "Task reassigned"
        else []).

Definition notifyTaskUpdated (io : bool) (task : Populated) : list Emit :=
  if negb io then []
  else
    (match assigneeDoc task with
     | Some a => emitToUser (IUser._id a) "task:updated" "Task updated"
     | None => []
     end)
    ++ (match creatorDoc task with
        | Some c => emitToUser (IUser._id c) "task:updated" "Task updated"
        | None => []
        end)
    ++ (if truthy (ITask.team (doc task))
        then emitToTeam (from_option id "" (ITask.team (doc task)))
               "task:updated" "Task updated"
        else []).

Definition notifyTaskCompleted (io : bool) (task : Populated) : list Emit :=
  if negb io then []
  else
    (match creatorDoc task with
     | Some c => emitToUser (IUser._id c) "task:completed" "Task marked as completed"
     | None => []
     end)
    ++ (if truthy (ITask.team (doc task))
        then emitToTeam (from_option id "" (ITask.team (doc task)))
               "task:completed" "Task completed"
        else [])
    ++ emitToAdmins "task:completed" "Task completed".

Definition notifyTaskDeleted (io : bool) (taskId : string) (team : option string)
    : list Emit :=
  if negb io then []
  else
    (if truthy team
     then emitToTeam (from_option id "" team) "task:deleted" "Task deleted"
     else [])
    ++ emitToAdmins "task:deleted" "Task deleted".

(** A connected socket of [u] receives what is emitted to a room it
    joined. *)
Definition receives (u : IUser.t) (e : Emit) : bool :=
  bool_decide (room e ∈ rooms u).

(** A sample of the expiry that [jwt.decode] reads: every token that
    [sampleVerify] accepts expires at instant 5000. *)
Definition sampleDecodeExp (tok : string) : option Z :=
  match sampleVerify tok with
  | Some _ => Some 5000
  | None => None
  end.

(** No two stored users share an e-mail address or a user name (the two
    unique indexes of [UserSchema]). *)
Definition uniqueUsers (w : World) : Prop :=
  NoDup (IUser.email <$> users w) /\ NoDup (IUser.username <$> users w).

(** Every stored task passes the validators of [TaskSchema]. *)
Definition tasksValid (w : World) : Prop :=
  Forall (fun t => Task_valid t = true) (tasks w).


(** Two versions of a task with the same identity and ownership: the fields
    that [canAccessTask] and the role scope read, and the creation time. *)
Definition sameOwnership (a b : ITask.t) : Prop :=
  ITask._id a = ITask._id b
  /\ ITask.createdBy a = ITask.createdBy b
  /\ ITask.assignedTo a = ITask.assignedTo b
  /\ ITask.team a = ITask.team b
  /\ ITask.createdAt a = ITask.createdAt b.

(** * Properties *)

(** ** Truthiness and the access predicate *)

Lemma truthy_Some (x : option string) :
  truthy x = true <-> exists l, x = Some l /\ l <> "".
Proof.
  destruct x as [[|c s]|]; simpl; split.
  - discriminate.
  - intros (l & [= <-] & Hl). congruence.
  - intros _. exists (String c s). split; [reflexivity | discriminate].
  - reflexivity.
  - discriminate.
  - intros (l & Hl & _). discriminate.
Qed.

(** [===] between a string or an absent value and the identifier of
    [req.user], and between the identifier read at one path of a document
    and the one read at another path. *)
Lemma strictEquals_string_document (s : string) (u : IUser.t) :
  strictEquals (JsString s) (user_id (ofRequest u)) = false
  /\ strictEquals (user_id (ofRequest u)) (JsString s) = false.
Proof. split; reflexivity. Qed.

(** On plain objects whose identifiers are strings, as the unit tests of
    the helper pass them, [canAccessTask] is the predicate of the
    specification. *)
Lemma canAccessTask_plain (P : IUser.t) (T : ITask.t) :
  canAccessTask (plain P) (plain T) = true <-> may_access P T.
Proof.
  unfold canAccessTask, may_access, task_createdBy, task_assignedTo, user_id.
  cbn [plain held value idAt].
  destruct (bool_decide_reflect (IUser.role P = RAdmin)) as [Ha|Ha];
    [tauto|].
  assert (Hown : strictEquals (JsString (ITask.createdBy T)) (JsString (IUser._id P))
                 || strictEquals
                      match ITask.assignedTo T with
                      | Some a => JsString a
                      | None => JsUndefined
                      end (JsString (IUser._id P)) = true
                 <-> ITask.createdBy T = IUser._id P
                     \/ ITask.assignedTo T = Some (IUser._id P)).
  { rewrite orb_true_iff. cbn [strictEquals]. rewrite bool_decide_eq_true.
    destruct (ITask.assignedTo T) as [a|]; cbn [strictEquals].
    - rewrite bool_decide_eq_true. split; (intros [H|H]; [left; exact H|right]);
        congruence.
    - split; (intros [H|H]; [left; exact H | discriminate]). }
  assert (Hteam : truthy (IUser.team P)
                  && bool_decide (ITask.team T = IUser.team P) = true
                  <-> exists l, IUser.team P = Some l /\ l <> ""
                                /\ ITask.team T = Some l).
  { rewrite andb_true_iff, bool_decide_eq_true, truthy_Some. split.
    - intros ((l & Hl & Hne) & He). exists l. rewrite He. auto.
    - intros (l & Hl & Hne & HT). split; [eauto | congruence]. }
  destruct (bool_decide_reflect (IUser.role P = RManager)) as [Hm|Hm];
    cbn [andb].
  - destruct (truthy (IUser.team P) && _) eqn:Et.
    + split; [intros _|reflexivity]. right; left. split; [assumption|].
      apply Hteam. reflexivity.
    + destruct (_ || _) eqn:Eo.
      * split; [intros _|reflexivity]. right; right. apply Hown. reflexivity.
      * split; [discriminate|].
        intros [?|[(_ & H)|H]]; [contradiction| |].
        -- apply Hteam in H. discriminate.
        -- apply Hown in H. discriminate.
  - destruct (_ || _) eqn:Eo.
    + split; [intros _|reflexivity]. right; right. apply Hown. reflexivity.
    + split; [discriminate|].
      intros [?|[(? & _)|H]]; [contradiction|contradiction|].
      apply Hown in H. discriminate.
Qed.

(** On the documents that the handlers pass, the identifiers compared are
    two different objects, so only the role and team tests grant access. *)
Lemma canAccessTask_documents (P : IUser.t) (v : string) (T : ITask.t) :
  canAccessTask (ofRequest P) (ofQuery v T)
  = bool_decide (IUser.role P = RAdmin)
    || bool_decide (IUser.role P = RManager)
       && truthy (IUser.team P)
       && bool_decide (ITask.team T = IUser.team P).
Proof.
  unfold canAccessTask, task_createdBy, task_assignedTo, user_id.
  cbn [ofRequest ofQuery held value idAt strictEquals].
  assert (Hc : bool_decide ("createdBy" = "_id") = false) by reflexivity.
  assert (Ha : forall a, strictEquals
                 match ITask.assignedTo T with
                 | Some a => JsObject v "assignedTo" a
                 | None => JsUndefined
                 end (JsObject "req.user" "_id" a) = false).
  { intros a. destruct (ITask.assignedTo T); cbn [strictEquals];
      [apply andb_false_r | reflexivity]. }
  rewrite Hc, andb_false_r, Ha. cbn [orb].
  destruct (bool_decide (IUser.role P = RAdmin)); [reflexivity|].
  destruct (bool_decide (IUser.role P = RManager) && _ && _); reflexivity.
Qed.

Lemma canAccessTask_grantedByRole (P : IUser.t) (v : string) (T : ITask.t) :
  canAccessTask (ofRequest P) (ofQuery v T) = true <-> grantedByRole P T.
Proof.
  rewrite canAccessTask_documents. unfold grantedByRole.
  rewrite orb_true_iff, !andb_true_iff, !bool_decide_eq_true. tauto.
Qed.

(** A principal of role user passes [canAccessTask] in no handler. *)
Lemma canAccessTask_user (P : IUser.t) (v : string) (T : ITask.t) :
  IUser.role P = RUser -> canAccessTask (ofRequest P) (ofQuery v T) = false.
Proof. intros H. rewrite canAccessTask_documents, H. reflexivity. Qed.

Example trim_example : trim "  Sales team " = "Sales team".
Proof. reflexivity. Qed.

Example split_example : split "," "todo,in-progress" = ["todo"; "in-progress"].
Proof. reflexivity. Qed.

Example lower_example : toLowerCase "Bob@Example.COM" = "bob@example.com".
Proof. reflexivity. Qed.

Lemma matches_spec (q : gmap string Cond) (t : ITask.t) :
  matches q t = true <-> forall k c, q !! k = Some c -> sat t k c = true.
Proof. unfold matches. rewrite bool_decide_eq_true. reflexivity. Qed.

Lemma matches_lookup (q : gmap string Cond) (t : ITask.t) k c :
  matches q t = true -> q !! k = Some c -> sat t k c = true.
Proof. intros H. apply matches_spec. exact H. Qed.

Lemma Task_find_elem (q : gmap string Cond) (ts : list ITask.t) (t : ITask.t) :
  t ∈ Task_find q ts <-> t ∈ ts /\ matches q t = true.
Proof.
  unfold Task_find. rewrite !list_elem_of_In, filter_In. reflexivity.
Qed.

Example roleScope_example :
  matches (roleScope (IUser.mk "u1" "ann" "ann@x.io" RUser (Some "Sales")))
          (ITask.mk "t1" "Plan" None None "low" "todo" "u2" (Some "u1")
                    (Some "Ops") 0 0) = true.
Proof. vm_compute. reflexivity. Qed.

Example glob_example :
  glob "analytics:*" "analytics:overview:u1:user" = true
  /\ glob "tasks:*" "analytics:overview:u1:user" = false.
Proof. split; reflexivity. Qed.

Example email_ok_example :
  email_ok "ann@example.com" = true /\ email_ok "ann@com" = false
  /\ email_ok "a@b@c.d" = false /\ email_ok "ann@.com" = false.
Proof. repeat split; reflexivity. Qed.

(** ** The access predicate and the single-task handlers *)

Lemma Task_findById_id (id : string) (ts : list ITask.t) (T : ITask.t) :
  Task_findById id ts = Some T -> ITask._id T = id /\ T ∈ ts.
Proof.
  unfold Task_findById. intros H. apply find_some in H as [Hin Hid].
  apply bool_decide_eq_true in Hid. split; [assumption|].
  apply list_elem_of_In. assumption.
Qed.

Lemma User_findById_id (id : string) (us : list IUser.t) (u : IUser.t) :
  User_findById id us = Some u -> IUser._id u = id /\ u ∈ us.
Proof.
  unfold User_findById. intros H. apply find_some in H as [Hin Hid].
  apply bool_decide_eq_true in Hid. split; [assumption|].
  apply list_elem_of_In. assumption.
Qed.

Lemma ok_not_taskNotFound (p : Payload) : ok 200 p <> taskNotFound.
Proof. discriminate. Qed.

(** Single-task read, update and delete are decided by [canAccessTask] on
    the two documents: on an existing task each of the three handlers
    answers "Task not found" exactly when it is false. *)
Lemma handlers_apply_canAccessTask (P : IUser.t) (T : ITask.t)
    (id : string) (w : World) :
  Task_findById id (tasks w) = Some T ->
  let denied := canAccessTask (ofRequest P) (ofQuery "task" T) = false in
  (getTaskById (Some P) id w = taskNotFound <-> denied)
  /\ (forall body now,
        fst (updateTask (Some P) id body now w) = taskNotFound <-> denied)
  /\ (fst (deleteTask (Some P) id w) = taskNotFound <-> denied).
Proof.
  intros Hfind. cbn zeta. unfold getTaskById, updateTask, deleteTask.
  rewrite Hfind. destruct (canAccessTask (ofRequest _) (ofQuery "task" _)); simpl.
  - split; [|split].
    + split; [intros H; exfalso; revert H; apply ok_not_taskNotFound
             | discriminate].
    + intros body now. destruct (Task_save _ _ _); simpl;
        (split; [discriminate | discriminate]).
    + split; discriminate.
  - split; [|split]; [|intros body now|]; split; reflexivity.
Qed.

(** C1.  The claim says that [canAccessTask] holds for the creator and the
    assignee of a task and that it decides single-task read, update and
    delete.  It does decide them, but on the documents the handlers pass
    the creator and assignee test never holds: the seeded user [u2] is the
    assignee of the stored task [t1], the helper accepts the pair as plain
    objects with string identifiers, and read, update and delete of [t1] by
    [u2] are all answered "Task not found" and change nothing. *)
Theorem assignee_is_refused_by_handlers :
  Task_findById "t1" (tasks seedWorld) = Some seedTask1
  /\ ITask.assignedTo seedTask1 = Some (IUser._id seedUser)
  /\ may_access seedUser seedTask1
  /\ canAccessTask (plain seedUser) (plain seedTask1) = true
  /\ canAccessTask (ofRequest seedUser) (ofQuery "task" seedTask1) = false
  /\ getTaskById (Some seedUser) "t1" seedWorld = taskNotFound
  /\ updateTask (Some seedUser) "t1"
       (UpdateTaskBody.mk (Some "Renamed") None None None None) 100 seedWorld
     = (taskNotFound, seedWorld)
  /\ deleteTask (Some seedUser) "t1" seedWorld = (taskNotFound, seedWorld).
Proof.
  split; [reflexivity|]. split; [reflexivity|].
  split; [right; right; right; reflexivity|].
  repeat split; vm_compute; reflexivity.
Qed.

(** ** Denied access to one task *)

(** C7, as stated, fails for [assignTask]: the seeded user of team Sales has
    no assignment capability and cannot see the existing task [t1], and the
    answer to the assign request is 403 "FORBIDDEN", not "Task not found". *)
Lemma assign_denial_is_forbidden :
  Task_findById "t1" (tasks seedWorld) = Some seedTask1
  /\ canAccessTask (ofRequest seedUser2) (ofQuery "task" seedTask1) = false
  /\ fst (assignTask (Some seedUser2) "t1" (Some "u3") 100 seedWorld)
     = fail 403 "You do not have permission to assign tasks" "FORBIDDEN"
  /\ fst (assignTask (Some seedUser2) "t1" (Some "u3") 100 seedWorld)
     <> taskNotFound.
Proof. repeat split; try reflexivity. vm_compute. discriminate. Qed.

(** C7, amended.  On an existing task that the principal may not access,
    read, update and delete answer the very response given for an identifier
    that matches no task ("Task not found", 404) and change nothing; so does
    assign when the principal has assignment capability.  A principal without
    assignment capability is answered 403 by assign before the task is looked
    up, whether the task exists or not. *)
Theorem denied_access_is_notFound (P : IUser.t) (T : ITask.t)
    (id missing : string) (w : World)
    (Hfind : Task_findById id (tasks w) = Some T)
    (Hmissing : Task_findById missing (tasks w) = None)
    (Hdeny : canAccessTask (ofRequest P) (ofQuery "task" T) = false) :
  statusCode taskNotFound = 404
  /\ (getTaskById (Some P) id w = taskNotFound
      /\ getTaskById (Some P) missing w = taskNotFound)
  /\ (forall body now,
        updateTask (Some P) id body now w = (taskNotFound, w)
        /\ updateTask (Some P) missing body now w = (taskNotFound, w))
  /\ (deleteTask (Some P) id w = (taskNotFound, w)
      /\ deleteTask (Some P) missing w = (taskNotFound, w))
  /\ (forall assignedTo now,
        if canAssignTask P then
          assignTask (Some P) id assignedTo now w = (taskNotFound, w)
          /\ assignTask (Some P) missing assignedTo now w = (taskNotFound, w)
        else
          assignTask (Some P) id assignedTo now w = (cannotAssign, w)
          /\ assignTask (Some P) missing assignedTo now w = (cannotAssign, w)).
Proof.
  unfold getTaskById, updateTask, deleteTask, assignTask.
  rewrite Hfind, Hmissing, Hdeny. simpl.
  repeat split. intros assignedTo now.
  destruct (canAssignTask P); simpl; split; reflexivity.
Qed.

(** The seeded Engineering manager and the seeded Sales task [t3]. *)
Lemma denied_access_is_notFound_witness :
  assignTask (Some seedManager) "t3" (Some "u2") 100 seedWorld
  = (taskNotFound, seedWorld)
  /\ getTaskById (Some seedManager) "t3" seedWorld
     = getTaskById (Some seedManager) "t9" seedWorld.
Proof.
  destruct (denied_access_is_notFound seedManager seedTask3 "t3" "t9" seedWorld
              eq_refl eq_refl eq_refl)
    as (_ & (Hget & Hget') & _ & _ & Hassign).
  split.
  - apply (Hassign (Some "u2") 100).
  - rewrite Hget, Hget'. reflexivity.
Defined.

(** ** Role updates *)

(** C8.  The claim says that a role update whose target is the requester
    is rejected and changes nothing.  The handler has the test, but it
    compares the target's identifier rendered as a string with the ObjectId
    of [req.user], which are never equal: the seeded admin [u0] asking to
    become a plain user is answered 200 and is stored with role user
    afterwards. *)
Theorem updateUserRole_self_not_rejected :
  User_findById "u0" (users seedWorld) = Some seedAdmin
  /\ IUser.role seedAdmin = RAdmin
  /\ fst (updateUserRole (Some seedAdmin) "u0" (Some "user") seedWorld)
     = ok 200 (UserData "User role updated successfully"
                 (with_role RUser seedAdmin))
  /\ User_findById "u0"
       (users (snd (updateUserRole (Some seedAdmin) "u0" (Some "user") seedWorld)))
     = Some (with_role RUser seedAdmin)
  /\ fst (updateUserRole (Some seedAdmin) "u0" (Some "user") seedWorld)
     <> selfRoleChange.
Proof.
  split; [reflexivity|]. split; [reflexivity|].
  split; [vm_compute; reflexivity|]. split; [vm_compute; reflexivity|].
  vm_compute. discriminate.
Qed.

(** ** Authentication *)

Section AuthenticationGates.

Variable extractTokenFromHeader : option string -> option string.
Variable isTokenBlacklisted : list ITokenBlacklist -> string -> bool.
Variable verifyToken : string -> option TokenPayload.t.

(** C6. [authenticate] applies four gates in order: a token is present,
    it is not revoked, it verifies, and its user exists.  Every rejection
    is a 401; the rejection is that of the first gate that fails (so a
    revoked token is rejected whatever [verifyToken] says about it, and a
    verified, non-revoked token of a user that is no longer stored is
    rejected); and a user is attached exactly when all four gates pass. *)
Theorem authenticate_gates (authorization : option string) (w : World) :
  (forall r, authenticate extractTokenFromHeader isTokenBlacklisted verifyToken
         authorization w = inl r ->
             statusCode r = 401 /\ success r = false)
  /\ (forall user,
        authenticate extractTokenFromHeader isTokenBlacklisted verifyToken
         authorization w = inr user <->
        exists tok decoded,
          extractTokenFromHeader authorization = Some tok
          /\ isTokenBlacklisted (tokenBlacklist w) tok = false
          /\ verifyToken tok = Some decoded
          /\ User_findById (TokenPayload.userId decoded) (users w) = Some user)
  /\ (extractTokenFromHeader authorization = None ->
      rejectedWith (authenticate extractTokenFromHeader isTokenBlacklisted verifyToken
         authorization w) = Some "NO_TOKEN")
  /\ (forall tok,
        extractTokenFromHeader authorization = Some tok ->
        isTokenBlacklisted (tokenBlacklist w) tok = true ->
        rejectedWith (authenticate extractTokenFromHeader isTokenBlacklisted verifyToken
         authorization w) = Some "TOKEN_BLACKLISTED")
  /\ (forall tok,
        extractTokenFromHeader authorization = Some tok ->
        isTokenBlacklisted (tokenBlacklist w) tok = false ->
        verifyToken tok = None ->
        rejectedWith (authenticate extractTokenFromHeader isTokenBlacklisted verifyToken
         authorization w) = Some "INVALID_TOKEN")
  /\ (forall tok decoded,
        extractTokenFromHeader authorization = Some tok ->
        isTokenBlacklisted (tokenBlacklist w) tok = false ->
        verifyToken tok = Some decoded ->
        User_findById (TokenPayload.userId decoded) (users w) = None ->
        rejectedWith (authenticate extractTokenFromHeader isTokenBlacklisted verifyToken
         authorization w) = Some "USER_NOT_FOUND").
Proof.
  unfold authenticate.
  destruct (extractTokenFromHeader authorization) as [tok|] eqn:Hx;
    [destruct (isTokenBlacklisted (tokenBlacklist w) tok) eqn:Hb;
     [|destruct (verifyToken tok) as [decoded|] eqn:Hv;
       [destruct (User_findById (TokenPayload.userId decoded) (users w))
          as [found|] eqn:Hu|]]|].
  all: split; [intros r Hr; simplify_eq; split; reflexivity|].
  all: split;
    [intros user; split;
     [intros Hr; simplify_eq; eauto 10
     |intros (tok' & decoded' & ? & ? & ? & ?); simplify_eq; congruence]|].
  all: repeat split; intros; simplify_eq; try reflexivity; congruence.
Qed.

End AuthenticationGates.

(** With the sample helpers: the seeded user's token verifies and the user
    exists, yet once the token is in the revoked collection the request is
    rejected as "TOKEN_BLACKLISTED". *)
Lemma authenticate_gates_witness :
  sampleVerify "u2:signed" = Some (TokenPayload.mk "u2" "" "")
  /\ User_findById "u2" (users seedWorld) = Some seedUser
  /\ rejectedWith
       (authenticate sampleExtract sampleBlacklisted sampleVerify
          (Some "u2:signed")
          (mkWorld (tasks seedWorld) (users seedWorld)
             [mkBlacklisted "u2:signed" 5000] (redis seedWorld)))
     = Some "TOKEN_BLACKLISTED".
Proof.
  split; [reflexivity|]. split; [reflexivity|].
  destruct (authenticate_gates sampleExtract sampleBlacklisted sampleVerify
              (Some "u2:signed")
              (mkWorld (tasks seedWorld) (users seedWorld)
                 [mkBlacklisted "u2:signed" 5000] (redis seedWorld)))
    as (_ & _ & _ & Hrevoked & _).
  apply (Hrevoked "u2:signed"); reflexivity.
Defined.

(** ** Registration *)

Lemma assignedRole_elevated (role : option string) :
  role = Some "admin" \/ role = Some "manager" -> assignedRole role = "user".
Proof. intros [-> | ->]; reflexivity. Qed.

Lemma assignedRole_parses_to_user (role : option string) (r : Role) :
  role_of_string (assignedRole role) = Some r -> r = RUser.
Proof.
  unfold assignedRole.
  destruct (truthy role) eqn:Ht; simpl.
  - apply truthy_Some in Ht as (l & -> & Hne). simpl.
    case_bool_decide as Hin.
    + vm_compute. congruence.
    + destruct l as [|a l]; [congruence|]. simpl.
      unfold role_of_string.
      destruct (decide (String a l = "admin")) as [E|_].
      { exfalso. apply Hin. rewrite E. set_solver. }
      destruct (decide (String a l = "manager")) as [E|_].
      { exfalso. apply Hin. rewrite E. set_solver. }
      destruct (decide (String a l = "user")); congruence.
  - assert (or_else role "user" = "user") as ->.
    { destruct role as [[|a l]|]; simpl in *; congruence. }
    vm_compute. congruence.
Qed.

Lemma User_create_role oid username email password role team us u :
  User_create oid username email password (assignedRole role) team us = inr u ->
  IUser.role u = RUser.
Proof.
  unfold User_create.
  destruct (role_of_string (assignedRole role)) as [r|] eqn:Hr; [|discriminate].
  apply assignedRole_parses_to_user in Hr as ->.
  destruct (_ && _); [|discriminate].
  destruct (existsb _ _); [discriminate|].
  intros [= <-]. reflexivity.
Qed.

(** C9. Public registration never stores or returns an elevated role: a
    [role] field of "admin" or "manager" is replaced by "user"; a successful
    registration returns the very record it appends to the collection, and
    that record has role [user]; and for any payload, every user in the
    collection afterwards was there before or has role [user]. *)
Theorem register_role_is_user (body : RegisterBody.t) (oid : string) (w : World) :
  (RegisterBody.role body = Some "admin" \/ RegisterBody.role body = Some "manager" ->
   assignedRole (RegisterBody.role body) = "user")
  /\ (statusCode (fst (register body oid w)) = 201 ->
      exists u,
        fst (register body oid w) = ok 201 (UserData "User registered successfully" u)
        /\ users (snd (register body oid w)) = (users w ++ [u])%list
        /\ IUser.role u = RUser)
  /\ (forall u, u ∈ users (snd (register body oid w)) ->
                u ∈ users w \/ IUser.role u = RUser).
Proof.
  split; [apply assignedRole_elevated|].
  unfold register.
  destruct (RegisterBody.email body) as [email|]; simpl;
    [|split; [discriminate | auto]].
  destruct (User_findOne _ _ _); simpl; [split; [discriminate | auto]|].
  destruct (User_create _ _ _ _ _ _ _) as [[|]|u] eqn:Hc; simpl;
    try (split; [discriminate | auto]).
  apply User_create_role in Hc. split.
  - intros _. exists u. auto.
  - intros u' Hin. apply elem_of_app in Hin as [Hin|Hin]; [auto|].
    apply list_elem_of_singleton in Hin as ->. auto.
Qed.

(** A registration that asks for the admin role. *)
Lemma register_role_is_user_witness :
  exists u,
    fst (register (RegisterBody.mk (Some "mallory") (Some "Mallory@Example.com")
                     (Some "Test123!@#") (Some "admin") (Some "Sales"))
           "u9" seedWorld)
    = ok 201 (UserData "User registered successfully" u)
    /\ IUser.role u = RUser.
Proof.
  destruct (register_role_is_user
              (RegisterBody.mk (Some "mallory") (Some "Mallory@Example.com")
                 (Some "Test123!@#") (Some "admin") (Some "Sales"))
              "u9" seedWorld) as (_ & H & _).
  destruct (H eq_refl) as (u & Hr & _ & Hu).
  exists u. split; assumption.
Defined.

(** ** Trimming *)

Lemma trimStart_startsPlain (s : string) : startsPlain (trimStart s).
Proof.
  induction s as [|a s IH]; simpl; [exact I|].
  destruct (Ascii.is_space a) eqn:Ha; [exact IH | exact Ha].
Qed.

Lemma trimStart_fixed (s : string) : startsPlain s -> trimStart s = s.
Proof. destruct s as [|a s]; simpl; [reflexivity|]. intros ->. reflexivity. Qed.

Lemma trimStart_suffix (s : string) : exists p, s = p +:+ trimStart s.
Proof.
  induction s as [|a s (p & IH)]; simpl.
  - exists EmptyString. reflexivity.
  - destruct (Ascii.is_space a).
    + exists (String a p). change (String a s = String a (p +:+ trimStart s)).
      rewrite <- IH. reflexivity.
    + exists EmptyString. reflexivity.
Qed.

Lemma append_empty_r (s : string) : s +:+ EmptyString = s.
Proof.
  induction s as [|a s IH]; [reflexivity|].
  change (String a (s +:+ EmptyString) = String a s). rewrite IH. reflexivity.
Qed.

Lemma rev_app_rev_app (s t u : string) :
  String.rev_app (String.rev_app s t) u = String.rev_app t (s +:+ u).
Proof.
  revert t u. induction s as [|a s IH]; intros t u; [reflexivity|].
  simpl. rewrite IH. reflexivity.
Qed.

Lemma rev_involutive (s : string) : String.rev (String.rev s) = s.
Proof.
  unfold String.rev. rewrite rev_app_rev_app. simpl. apply append_empty_r.
Qed.

Lemma rev_app_append (p y acc : string) :
  String.rev_app (p +:+ y) acc = String.rev_app y (String.rev_app p acc).
Proof.
  revert acc. induction p as [|a p IH]; intros acc; [reflexivity|].
  change (String.rev_app (p +:+ y) (String a acc)
          = String.rev_app y (String.rev_app p (String a acc))).
  apply IH.
Qed.

Lemma rev_app_startsPlain (y q q' : string) :
  y <> EmptyString ->
  startsPlain (String.rev_app y q) -> startsPlain (String.rev_app y q').
Proof.
  revert q q'. induction y as [|a y IH]; intros q q' Hne; [congruence|].
  simpl. destruct y as [|b y]; [simpl; auto|].
  apply IH. discriminate.
Qed.

Lemma trim_idempotent (s : string) : trim (trim s) = trim s.
Proof.
  unfold trim.
  set (x := trimStart s).
  set (y := trimStart (String.rev x)).
  assert (Hx : startsPlain x) by apply trimStart_startsPlain.
  assert (Hy : startsPlain y) by apply trimStart_startsPlain.
  assert (Hry : startsPlain (String.rev y)).
  { destruct (trimStart_suffix (String.rev x)) as (p & Hp). fold y in Hp.
    assert (Hxy : x = String.rev_app y (String.rev_app p EmptyString)).
    { rewrite <- rev_app_append, <- Hp. symmetry. apply rev_involutive. }
    destruct (decide (y = EmptyString)) as [->|Hne]; [exact I|].
    unfold String.rev.
    apply (rev_app_startsPlain y (String.rev_app p EmptyString) EmptyString Hne).
    rewrite <- Hxy. exact Hx. }
  rewrite (trimStart_fixed (String.rev y) Hry), rev_involutive.
  rewrite (trimStart_fixed y Hy). reflexivity.
Qed.

Lemma User_create_teamTrimmed oid username email password role team us u :
  User_create oid username email password role team us = inr u ->
  teamTrimmed u.
Proof.
  unfold User_create.
  destruct (role_of_string role); [|discriminate].
  destruct (_ && _); [|discriminate].
  destruct (existsb _ _); [discriminate|].
  intros [= <-]. unfold teamTrimmed. simpl.
  destruct team as [l|]; simpl; [|reflexivity].
  rewrite trim_idempotent. reflexivity.
Qed.

(** The handlers that write the user collection keep the invariant. *)
Lemma teamsTrimmed_preserved (w : World) :
  teamsTrimmed w ->
  (forall body oid, teamsTrimmed (snd (register body oid w)))
  /\ (forall reqUser userId role,
        teamsTrimmed (snd (updateUserRole reqUser userId role w)))
  /\ (forall reqUser userId, teamsTrimmed (snd (deleteUser reqUser userId w))).
Proof.
  unfold teamsTrimmed. intros Hw. split; [|split].
  - intros body oid. unfold register.
    destruct (RegisterBody.email body); simpl; [|exact Hw].
    destruct (User_findOne _ _ _); simpl; [exact Hw|].
    destruct (User_create _ _ _ _ _ _ _) as [[|]|u] eqn:Hc; simpl;
      try exact Hw.
    apply Forall_app. split; [exact Hw|].
    apply Forall_singleton. apply (User_create_teamTrimmed _ _ _ _ _ _ _ _ Hc).
  - intros [reqUser|] userId role; unfold updateUserRole; simpl; [|exact Hw].
    destruct (canAssignRole reqUser role); simpl; [|exact Hw].
    destruct (User_findById userId (users w)) as [target|] eqn:Hf; simpl;
      [|exact Hw].
    apply User_findById_id in Hf as [_ Hin].
    assert (Ht : teamTrimmed target).
    { rewrite Forall_forall in Hw. apply Hw, Hin. }
    unfold User_replace. apply Forall_fmap.
    eapply Forall_impl; [exact Hw|]. intros u Hu. simpl.
    destruct (bool_decide _); [exact Ht | exact Hu].
  - intros [reqUser|] userId; unfold deleteUser; simpl; [|exact Hw].
    destruct (User_findById userId (users w)); simpl; [|exact Hw].
    rewrite Forall_forall in *. intros u Hu.
    apply list_elem_of_In, filter_In in Hu as [Hu _].
    apply Hw, list_elem_of_In, Hu.
Qed.

(** ** Task creation *)

Lemma delPattern_tasks (pattern : string) (w : World) :
  tasks (delPattern pattern w) = tasks w.
Proof. unfold delPattern. destruct (redis w); reflexivity. Qed.

Lemma delPattern_users (pattern : string) (w : World) :
  users (delPattern pattern w) = users w.
Proof. unfold delPattern. destruct (redis w); reflexivity. Qed.

Lemma invalidateTaskCaches_tasks (w : World) :
  tasks (invalidateTaskCaches w) = tasks w.
Proof. unfold invalidateTaskCaches. rewrite !delPattern_tasks. reflexivity. Qed.

Lemma Task_preSave_fields (now : Z) (t : ITask.t) :
  ITask._id (Task_preSave now t) = ITask._id t
  /\ ITask.createdBy (Task_preSave now t) = ITask.createdBy t
  /\ ITask.assignedTo (Task_preSave now t) = ITask.assignedTo t
  /\ ITask.team (Task_preSave now t) = ITask.team t.
Proof.
  unfold Task_preSave. destruct (ITask.dueDate t); [|auto].
  destruct (_ && _); auto.
Qed.

Lemma Task_create_fields (now : Z) (doc task : ITask.t) :
  Task_create now doc = Some task ->
  ITask._id task = ITask._id doc
  /\ ITask.createdBy task = ITask.createdBy doc
  /\ ITask.assignedTo task = ITask.assignedTo doc
  /\ ITask.team task = trim <$> ITask.team doc.
Proof.
  unfold Task_create. destruct (Task_valid _); [|discriminate].
  intros [= <-].
  destruct (Task_preSave_fields now (Task_setters doc)) as (-> & -> & -> & ->).
  repeat split.
Qed.

Lemma or_else_falsy (a : option string) (b : string) :
  truthy a = false -> or_else a b = b.
Proof. destruct a as [[|c s]|]; simpl; congruence. Qed.

(** A successful [createTask] appends one task whose team label is the
    creating principal's (through the [trim] setter of the schema, which
    leaves the label of a stored user as it is: [teamsTrimmed_preserved]),
    whatever [team] the body carries; whose creator is the principal; and
    whose assignee is the principal when the body names none. *)
Lemma createTask_stores (user : IUser.t) (body : CreateTaskBody.t)
    (oid : string) (now : Z) (w : World) :
  statusCode (fst (createTask (Some user) body oid now w)) = 201 ->
  (forall team',
      createTask (Some user)
        (CreateTaskBody.mk (CreateTaskBody.title body)
           (CreateTaskBody.description body) (CreateTaskBody.dueDate body)
           (CreateTaskBody.priority body) (CreateTaskBody.assignedTo body)
           team') oid now w
      = createTask (Some user) body oid now w)
  /\ exists task,
      createTask (Some user) body oid now w
      = (ok 201 (TaskData (Some "Task created successfully") task),
         invalidateTaskCaches (set_tasks (tasks w ++ [task])%list w))
      /\ tasks (snd (createTask (Some user) body oid now w))
         = (tasks w ++ [task])%list
      /\ ITask._id task = oid
      /\ ITask.team task = trim <$> IUser.team user
      /\ (teamTrimmed user -> ITask.team task = IUser.team user)
      /\ ITask.createdBy task = IUser._id user
      /\ (truthy (CreateTaskBody.assignedTo body) = false ->
          ITask.assignedTo task = Some (IUser._id user)).
Proof.
  intros Hcreated. split; [reflexivity|].
  unfold createTask in *.
  destruct (_ && _ && _); [discriminate|].
  destruct (Task_create _ _) as [task|] eqn:Hc; [|discriminate].
  apply Task_create_fields in Hc as (Hid & Hby & Hto & Hteam). simpl in *.
  exists task. split; [reflexivity|]. split.
  { rewrite invalidateTaskCaches_tasks. reflexivity. }
  split; [exact Hid|].
  split; [exact Hteam|]. split; [congruence|].
  split; [exact Hby|].
  intros Hnone. rewrite Hto, or_else_falsy by assumption. reflexivity.
Qed.

(** C10.  The claim says that a created task carries the creator's team
    whatever the body says, defaults its assignee to the creator, and so is
    visible to its creator.  The first two hold ([createTask_stores]); the
    consequence does not.  The seeded Engineering user [u2] creates a task
    with a body that asks for team Sales and names no assignee: the task is
    stored with team Engineering and with [u2] as creator and assignee, the
    specification's predicate holds of it, and the same user's read of it
    is answered "Task not found", because [canAccessTask] compares two
    different objects. *)
Theorem created_task_is_refused_to_creator :
  let body := CreateTaskBody.mk (Some "User Task") (Some "Created by user")
                None (Some "low") None (Some "Sales") in
  let task := ITask.mk "t4" "User Task" (Some "Created by user") None "low"
                "todo" "u2" (Some "u2") (Some "Engineering") 40 40 in
  let w' := snd (createTask (Some seedUser) body "t4" 40 seedWorld) in
  fst (createTask (Some seedUser) body "t4" 40 seedWorld)
  = ok 201 (TaskData (Some "Task created successfully") task)
  /\ Task_findById "t4" (tasks w') = Some task
  /\ ITask.createdBy task = IUser._id seedUser
  /\ may_access seedUser task
  /\ canAccessTask (ofRequest seedUser) (ofQuery "task" task) = false
  /\ getTaskById (Some seedUser) "t4" w' = taskNotFound.
Proof.
  cbn zeta.
  split; [vm_compute; reflexivity|]. split; [vm_compute; reflexivity|].
  split; [reflexivity|]. split; [right; right; left; reflexivity|].
  split; vm_compute; reflexivity.
Qed.

(** ** Role scope of the bulk queries *)

Lemma matches_empty (t : ITask.t) : matches ∅ t = true.
Proof. apply matches_spec. intros k c H. rewrite lookup_empty in H. discriminate. Qed.

Lemma matches_singleton (k : string) (c : Cond) (t : ITask.t) :
  matches {[ k := c ]} t = sat t k c.
Proof.
  destruct (sat t k c) eqn:Hs.
  - apply matches_spec. intros k' c' H.
    apply lookup_singleton_Some in H as [<- <-]. exact Hs.
  - apply not_true_is_false. intros H.
    rewrite (matches_lookup _ _ k c H) in Hs; [discriminate|].
    apply lookup_singleton_eq.
Qed.

(** What the role scope of the code admits. *)
Lemma roleScope_matches (P : IUser.t) (T : ITask.t) :
  matches (roleScope P) T
  = match IUser.role P with
    | RAdmin => true
    | RManager =>
        if truthy (IUser.team P) then bool_decide (ITask.team T = IUser.team P)
        else true
    | RUser => ownTask P T
    end.
Proof.
  unfold roleScope. destruct (IUser.role P); simpl.
  - apply matches_empty.
  - destruct (truthy (IUser.team P)) eqn:Ht; [|apply matches_empty].
    rewrite matches_singleton. simpl.
    apply truthy_Some in Ht as (l & -> & _). reflexivity.
  - rewrite matches_singleton. simpl. unfold ownTask.
    rewrite orb_false_r.
    change (field "createdBy" T) with (Some (ITask.createdBy T)).
    change (field "assignedTo" T) with (ITask.assignedTo T).
    f_equal. apply bool_decide_ext. split; congruence.
Qed.

(** The code and the specification agree on the scope except for a manager
    without a team label. *)
Lemma roleScope_scopeSpec (P : IUser.t) (T : ITask.t) :
  IUser.role P <> RManager \/ truthy (IUser.team P) = true ->
  matches (roleScope P) T = scopeSpec P T.
Proof.
  rewrite roleScope_matches. unfold scopeSpec.
  destruct (IUser.role P); try reflexivity.
  intros [H|Ht]; [congruence | rewrite Ht; reflexivity].
Qed.

Lemma roleScope_teamless_manager (P : IUser.t) :
  IUser.role P = RManager -> truthy (IUser.team P) = false ->
  roleScope P = ∅ /\ forall T, matches (roleScope P) T = true.
Proof.
  intros Hr Ht. assert (H : roleScope P = ∅).
  { unfold roleScope. rewrite Hr, Ht. reflexivity. }
  split; [exact H|]. intros T. rewrite H. apply matches_empty.
Qed.

(** The keys of the role scope. *)
Lemma roleScope_keys (P : IUser.t) (k : string) (c : Cond) :
  roleScope P !! k = Some c ->
  (k = "$or" /\ IUser.role P = RUser)
  \/ (k = "team" /\ IUser.role P = RManager /\ truthy (IUser.team P) = true).
Proof.
  unfold roleScope. destruct (IUser.role P); simpl.
  - rewrite lookup_empty. discriminate.
  - destruct (truthy (IUser.team P)); [|rewrite lookup_empty; discriminate].
    intros H. apply lookup_singleton_Some in H as [<- _]. auto.
  - intros H. apply lookup_singleton_Some in H as [<- _]. auto.
Qed.

Lemma lookup_set_if_ne (v : option string) (k k' : string) (c : string -> Cond)
    (q : gmap string Cond) :
  k <> k' -> set_if v k c q !! k' = q !! k'.
Proof.
  intros Hne. unfold set_if. destruct v as [[|a s]|]; try reflexivity.
  apply lookup_insert_ne. exact Hne.
Qed.

Lemma lookup_set_if_falsy (v : option string) (k : string) (c : string -> Cond)
    (q : gmap string Cond) :
  truthy v = false -> set_if v k c q = q.
Proof. unfold set_if. destruct v as [[|a s]|]; simpl; congruence. Qed.

Section ScopeOfBulkReads.

Variable RegExp_i : string -> option (string -> bool).
Variable field_le : string -> ITask.t -> ITask.t -> bool.

Lemma Task_query_elem query spec skip limit ts found (t : ITask.t) :
Task_query field_le query spec skip limit ts = Some found ->
t ∈ found -> t ∈ ts /\ matches query t = true.
Proof.
unfold Task_query. destruct (skip <? 0); [discriminate|].
intros [= <-] Hin.
apply subseteq_take, subseteq_drop in Hin.
rewrite merge_sort_Permutation in Hin.
apply Task_find_elem. exact Hin.
Qed.

(** The list endpoint never leaves the role scope, whatever the
  parameters. *)
Lemma getTasks_in_scope (P : IUser.t) (rq : GetTasksQuery.t) (w : World)
  (t : ITask.t) :
t ∈ listed (getTasks field_le (Some P) rq w) ->
t ∈ tasks w /\ matches (roleScope P) t = true.
Proof.
unfold getTasks, listed.
destruct (Task_query _ _ _ _ _ _) as [found|] eqn:Hq; simpl;
  [|intros H; apply elem_of_nil in H; contradiction].
intros Hin. destruct (Task_query_elem _ _ _ _ _ _ _ Hq Hin) as [Hw Hm].
split; [exact Hw|]. apply matches_spec. intros k c Hk.
apply (matches_lookup _ _ k c Hm).
apply roleScope_keys in Hk as Hkey.
rewrite !lookup_set_if_ne; [exact Hk | |];
  destruct Hkey as [[-> _]|[-> _]]; discriminate.
Qed.

(** The search endpoint stays inside the role scope unless a manager with a
  team label sends a [team] parameter. *)
Lemma searchTasks_in_scope (P : IUser.t) (rq : SearchQuery.t) (w : World)
  (t : ITask.t) :
IUser.role P <> RManager \/ truthy (SearchQuery.team rq) = false ->
t ∈ listed (searchTasks RegExp_i field_le (Some P) rq w) ->
t ∈ tasks w /\ matches (roleScope P) t = true.
Proof.
intros Hside. unfold searchTasks, listed.
set (base := roleScope P).
destruct (if truthy (SearchQuery.q rq) then _ else _) as [query|] eqn:Htext;
  simpl; [|intros H; apply elem_of_nil in H; contradiction].
destruct (Task_query _ _ _ _ _ _) as [found|] eqn:Hq; simpl;
  [|intros H; apply elem_of_nil in H; contradiction].
intros Hin. destruct (Task_query_elem _ _ _ _ _ _ _ Hq Hin) as [Hw Hm].
split; [exact Hw|]. apply matches_spec. intros k c Hk.
apply (matches_lookup _ _ k c Hm).
apply roleScope_keys in Hk as Hkey.
assert (Hbase : query !! k = Some c).
{ destruct (truthy (SearchQuery.q rq)).
  - destruct (RegExp_i _); [|discriminate]. injection Htext as <-.
    unfold push_text. rewrite lookup_insert_ne; [exact Hk|].
    destruct Hkey as [[-> _]|[-> _]]; discriminate.
  - injection Htext as <-. exact Hk. }
assert (Hdue : forall q' : gmap string Cond,
           match SearchQuery.dueBefore rq, SearchQuery.dueAfter rq with
           | None, None => q'
           | lte, gte => <["dueDate" := Between lte gte]> q'
           end !! k = q' !! k).
{ intros q'.
  destruct (SearchQuery.dueBefore rq), (SearchQuery.dueAfter rq);
    try reflexivity; apply lookup_insert_ne;
    destruct Hkey as [[-> _]|[-> _]]; discriminate. }
rewrite Hdue.
destruct Hkey as [[-> _]|[-> [Hm' _]]].
- rewrite !lookup_set_if_ne by discriminate. exact Hbase.
- destruct Hside as [Hside|Hside]; [contradiction|].
  rewrite (lookup_set_if_falsy (SearchQuery.team rq)) by exact Hside.
  rewrite !lookup_set_if_ne by discriminate. exact Hbase.
Qed.

End ScopeOfBulkReads.

(** C2. The claim that no filter parameter can take a bulk query out of
    the role scope holds for the list endpoint ([getTasks_in_scope]) and for
    search by everybody but a manager with a team label
    ([searchTasks_in_scope]); it fails for that manager.  The seeded manager
    of team Engineering searches with [team=Sales]: the assignment
    [query.team = team] replaces the scope condition stored under the same
    key, and the answer is the Sales task [t3], which is outside the
    manager's scope and which the manager may not access; without the
    parameter the same search lists the two Engineering tasks. *)
Theorem searchTasks_team_replaces_scope :
  listed (searchTasks sampleRegExp sampleFieldLe (Some seedManager)
            (searchTeam "Sales") seedWorld) = [seedTask3]
  /\ matches (roleScope seedManager) seedTask3 = false
  /\ scopeSpec seedManager seedTask3 = false
  /\ canAccessTask (ofRequest seedManager) (ofQuery "task" seedTask3) = false
  /\ listed (searchTasks sampleRegExp sampleFieldLe (Some seedManager)
               plainSearch seedWorld) = [seedTask2; seedTask1].
Proof. repeat split; vm_compute; reflexivity. Qed.

(** C3. For a manager without a team label the code builds the empty
    query: the scope is every task, not the user-level scope.  The seeded
    manager without a team created none of the three seeded tasks and is
    assigned none of them, yet list and search return all three and the
    analytics count all three. *)
Theorem teamless_manager_scope_is_everything :
  roleScope teamlessManager = ∅
  /\ List.filter (ownTask teamlessManager) (tasks seedWorld) = []
  /\ List.filter (scopeSpec teamlessManager) (tasks seedWorld) = []
  /\ listed (getTasks sampleFieldLe (Some teamlessManager) plainList seedWorld)
     = [seedTask3; seedTask2; seedTask1]
  /\ listed (searchTasks sampleRegExp sampleFieldLe (Some teamlessManager)
               plainSearch seedWorld)
     = [seedTask3; seedTask2; seedTask1]
  /\ fst (getOverview (Some teamlessManager) seedWorld)
     = ok 200 (OverviewData (mkOverview 3 1 2 0) false)
  /\ getTasksByStatus (Some teamlessManager) seedWorld
     = ok 200 (StatusCounts 1 1 1 0)
  /\ canAccessTask (ofRequest teamlessManager) (ofQuery "task" seedTask1) = false.
Proof. repeat split; vm_compute; reflexivity. Qed.

(** ** Assignment *)

Lemma Task_replace_same_length (t' : ITask.t) (ts : list ITask.t) :
  length (Task_replace t' ts) = length ts.
Proof. unfold Task_replace. apply length_fmap. Qed.

(** Single assignment changes a stored task only if the principal may
    assign and may access the task it names. *)
Lemma assignTask_changes_visible_only (P : IUser.t) (id : string)
    (assignedTo : option string) (now : Z) (w : World) :
  tasks (snd (assignTask (Some P) id assignedTo now w)) <> tasks w ->
  canAssignTask P = true
  /\ exists T, Task_findById id (tasks w) = Some T /\ canAccessTask (ofRequest P) (ofQuery "task" T) = true.
Proof.
  unfold assignTask.
  destruct (canAssignTask P); simpl; [|congruence].
  destruct (Task_findById id (tasks w)) as [T|]; simpl; [|congruence].
  destruct (canAccessTask (ofRequest P) (ofQuery "task" T)) eqn:Hacc; simpl; [|congruence].
  intros _. split; [reflexivity|]. exists T. split; [reflexivity | exact Hacc].
Qed.

(** C4. Single assignment checks [canAccessTask] before it writes
    ([assignTask_changes_visible_only]); bulk assignment does not.  The
    seeded manager of team Engineering may not access the Sales task [t3]
    and is refused by [assignTask], but [bulkAssignTasks] with the same task
    changes its assignee from [u3] to [u2]. *)
Theorem bulkAssign_skips_visibility :
  canAssignTask seedManager = true
  /\ canAccessTask (ofRequest seedManager) (ofQuery "task" seedTask3) = false
  /\ assignTask (Some seedManager) "t3" (Some "u2") 100 seedWorld
     = (taskNotFound, seedWorld)
  /\ fst (bulkAssignTasks (Some seedManager) (Some ["t3"]) (Some "u2") 100
            seedWorld) = ok 200 (ModifiedCount 1)
  /\ ITask.assignedTo <$> Task_findById "t3" (tasks seedWorld) = Some (Some "u3")
  /\ ITask.assignedTo
       <$> Task_findById "t3"
             (tasks (snd (bulkAssignTasks (Some seedManager) (Some ["t3"])
                            (Some "u2") 100 seedWorld)))
     = Some (Some "u2").
Proof. repeat split; vm_compute; reflexivity. Qed.

(** ** Cache invalidation *)

Lemma glob_star (k : string) : glob "*" k = true.
Proof.
  induction k as [|a k IH]; [reflexivity|].
  simpl in *. rewrite IH. reflexivity.
Qed.

Lemma overviewKey_analytics (P : IUser.t) :
  glob "analytics:*" (overviewKey P) = true.
Proof.
  unfold overviewKey, getAnalyticsKey.
  destruct (IUser._id P +:+ ":" +:+ role_name (IUser.role P)) as [|a s];
    [reflexivity|].
  change ("analytics:" +:+ "overview" +:+ ":" +:+ String a s)
    with ("analytics:overview:" +:+ String a s).
  generalize (String a s). intros rest.
  change (glob "*" ("overview:" +:+ rest) = true). apply glob_star.
Qed.

(** After [delPattern] no key that matches the pattern is left. *)
Lemma delPattern_removes (pattern key : string) (w : World) :
  glob pattern key = true -> cache_get key (delPattern pattern w) = None.
Proof.
  intros Hg. unfold cache_get, delPattern.
  destruct (redis w) as [r|] eqn:Hr; simpl; [|rewrite Hr; reflexivity].
  apply map_lookup_filter_None. right. intros v _. simpl. congruence.
Qed.

(** [delPattern] only deletes. *)
Lemma delPattern_keeps_None (pattern key : string) (w : World) :
  cache_get key w = None -> cache_get key (delPattern pattern w) = None.
Proof.
  unfold cache_get, delPattern.
  destruct (redis w) as [r|] eqn:Hr; simpl; [|rewrite Hr; reflexivity].
  intros Hk. apply map_lookup_filter_None. left. exact Hk.
Qed.

(** The two name spaces are emptied. *)
Lemma invalidateTaskCaches_removes (key : string) (w : World) :
  glob "tasks:*" key = true \/ glob "analytics:*" key = true ->
  cache_get key (invalidateTaskCaches w) = None.
Proof.
  unfold invalidateTaskCaches. intros [H|H].
  - apply delPattern_keeps_None, delPattern_removes, H.
  - apply delPattern_removes, H.
Qed.

(** Right after an invalidation the overview is recomputed from the tasks. *)
Lemma getOverview_after_invalidation (P : IUser.t) (w : World) :
  fst (getOverview (Some P) (invalidateTaskCaches w))
  = ok 200 (OverviewData (countOverview (roleScope P) (tasks w)) false).
Proof.
  unfold getOverview.
  rewrite invalidateTaskCaches_removes by (right; apply overviewKey_analytics).
  simpl. rewrite invalidateTaskCaches_tasks. reflexivity.
Qed.

Lemma overview_fresh_of_invalidated (P : IUser.t) (w : World) :
  (exists w1, w = invalidateTaskCaches w1) ->
  fst (getOverview (Some P) w)
  = ok 200 (OverviewData (countOverview (roleScope P) (tasks w)) false).
Proof.
  intros (w1 & ->).
  rewrite getOverview_after_invalidation, invalidateTaskCaches_tasks.
  reflexivity.
Qed.

(** Create, update, delete and single assign end, when they succeed, with
    the invalidation: the next overview of any principal is computed from the
    tasks as they are after the mutation. *)
Lemma mutation_then_overview_is_fresh (actor : option IUser.t) (P : IUser.t)
    (w : World) :
  (forall body oid now,
      let r := createTask actor body oid now w in
      success (fst r) = true ->
      fst (getOverview (Some P) (snd r))
      = ok 200 (OverviewData (countOverview (roleScope P) (tasks (snd r))) false))
  /\ (forall id body now,
        let r := updateTask actor id body now w in
        success (fst r) = true ->
        fst (getOverview (Some P) (snd r))
        = ok 200 (OverviewData (countOverview (roleScope P) (tasks (snd r))) false))
  /\ (forall id,
        let r := deleteTask actor id w in
        success (fst r) = true ->
        fst (getOverview (Some P) (snd r))
        = ok 200 (OverviewData (countOverview (roleScope P) (tasks (snd r))) false))
  /\ (forall id assignedTo now,
        let r := assignTask actor id assignedTo now w in
        success (fst r) = true ->
        fst (getOverview (Some P) (snd r))
        = ok 200 (OverviewData (countOverview (roleScope P) (tasks (snd r))) false)).
Proof.
  repeat split; intros; subst r; apply overview_fresh_of_invalidated;
    revert H; unfold createTask, updateTask, deleteTask, assignTask;
    repeat match goal with
           | |- context [match ?x with _ => _ end] => destruct x
           end;
    cbn [fst snd success fail ok unauthorized taskNotFound validationFailed
         cannotAssign]; try discriminate; intros _; eexists; reflexivity.
Qed.

(** C5. Create, update, delete and single assign invalidate the two cache
    name spaces ([mutation_then_overview_is_fresh]); bulk assign does not
    call the invalidation.  The seeded Sales user reads the overview (one
    task, computed and cached); the admin bulk-assigns [t1] to that user; the
    user's next overview is served from the cache with the count from before
    the mutation, while the tasks now in scope are two.  After the same
    change made through [assignTask] the overview is recomputed. *)
Theorem bulkAssign_keeps_cached_overview :
  let w1 := snd (getOverview (Some seedUser2) seedWorld) in
  let w2 := snd (bulkAssignTasks (Some seedAdmin) (Some ["t1"]) (Some "u3") 100 w1) in
  let w2' := snd (assignTask (Some seedAdmin) "t1" (Some "u3") 100 w1) in
  fst (getOverview (Some seedUser2) seedWorld)
  = ok 200 (OverviewData (mkOverview 1 1 0 0) false)
  /\ fst (bulkAssignTasks (Some seedAdmin) (Some ["t1"]) (Some "u3") 100 w1)
     = ok 200 (ModifiedCount 1)
  /\ fst (getOverview (Some seedUser2) w2)
     = ok 200 (OverviewData (mkOverview 1 1 0 0) true)
  /\ countOverview (roleScope seedUser2) (tasks w2) = mkOverview 2 1 1 0
  /\ fst (getOverview (Some seedUser2) w2')
     = ok 200 (OverviewData (mkOverview 2 1 1 0) false).
Proof. repeat split; vm_compute; reflexivity. Qed.

(** * Further properties of the code *)

(** ** Role levels and user management ([utils/permissions.ts]) *)

Lemma getRoleLevel_range (role : string) : 1 <= getRoleLevel role <= 3.
Proof. unfold getRoleLevel. repeat destruct (decide _); lia. Qed.

Lemma lower_idempotent (a : ascii) : lower (lower a) = lower a.
Proof. destruct a as [[] [] [] [] [] [] [] []]; reflexivity. Qed.

Lemma toLowerCase_idempotent (s : string) :
  toLowerCase (toLowerCase s) = toLowerCase s.
Proof.
  induction s as [|a s IH]; [reflexivity|].
  simpl. rewrite lower_idempotent, IH. reflexivity.
Qed.

(** X1. [hasHigherOrEqualRole] is a total preorder on role strings that
    ignores letter case; every string, known or not, is at least "user", a
    string that is neither "admin" nor "manager" (in any case) has the
    lowest level, and only "admin" is at least "admin". *)
Theorem hasHigherOrEqualRole_preorder (a b c : string) :
  hasHigherOrEqualRole a a = true
  /\ (hasHigherOrEqualRole a b = true -> hasHigherOrEqualRole b c = true ->
      hasHigherOrEqualRole a c = true)
  /\ (hasHigherOrEqualRole a b = true \/ hasHigherOrEqualRole b a = true)
  /\ hasHigherOrEqualRole (toLowerCase a) b = hasHigherOrEqualRole a b
  /\ hasHigherOrEqualRole a "user" = true
  /\ (toLowerCase a <> "admin" -> toLowerCase a <> "manager" ->
      getRoleLevel a = 1 /\ hasHigherOrEqualRole b a = true)
  /\ (hasHigherOrEqualRole a "admin" = true <-> toLowerCase a = "admin").
Proof.
  unfold hasHigherOrEqualRole.
  pose proof (getRoleLevel_range a) as Ha.
  pose proof (getRoleLevel_range b) as Hb.
  pose proof (getRoleLevel_range c) as Hc.
  assert (Hlow : getRoleLevel (toLowerCase a) = getRoleLevel a).
  { unfold getRoleLevel. rewrite toLowerCase_idempotent. reflexivity. }
  assert (Huser : getRoleLevel "user" = 1) by reflexivity.
  assert (Hadmin : getRoleLevel "admin" = 3) by reflexivity.
  assert (Hone : toLowerCase a <> "admin" -> toLowerCase a <> "manager" ->
                 getRoleLevel a = 1).
  { unfold getRoleLevel. repeat destruct (decide _); congruence. }
  assert (Hthree : getRoleLevel a = 3 <-> toLowerCase a = "admin").
  { unfold getRoleLevel. repeat destruct (decide _); split; congruence || lia. }
  rewrite Hlow, Huser, Hadmin, !Z.leb_le.
  split; [lia|]. split; [lia|]. split; [lia|]. split; [reflexivity|].
  split; [lia|]. split.
  - intros H1 H2. specialize (Hone H1 H2). split; [exact Hone | lia].
  - rewrite <- Hthree. lia.
Qed.

(** An unknown role string and a mixed-case one. *)
Lemma hasHigherOrEqualRole_preorder_witness :
  getRoleLevel "superuser" = 1
  /\ hasHigherOrEqualRole "user" "superuser" = true
  /\ hasHigherOrEqualRole "ADMIN" "manager" = true.
Proof.
  destruct (hasHigherOrEqualRole_preorder "superuser" "user" "user")
    as (_ & _ & _ & _ & _ & Hlow & _).
  destruct Hlow as [H1 H2]; [discriminate | discriminate |].
  destruct (hasHigherOrEqualRole_preorder "ADMIN" "manager" "user")
    as (_ & _ & _ & Hcase & _).
  split; [exact H1|]. split; [exact H2|].
  rewrite <- Hcase. reflexivity.
Defined.

(** X2. [canManageUser] holds exactly for an admin (any target, other
    admins and the admin itself included) and for a manager whose target is
    in the same team ([isSameTeam]) and has role user; a plain user manages
    nobody. *)
Theorem canManageUser_spec (user targetUser : IUser.t) :
  (canManageUser user targetUser = true <->
   IUser.role user = RAdmin
   \/ (IUser.role user = RManager
       /\ isSameTeam user targetUser = true
       /\ IUser.role targetUser = RUser))
  /\ (IUser.role user = RUser -> canManageUser user targetUser = false).
Proof.
  assert (Hsame : isSameTeam user targetUser = true
                  <-> truthy (IUser.team user) = true
                      /\ IUser.team targetUser = IUser.team user).
  { unfold isSameTeam.
    destruct (truthy (IUser.team user)) eqn:Hu; simpl.
    - destruct (truthy (IUser.team targetUser)) eqn:Ht; simpl.
      + rewrite bool_decide_eq_true. split; [intros ->; auto | intros [_ ->]; auto].
      + split; [discriminate|]. intros [_ He]. congruence.
    - split; [discriminate | intros [? _]; discriminate]. }
  unfold canManageUser.
  destruct (IUser.role user) eqn:Hr; simpl.
  - split; [tauto | discriminate].
  - split; [|discriminate].
    destruct (truthy (IUser.team user) && _ && _) eqn:E.
    + apply andb_true_iff in E as [E Hrole].
      apply andb_true_iff in E as [Hu He].
      apply bool_decide_eq_true in Hrole, He.
      split; [intros _|reflexivity]. right.
      split; [reflexivity|]. split; [apply Hsame; auto | exact Hrole].
    + split; [discriminate|].
      intros [?|(_ & Hs & Hrole)]; [discriminate|].
      apply Hsame in Hs as [Hu He].
      rewrite Hu, (bool_decide_eq_true_2 _ He), (bool_decide_eq_true_2 _ Hrole) in E.
      discriminate.
  - split; [|reflexivity]. split; [discriminate|].
    intros [?|(? & _)]; discriminate.
Qed.

(** A plain user manages nobody, not even a member of the same team. *)
Lemma canManageUser_spec_witness :
  canManageUser seedUser seedUser2 = false.
Proof.
  destruct (canManageUser_spec seedUser seedUser2) as (_ & H).
  apply H. reflexivity.
Defined.

(** X3. [isSameTeam] is symmetric and transitive, holds of a user and
    itself exactly when the user has a team label, and forces both labels to
    be present and equal. *)
Theorem isSameTeam_partial_equivalence (u v x : IUser.t) :
  isSameTeam u v = isSameTeam v u
  /\ (isSameTeam u v = true -> isSameTeam v x = true -> isSameTeam u x = true)
  /\ isSameTeam u u = truthy (IUser.team u)
  /\ (isSameTeam u v = true ->
      truthy (IUser.team u) = true /\ IUser.team u = IUser.team v).
Proof.
  assert (Hspec : forall a b,
             isSameTeam a b = true
             <-> truthy (IUser.team a) = true /\ truthy (IUser.team b) = true
                 /\ IUser.team a = IUser.team b).
  { intros a b. unfold isSameTeam.
    destruct (truthy (IUser.team a)), (truthy (IUser.team b)); simpl;
      rewrite ?bool_decide_eq_true; split; try discriminate; try tauto;
      intros (? & ? & ?); discriminate. }
  split; [|split; [|split]].
  - destruct (isSameTeam u v) eqn:E1, (isSameTeam v u) eqn:E2; try reflexivity.
    + apply Hspec in E1 as (? & ? & ?).
      assert (isSameTeam v u = true) by (apply Hspec; auto). congruence.
    + apply Hspec in E2 as (? & ? & ?).
      assert (isSameTeam u v = true) by (apply Hspec; auto). congruence.
  - intros H1 H2. apply Hspec in H1 as (? & ? & ?), H2 as (? & ? & ?).
    apply Hspec. repeat split; congruence.
  - destruct (truthy (IUser.team u)) eqn:Hu; [apply Hspec; auto|].
    apply not_true_is_false. intros H. apply Hspec in H as (? & _). congruence.
  - intros H. apply Hspec in H as (? & ? & ?). auto.
Qed.

(** Two seeded users of team Engineering. *)
Lemma isSameTeam_partial_equivalence_witness :
  IUser.team seedManager = IUser.team seedUser.
Proof.
  destruct (isSameTeam_partial_equivalence seedManager seedUser seedUser)
    as (_ & _ & _ & H).
  apply H. reflexivity.
Defined.

(** ** Role middleware ([middleware/rbac.middleware.ts]) *)

(** X4. The role gate in front of the assignment routes lets through
    exactly the principals that [canAssignTask] accepts, and the admin gate
    exactly the admins; a missing user is answered 401 and a wrong role 403.
    So behind [requireManager] the handlers' own "cannot assign" answer is
    never produced. *)
Theorem requireManager_is_canAssignTask (u : IUser.t) :
  (requireManager (Some u) = None <-> canAssignTask u = true)
  /\ (requireAdmin (Some u) = None <-> IUser.role u = RAdmin)
  /\ (forall roles, requireRole roles None = Some unauthorized)
  /\ (forall roles r, requireRole roles (Some u) = Some r ->
                      statusCode r = 403 /\ errorCode r = Some "FORBIDDEN")
  /\ (requireManager (Some u) = None ->
      forall id assignedTo taskIds now w,
        fst (assignTask (Some u) id assignedTo now w) <> cannotAssign
        /\ fst (bulkAssignTasks (Some u) taskIds assignedTo now w) <> cannotAssign).
Proof.
  assert (Hm : requireManager (Some u) = None <-> canAssignTask u = true).
  { unfold requireManager, requireRole, canAssignTask.
    destruct (IUser.role u); vm_compute; split; congruence. }
  split; [exact Hm|]. split.
  { unfold requireAdmin, requireRole.
    destruct (IUser.role u); vm_compute; split; congruence. }
  split; [reflexivity|]. split.
  { intros roles r. unfold requireRole.
    destruct (negb _); [|discriminate]. intros [= <-]. split; reflexivity. }
  intros Hpass id assignedTo taskIds now w. apply Hm in Hpass.
  unfold assignTask, bulkAssignTasks. rewrite Hpass. simpl. split.
  - destruct (Task_findById id (tasks w)) as [T|]; [|discriminate].
    destruct (canAccessTask (ofRequest u) (ofQuery "task" T)); discriminate.
  - destruct taskIds as [[|i l]|]; try discriminate.
    destruct (assignedTo ≫= _), assignedTo; discriminate.
Qed.

(** The seeded manager passes the gate and is not told "cannot assign". *)
Lemma requireManager_is_canAssignTask_witness :
  fst (assignTask (Some seedManager) "t1" (Some "u2") 100 seedWorld)
  <> cannotAssign.
Proof.
  destruct (requireManager_is_canAssignTask seedManager) as (_ & _ & _ & _ & H).
  apply (H eq_refl "t1" (Some "u2") None 100 seedWorld).
Defined.

(** ** Sessions ([middleware/auth.middleware.ts], [utils/tokenManager.ts],
       [controllers/auth.controller.ts]) *)

Section SessionProperties.

Variable extractToken : option string -> option string.
Variable blacklisted : list ITokenBlacklist -> string -> bool.
Variable verifyToken : string -> option TokenPayload.t.
Variable decodeExp : string -> option Z.

(** X5. [optionalAuthenticate] applies the gates of [authenticate]: it
    attaches a user exactly when [authenticate] does, and attaches none
    where [authenticate] rejects. *)
Theorem optionalAuthenticate_agrees (authorization : option string) (w : World) :
  (forall u,
      optionalAuthenticate extractToken blacklisted verifyToken authorization w
      = Some u
      <-> authenticate extractToken blacklisted verifyToken authorization w
          = inr u)
  /\ (optionalAuthenticate extractToken blacklisted verifyToken authorization w
      = None
      <-> exists r,
          authenticate extractToken blacklisted verifyToken authorization w
          = inl r).
Proof.
  unfold optionalAuthenticate, authenticate.
  destruct (extractToken authorization) as [tok|];
    [destruct (blacklisted (tokenBlacklist w) tok);
     [|destruct (verifyToken tok) as [decoded|];
       [destruct (User_findById (TokenPayload.userId decoded) (users w))|]]|].
  all: split; [intros u; split; congruence|].
  all: split; try discriminate; try (intros _; eexists; reflexivity).
  intros (r & Hr). discriminate.
Qed.

Lemma isTokenBlacklisted_after (tok tok' : string) (exp : Z)
    (bl : list ITokenBlacklist) :
  isTokenBlacklisted (bl ++ [mkBlacklisted tok exp]) tok'
  = isTokenBlacklisted bl tok' || bool_decide (tok' = tok).
Proof.
  unfold isTokenBlacklisted. rewrite fmap_app. simpl.
  apply eq_true_iff_eq.
  rewrite orb_true_iff, !bool_decide_eq_true, elem_of_app, list_elem_of_singleton.
  reflexivity.
Qed.

(** X7. Revocation: once [logout] has answered 200 for a header, the same
    header is rejected by [authenticate] as "TOKEN_BLACKLISTED", whatever
    [verifyToken] says about the token and whether or not its user exists;
    a second logout with it fails on the unique index.  Logout touches
    neither users nor tasks. *)
Theorem logout_revokes (authorization : option string) (w : World)
    (Hout : statusCode (fst (logout decodeExp authorization w)) = 200) :
  rejectedWith
    (authenticateBearer verifyToken authorization
       (snd (logout decodeExp authorization w)))
  = Some "TOKEN_BLACKLISTED"
  /\ optionalAuthenticateBearer verifyToken authorization
       (snd (logout decodeExp authorization w)) = None
  /\ statusCode
       (fst (logout decodeExp authorization
               (snd (logout decodeExp authorization w)))) = 500
  /\ users (snd (logout decodeExp authorization w)) = users w
  /\ tasks (snd (logout decodeExp authorization w)) = tasks w.
Proof.
  revert Hout.
  unfold logout, authenticateBearer, optionalAuthenticateBearer,
    authenticate, optionalAuthenticate, blacklistToken.
  destruct (presentToken authorization) as [tok|] eqn:Hp; [|discriminate].
  destruct (decodeExp tok) as [exp|] eqn:Hd; [|discriminate].
  destruct (isTokenBlacklisted (tokenBlacklist w) tok) eqn:Hb; [discriminate|].
  intros _. simpl.
  rewrite isTokenBlacklisted_after, bool_decide_eq_true_2 by reflexivity.
  rewrite orb_true_r. repeat split.
Qed.

(** X8. Revoking one token leaves every other session as it was: a header
    that carries a different token is answered by [authenticate] after the
    logout exactly as before it. *)
Theorem logout_spares_other_tokens (authorization other : option string)
    (w : World)
    (Hother : presentToken other <> presentToken authorization) :
  authenticateBearer verifyToken other (snd (logout decodeExp authorization w))
  = authenticateBearer verifyToken other w.
Proof.
  unfold logout, authenticateBearer, authenticate, blacklistToken.
  destruct (presentToken authorization) as [tok|] eqn:Hp; [|reflexivity].
  destruct (decodeExp tok) as [exp|]; [|reflexivity].
  destruct (isTokenBlacklisted (tokenBlacklist w) tok); [reflexivity|].
  simpl. destruct (presentToken other) as [tok'|]; [|reflexivity].
  rewrite isTokenBlacklisted_after.
  rewrite (bool_decide_eq_false_2 (tok' = tok)) by congruence.
  rewrite orb_false_r. reflexivity.
Qed.

(** X9. [deleteUser] answers 200 exactly when the identifier names a
    stored user, the requester's own included: its self-deletion test
    compares the route parameter, a string, with the ObjectId of [req.user]
    and never answers "SELF_DELETE".  After a 200 the user is gone: no
    lookup finds the identifier and no credential resolves to it any more,
    while the tasks, those of the deleted user included, stay as they
    were. *)
Theorem deleteUser_ends_sessions (reqUser : IUser.t) (userId : string) (w : World) :
  tasks (snd (deleteUser (Some reqUser) userId w)) = tasks w
  /\ (statusCode (fst (deleteUser (Some reqUser) userId w)) = 200
      <-> is_Some (User_findById userId (users w)))
  /\ errorCode (fst (deleteUser (Some reqUser) userId w)) <> Some "SELF_DELETE"
  /\ (statusCode (fst (deleteUser (Some reqUser) userId w)) = 200 ->
      User_findById userId (users (snd (deleteUser (Some reqUser) userId w)))
      = None
      /\ forall authorization u,
          authenticate extractToken blacklisted verifyToken authorization
            (snd (deleteUser (Some reqUser) userId w)) = inr u ->
          IUser._id u <> userId).
Proof.
  unfold deleteUser.
  rewrite (proj1 (strictEquals_string_document userId reqUser)).
  destruct (User_findById userId (users w)) as [target|] eqn:Hf; simpl.
  2:{ split; [reflexivity|]. split; [|split; discriminate].
      split; [discriminate | intros [x Hx]; discriminate]. }
  split; [reflexivity|].
  split; [split; [intros _; eexists; reflexivity | reflexivity]|].
  split; [discriminate|]. intros _.
  apply User_findById_id in Hf as [Hid _].
  assert (Hgone : forall u,
             u ∈ List.filter
                   (fun u => negb (bool_decide (IUser._id u = IUser._id target)))
                   (users w) -> IUser._id u <> userId).
  { intros u Hu. apply list_elem_of_In, filter_In in Hu as [_ Hu].
    apply negb_true_iff, bool_decide_eq_false in Hu. congruence. }
  split.
  - destruct (User_findById userId _) as [u|] eqn:Hf'; [|reflexivity].
    apply User_findById_id in Hf' as [Hid' Hin]. apply Hgone in Hin.
    contradiction.
  - intros authorization u. unfold authenticate.
    destruct (extractToken authorization) as [tok|]; [|discriminate].
    destruct (blacklisted _ tok); [discriminate|].
    destruct (verifyToken tok) as [decoded|]; [|discriminate].
    destruct (User_findById _ _) as [found|] eqn:Hf'; [|discriminate].
    intros [= <-]. apply User_findById_id in Hf' as [_ Hin].
    apply Hgone. exact Hin.
Qed.

End SessionProperties.

(** The seeded user logs out and presents the token again. *)
Lemma logout_revokes_witness :
  rejectedWith
    (authenticateBearer sampleVerify (Some "Bearer u2:signed")
       (snd (logout sampleDecodeExp (Some "Bearer u2:signed") seedWorld)))
  = Some "TOKEN_BLACKLISTED"
  /\ authenticateBearer sampleVerify (Some "Bearer u2:signed") seedWorld
     = inr seedUser.
Proof.
  destruct (logout_revokes sampleVerify sampleDecodeExp
              (Some "Bearer u2:signed") seedWorld eq_refl) as (H & _).
  split; [exact H | reflexivity].
Defined.

(** The seeded user logs out; the manager's token still resolves. *)
Lemma logout_spares_other_tokens_witness :
  authenticateBearer sampleVerify (Some "Bearer u1:signed")
    (snd (logout sampleDecodeExp (Some "Bearer u2:signed") seedWorld))
  = inr seedManager.
Proof.
  rewrite (logout_spares_other_tokens sampleVerify sampleDecodeExp
             (Some "Bearer u2:signed") (Some "Bearer u1:signed") seedWorld).
  - reflexivity.
  - vm_compute. discriminate.
Defined.

(** The seeded admin deletes its own account, and its token then finds no
    user. *)
Lemma deleteUser_ends_sessions_witness :
  User_findById "u0" (users (snd (deleteUser (Some seedAdmin) "u0" seedWorld)))
  = None
  /\ rejectedWith
       (authenticateBearer sampleVerify (Some "Bearer u0:signed")
          (snd (deleteUser (Some seedAdmin) "u0" seedWorld)))
     = Some "USER_NOT_FOUND".
Proof.
  destruct (deleteUser_ends_sessions presentToken isTokenBlacklisted sampleVerify
              seedAdmin "u0" seedWorld) as (_ & _ & _ & H).
  assert (Hok : statusCode (fst (deleteUser (Some seedAdmin) "u0" seedWorld)) = 200)
    by reflexivity.
  destruct (H Hok) as (Hgone & _).
  split; [exact Hgone | reflexivity].
Defined.

(** ** Bearer header *)

Lemma prefix_app (p s : string) :
  String.prefix p s = true <-> s = p +:+ dropChars (String.length p) s.
Proof.
  revert s. induction p as [|a p IH]; intros s.
  - destruct s; split; reflexivity.
  - destruct s as [|b s]; [split; discriminate|]. simpl.
    destruct (ascii_dec a b) as [->|Hne].
    + rewrite IH. change (String b p +:+ dropChars (String.length p) s)
        with (String b (p +:+ dropChars (String.length p) s)).
      split; [intros <-; reflexivity | intros [= <-]; reflexivity].
    + split; [discriminate|]. intros [= ? _]. congruence.
Qed.

Lemma dropChars_app (p t : string) : dropChars (String.length p) (p +:+ t) = t.
Proof. induction p as [|a p IH]; [destruct t; reflexivity | exact IH]. Qed.

(** X6. [extractTokenFromHeader] returns a token exactly for the headers
    made of "Bearer " and that token, so it gives back what was put behind
    the prefix; with a missing header or another scheme it returns nothing.
    The header "Bearer " alone yields the empty token, which the presence
    test of [authenticate] and [logout] treats as no token. *)
Theorem extractTokenFromHeader_roundtrip (authHeader : option string) (tok : string) :
  extractTokenFromHeader (Some ("Bearer " +:+ tok)) = Some tok
  /\ (extractTokenFromHeader authHeader = Some tok
      <-> authHeader = Some ("Bearer " +:+ tok))
  /\ extractTokenFromHeader None = None
  /\ extractTokenFromHeader (Some "Bearer ") = Some ""
  /\ (presentToken authHeader = Some tok
      <-> authHeader = Some ("Bearer " +:+ tok) /\ tok <> "").
Proof.
  assert (Hback : forall t, extractTokenFromHeader (Some ("Bearer " +:+ t)) = Some t).
  { intros t. unfold extractTokenFromHeader.
    assert (Hp : String.prefix "Bearer " ("Bearer " +:+ t) = true).
    { apply prefix_app. rewrite dropChars_app. reflexivity. }
    rewrite Hp. reflexivity. }
  assert (Hiff : extractTokenFromHeader authHeader = Some tok
                 <-> authHeader = Some ("Bearer " +:+ tok)).
  { split; [|intros ->; apply Hback].
    unfold extractTokenFromHeader. destruct authHeader as [h|]; [|discriminate].
    destruct (String.prefix "Bearer " h) eqn:Hp; [|discriminate].
    intros [= <-]. f_equal. apply prefix_app in Hp. exact Hp. }
  split; [apply Hback|]. split; [exact Hiff|].
  split; [reflexivity|]. split; [reflexivity|].
  unfold presentToken. rewrite <- Hiff.
  destruct (extractTokenFromHeader authHeader) as [[|a t]|]; simpl.
  - split; [discriminate|]. intros [[= <-] H]. congruence.
  - split; [|intros [H _]; exact H].
    intros [= <-]. split; [reflexivity | discriminate].
  - split; [discriminate | intros [H _]; discriminate].
Qed.

(** The token of a seeded header. *)
Lemma extractTokenFromHeader_roundtrip_witness :
  presentToken (Some "Bearer u2:signed") = Some "u2:signed".
Proof.
  destruct (extractTokenFromHeader_roundtrip (Some "Bearer u2:signed") "u2:signed")
    as (_ & _ & _ & _ & H).
  apply H. split; [reflexivity | discriminate].
Defined.

(** ** Documents found by identifier *)

Section FindById.
Context {A : Type} (key : A -> string).

Lemma find_replace (x' : A) (l : list A) (id : string) :
  List.find (fun x => bool_decide (key x = id))
    ((fun x => if bool_decide (key x = key x') then x' else x) <$> l)
  = if bool_decide (id = key x')
    then match List.find (fun x => bool_decide (key x = id)) l with
         | Some _ => Some x'
         | None => None
         end
    else List.find (fun x => bool_decide (key x = id)) l.
Proof.
  induction l as [|x l IH].
  - simpl. destruct (bool_decide _); reflexivity.
  - rewrite fmap_cons. cbn [List.find]. rewrite IH. clear IH.
    destruct (bool_decide_reflect (key x = key x')) as [Hx|Hx];
      destruct (bool_decide_reflect (id = key x')) as [Hi|Hi];
      destruct (bool_decide_reflect (key x = id)) as [Hk|Hk];
      try reflexivity; try congruence.
    + rewrite bool_decide_eq_true_2 by congruence. reflexivity.
    + rewrite bool_decide_eq_false_2 by congruence. reflexivity.
Qed.

Lemma find_remove (k : string) (l : list A) (id : string) :
  List.find (fun x => bool_decide (key x = id))
    (List.filter (fun x => negb (bool_decide (key x = k))) l)
  = if bool_decide (id = k) then None
    else List.find (fun x => bool_decide (key x = id)) l.
Proof.
  induction l as [|x l IH].
  - simpl. destruct (bool_decide _); reflexivity.
  - cbn [List.filter List.find].
    destruct (bool_decide_reflect (key x = k)) as [Hx|Hx]; cbn [negb List.find];
      rewrite IH; clear IH;
      destruct (bool_decide_reflect (id = k)) as [Hi|Hi];
      destruct (bool_decide_reflect (key x = id)) as [Hk|Hk];
      try reflexivity; congruence.
Qed.
End FindById.

(** ** Role updates and registration ([controllers/auth.controller.ts]) *)

Lemma role_of_string_name (s : string) (r : Role) :
  role_of_string s = Some r -> s = role_name r.
Proof.
  unfold role_of_string. repeat destruct (decide _); intros [= <-]; assumption.
Qed.

(** X10. [updateUserRole] answers 200 exactly when the requester is an
    admin, the requested role is one of the three literals and the target
    is a stored user, which may be the requester itself: the self-change
    test compares a string with the ObjectId of [req.user] and never
    answers "SELF_ROLE_CHANGE".  After a 200 the target is found with the
    requested role and its other fields as before, while every other user
    and all tasks are untouched. *)
Theorem updateUserRole_effect (reqUser : IUser.t) (userId : string)
    (role : option string) (w : World) :
  (statusCode (fst (updateUserRole (Some reqUser) userId role w)) = 200
   <-> IUser.role reqUser = RAdmin
       /\ (exists r, role = Some (role_name r))
       /\ is_Some (User_findById userId (users w)))
  /\ errorCode (fst (updateUserRole (Some reqUser) userId role w))
     <> Some "SELF_ROLE_CHANGE"
  /\ (statusCode (fst (updateUserRole (Some reqUser) userId role w)) = 200 ->
      exists r target,
        role = Some (role_name r)
        /\ User_findById userId (users w) = Some target
        /\ User_findById userId
             (users (snd (updateUserRole (Some reqUser) userId role w)))
           = Some (with_role r target)
        /\ (forall id', id' <> userId ->
              User_findById id'
                (users (snd (updateUserRole (Some reqUser) userId role w)))
              = User_findById id' (users w))
        /\ tasks (snd (updateUserRole (Some reqUser) userId role w)) = tasks w).
Proof.
  assert (Hname : forall r, role_of_string (role_name r) = Some r)
    by (intros []; reflexivity).
  unfold updateUserRole, canAssignRole.
  destruct (bool_decide_reflect (IUser.role reqUser = RAdmin)) as [Hadmin|Hadmin];
    simpl.
  2:{ split; [split; [discriminate | tauto]|]. split; discriminate. }
  destruct role as [s|]; simpl.
  2:{ split; [split; [discriminate | intros (_ & [r Hr] & _); discriminate]|].
      split; discriminate. }
  destruct (bool_decide_reflect (is_Some (role_of_string s))) as [[r Hr]|Hno];
    simpl.
  2:{ split; [split; [discriminate|]|split; discriminate].
      intros (_ & [r [= ->]] & _). exfalso. apply Hno.
      rewrite Hname. eexists. reflexivity. }
  rewrite Hr. simpl.
  destruct (User_findById userId (users w)) as [target|] eqn:Hf; simpl.
  2:{ split; [split; [discriminate | intros (_ & _ & [x Hx]); discriminate]|].
      split; discriminate. }
  apply role_of_string_name in Hr as Hs.
  split.
  { split; [intros _|reflexivity]. split; [exact Hadmin|].
    split; [exists r; f_equal; exact Hs | eexists; reflexivity]. }
  split; [discriminate|]. intros _.
  apply User_findById_id in Hf as Hid. destruct Hid as [Hid _].
  exists r, target. split; [f_equal; exact Hs|].
  split; [reflexivity|].
  unfold User_findById, User_replace in *. split; [|split; [|reflexivity]].
  - rewrite (find_replace IUser._id). simpl.
    rewrite bool_decide_eq_true_2 by congruence. rewrite Hf. reflexivity.
  - intros id' Hne. rewrite (find_replace IUser._id). simpl.
    rewrite bool_decide_eq_false_2 by congruence. reflexivity.
Qed.

(** The admin makes the seeded user a manager. *)
Lemma updateUserRole_effect_witness :
  User_findById "u2"
    (users (snd (updateUserRole (Some seedAdmin) "u2" (Some "manager") seedWorld)))
  = Some (with_role RManager seedUser).
Proof.
  destruct (updateUserRole_effect seedAdmin "u2" (Some "manager") seedWorld)
    as (_ & _ & H).
  assert (Hok : statusCode (fst (updateUserRole (Some seedAdmin) "u2"
                                   (Some "manager") seedWorld)) = 200)
    by reflexivity.
  destruct (H Hok) as (r & target & Hr & Hf & Hafter & _).
  rewrite Hafter. injection Hf as <-.
  destruct r; try discriminate. reflexivity.
Defined.

Lemma existsb_false_forall {A} (p : A -> bool) (l : list A) :
  existsb p l = false -> forall x, x ∈ l -> p x = false.
Proof.
  intros H x Hx. apply not_true_is_false. intros Hp.
  assert (existsb p l = true); [|congruence].
  apply existsb_exists. exists x. split; [apply list_elem_of_In, Hx | exact Hp].
Qed.

(** X11. [register] keeps e-mail addresses and user names unique, and a
    registration whose e-mail address (in lower case) or user name is
    already stored is answered 400 "USER_EXISTS" without a change. *)
Theorem register_keeps_users_unique (body : RegisterBody.t) (oid : string)
    (w : World) (Huniq : uniqueUsers w) :
  uniqueUsers (snd (register body oid w))
  /\ (forall e u,
        RegisterBody.email body = Some e -> u ∈ users w ->
        IUser.email u = toLowerCase e
        \/ Some (IUser.username u) = RegisterBody.username body ->
        register body oid w
        = (fail 400 "User with this email or username already exists"
             "USER_EXISTS", w)).
Proof.
  split.
  - unfold register.
    destruct (RegisterBody.email body) as [e|]; simpl; [|exact Huniq].
    destruct (User_findOne _ _ _); simpl; [exact Huniq|].
    destruct (User_create _ _ _ _ _ _ _) as [[|]|u] eqn:Hc; simpl;
      try exact Huniq.
    unfold User_create in Hc.
    destruct (role_of_string _) as [r|]; [|discriminate].
    destruct (_ && _ && _); [|discriminate].
    destruct (existsb _ _) eqn:Hex; [discriminate|].
    injection Hc as <-.
    pose proof (existsb_false_forall _ _ Hex) as Hnew.
    destruct Huniq as [He Hn]. unfold uniqueUsers. simpl.
    rewrite !fmap_app. simpl. split.
    + apply NoDup_app. split; [exact He|]. split; [|apply NoDup_singleton].
      intros x Hx Hx'. apply list_elem_of_singleton in Hx'. subst x.
      apply list_elem_of_fmap in Hx as (u & Hu & Hin).
      specialize (Hnew u Hin). simpl in Hnew.
      apply orb_false_iff in Hnew as [_ Hnew].
      apply bool_decide_eq_false in Hnew. congruence.
    + apply NoDup_app. split; [exact Hn|]. split; [|apply NoDup_singleton].
      intros x Hx Hx'. apply list_elem_of_singleton in Hx'. subst x.
      apply list_elem_of_fmap in Hx as (u & Hu & Hin).
      specialize (Hnew u Hin). simpl in Hnew.
      apply orb_false_iff in Hnew as [Hnew _].
      apply bool_decide_eq_false in Hnew. congruence.
  - intros e u He Hin Hsame. unfold register. rewrite He.
    destruct (User_findOne _ _ _) eqn:Hf; [reflexivity|].
    exfalso. unfold User_findOne in Hf.
    assert (Htrue : bool_decide (IUser.email u = toLowerCase e)
                    || bool_decide (Some (IUser.username u)
                                    = RegisterBody.username body) = true).
    { apply orb_true_iff. destruct Hsame as [H|H]; [left|right];
        apply bool_decide_eq_true; assumption. }
    rewrite (find_none _ _ Hf u) in Htrue; [discriminate|].
    apply list_elem_of_In, Hin.
Qed.

(** A second registration under the seeded user's address, in capitals. *)
Lemma register_keeps_users_unique_witness :
  register (RegisterBody.mk (Some "other") (Some "USER@example.com")
              (Some "Secret123!") None None) "u9" seedWorld
  = (fail 400 "User with this email or username already exists" "USER_EXISTS",
     seedWorld).
Proof.
  assert (Huniq : uniqueUsers seedWorld).
  { split; apply (bool_decide_unpack _); vm_compute; exact I. }
  destruct (register_keeps_users_unique
              (RegisterBody.mk (Some "other") (Some "USER@example.com")
                 (Some "Secret123!") None None) "u9" seedWorld Huniq) as (_ & H).
  apply (H "USER@example.com" seedUser eq_refl).
  - apply (bool_decide_unpack _). vm_compute. exact I.
  - left. reflexivity.
Defined.

(** ** Saving a task ([models/Task.model.ts]) *)

Lemma Task_preSave_with_status (now : Z) (t : ITask.t) :
  Task_preSave now t = with_status (ITask.status (Task_preSave now t)) t.
Proof.
  unfold Task_preSave. destruct (ITask.dueDate t); [|destruct t; reflexivity].
  destruct (_ && _); [reflexivity | destruct t; reflexivity].
Qed.

Lemma Task_preSave_rule (now d : Z) (t : ITask.t) :
  ITask.dueDate (Task_preSave now t) = Some d -> d < now ->
  ITask.status (Task_preSave now t) = "completed"
  \/ ITask.status (Task_preSave now t) = "overdue".
Proof.
  unfold Task_preSave. destruct (ITask.dueDate t) as [d0|] eqn:Hd;
    [|intros H; congruence].
  destruct ((d0 <? now) && _) eqn:Hc; simpl; [auto|].
  rewrite Hd. intros [= ->] Hlt. left.
  apply andb_false_iff in Hc as [Hc|Hc].
  - apply Z.ltb_ge in Hc. lia.
  - apply negb_false_iff, bool_decide_eq_true in Hc. exact Hc.
Qed.

Lemma Task_preSave_completed (now : Z) (t : ITask.t) :
  ITask.status t = "completed" ->
  ITask.status (Task_preSave now t) = "completed".
Proof.
  intros Hs. unfold Task_preSave. destruct (ITask.dueDate t); [|exact Hs].
  rewrite (bool_decide_eq_true_2 _ Hs), andb_false_r. exact Hs.
Qed.

Lemma Task_preSave_valid (now : Z) (t : ITask.t) :
  Task_valid t = true -> Task_valid (Task_preSave now t) = true.
Proof.
  unfold Task_preSave. destruct (ITask.dueDate t); [|auto].
  destruct (_ && _); [|auto].
  unfold Task_valid. simpl. rewrite !andb_true_iff. intros [[[? ?] ?] _].
  repeat split; assumption.
Qed.

Lemma Task_touch_valid (now : Z) (orig t : ITask.t) :
  Task_valid t = true -> Task_valid (Task_touch now orig t) = true.
Proof. unfold Task_touch. destruct (bool_decide _); auto. Qed.

Lemma Task_valid_modified_valid (orig t : ITask.t) :
  Task_valid orig = true -> Task_valid_modified orig t = true ->
  Task_valid t = true.
Proof.
  unfold Task_valid, Task_valid_modified.
  rewrite !andb_true_iff, !orb_true_iff, !bool_decide_eq_true.
  intros [[[? ?] ?] ?] [[[[->|?] [->|?]] [->|?]] [->|?]]; auto.
Qed.

Lemma Task_touch_fields (now : Z) (orig t : ITask.t) :
  with_updatedAt (ITask.updatedAt (Task_touch now orig t)) t
  = Task_touch now orig t.
Proof.
  unfold Task_touch. destruct (bool_decide _); destruct t; reflexivity.
Qed.

(** X12. The [pre('save')] hook, seen from the handlers: a task that
    [createTask], [updateTask] or [assignTask] returns at time [now] and
    whose due date lies before [now] has status "overdue" or "completed";
    a created task that is past due is "overdue"; and an update that sets
    the status to "completed" leaves it "completed" whatever the due
    date. *)
Theorem saved_task_overdue_rule (user : option IUser.t) (now d : Z) (w : World)
    (m : option string) (t' : ITask.t)
    (Hdue : ITask.dueDate t' = Some d) (Hpast : d < now) :
  (forall body oid,
      fst (createTask user body oid now w) = ok 201 (TaskData m t') ->
      ITask.status t' = "overdue")
  /\ (forall id body,
        fst (updateTask user id body now w) = ok 200 (TaskData m t') ->
        (ITask.status t' = "completed" \/ ITask.status t' = "overdue")
        /\ (UpdateTaskBody.status body = Some "completed" ->
            ITask.status t' = "completed"))
  /\ (forall id assignedTo,
        fst (assignTask user id assignedTo now w) = ok 200 (TaskData m t') ->
        ITask.status t' = "completed" \/ ITask.status t' = "overdue").
Proof.
  split; [|split].
  - intros body oid. unfold createTask.
    destruct user as [u|]; [|discriminate].
    destruct (_ && _ && _); [discriminate|].
    unfold Task_create. destruct (Task_valid _); [|discriminate].
    simpl. intros [= _ <-].
    destruct (Task_preSave_rule now d _ Hdue Hpast) as [H|H]; [|exact H].
    exfalso. revert H. unfold Task_preSave. simpl.
    destruct (CreateTaskBody.dueDate body); [|discriminate].
    destruct (_ && _); discriminate.
  - intros id body. unfold updateTask.
    destruct user as [u|]; [|discriminate].
    destruct (Task_findById id (tasks w)) as [T|]; [|discriminate].
    destruct (negb _); [discriminate|].
    unfold Task_save. destruct (Task_valid_modified _ _); [|discriminate].
    simpl. intros [= _ <-]. split.
    + apply (Task_preSave_rule now d _ Hdue Hpast).
    + intros Hs. apply Task_preSave_completed.
      rewrite <- Task_touch_fields. simpl.
      unfold applyUpdate. rewrite Hs. reflexivity.
  - intros id assignedTo. unfold assignTask.
    destruct user as [u|]; [|discriminate].
    destruct (negb (canAssignTask u)); [discriminate|].
    destruct (Task_findById id (tasks w)) as [T|]; [|discriminate].
    destruct (negb _); [discriminate|].
    simpl. intros [= _ <-].
    apply (Task_preSave_rule now d _ Hdue Hpast).
Qed.

(** The seeded user creates a task whose due date has passed. *)
Lemma saved_task_overdue_rule_witness :
  exists t',
    fst (createTask (Some seedUser)
           (CreateTaskBody.mk (Some "Late task") None (Some 5) None None None)
           "t4" 40 seedWorld)
    = ok 201 (TaskData (Some "Task created successfully") t')
    /\ ITask.status t' = "overdue".
Proof.
  set (t' := ITask.mk "t4" "Late task" None (Some 5) "medium" "overdue"
               "u2" (Some "u2") (Some "Engineering") 40 40).
  exists t'. split; [reflexivity|].
  assert (Hpast : 5 < 40) by lia.
  destruct (saved_task_overdue_rule (Some seedUser) 40 5 seedWorld
              (Some "Task created successfully") t' eq_refl Hpast) as (H & _).
  apply (H (CreateTaskBody.mk (Some "Late task") None (Some 5) None None None)
           "t4").
  reflexivity.
Defined.

Lemma invalidateTaskCaches_tasksValid (w : World) :
  tasksValid w -> tasksValid (invalidateTaskCaches w).
Proof. unfold tasksValid. rewrite invalidateTaskCaches_tasks. auto. Qed.

Lemma Task_replace_valid (t' : ITask.t) (ts : list ITask.t) :
  Task_valid t' = true -> Forall (fun t => Task_valid t = true) ts ->
  Forall (fun t => Task_valid t = true) (Task_replace t' ts).
Proof.
  intros Ht Hts. unfold Task_replace. apply Forall_fmap.
  eapply Forall_impl; [exact Hts|]. intros t Hv. simpl.
  destruct (bool_decide _); assumption.
Qed.

Lemma Task_findById_valid (id : string) (w : World) (T : ITask.t) :
  tasksValid w -> Task_findById id (tasks w) = Some T -> Task_valid T = true.
Proof.
  intros Hw Hf. apply Task_findById_id in Hf as [_ Hin].
  unfold tasksValid in Hw. rewrite Forall_forall in Hw. apply Hw, Hin.
Qed.

(** X13. Every handler that writes tasks keeps the collection valid: if
    all stored tasks pass the validators of the schema (title of 3 to 200
    characters, description of at most 2000, priority and status from their
    lists), they still do after [createTask], [updateTask], [deleteTask],
    [assignTask] and [bulkAssignTasks], whatever the request. *)
Theorem handlers_keep_tasks_valid (user : option IUser.t) (now : Z) (w : World)
    (Hvalid : tasksValid w) :
  (forall body oid, tasksValid (snd (createTask user body oid now w)))
  /\ (forall id body, tasksValid (snd (updateTask user id body now w)))
  /\ (forall id, tasksValid (snd (deleteTask user id w)))
  /\ (forall id assignedTo, tasksValid (snd (assignTask user id assignedTo now w)))
  /\ (forall taskIds assignedTo,
        tasksValid (snd (bulkAssignTasks user taskIds assignedTo now w))).
Proof.
  destruct user as [u|]; [|repeat split; intros; exact Hvalid].
  split; [|split; [|split; [|split]]].
  - intros body oid. unfold createTask.
    destruct (_ && _ && _); [exact Hvalid|].
    unfold Task_create. destruct (Task_valid _) eqn:Hv; [|exact Hvalid].
    simpl. apply invalidateTaskCaches_tasksValid. unfold tasksValid. simpl.
    apply Forall_app. split; [exact Hvalid|].
    apply Forall_singleton, Task_preSave_valid, Hv.
  - intros id body. unfold updateTask.
    destruct (Task_findById id (tasks w)) as [T|] eqn:Hf; [|exact Hvalid].
    destruct (negb _); [exact Hvalid|].
    unfold Task_save. destruct (Task_valid_modified _ _) eqn:Hm; [|exact Hvalid].
    simpl. apply invalidateTaskCaches_tasksValid. unfold tasksValid. simpl.
    apply Task_replace_valid; [|exact Hvalid].
    apply Task_preSave_valid, Task_touch_valid.
    apply (Task_valid_modified_valid T); [|exact Hm].
    apply (Task_findById_valid id w T Hvalid Hf).
  - intros id. unfold deleteTask.
    destruct (Task_findById id (tasks w)) as [T|]; [|exact Hvalid].
    destruct (negb _); [exact Hvalid|].
    simpl. apply invalidateTaskCaches_tasksValid. unfold tasksValid. simpl.
    unfold Task_deleteOne. unfold tasksValid in Hvalid.
    rewrite Forall_forall in *. intros x Hx.
    apply list_elem_of_In, filter_In in Hx as [Hx _].
    apply Hvalid, list_elem_of_In, Hx.
  - intros id assignedTo. unfold assignTask.
    destruct (negb (canAssignTask u)); [exact Hvalid|].
    destruct (Task_findById id (tasks w)) as [T|] eqn:Hf; [|exact Hvalid].
    destruct (negb _); [exact Hvalid|].
    simpl. apply invalidateTaskCaches_tasksValid. unfold tasksValid. simpl.
    apply Task_replace_valid; [|exact Hvalid].
    apply Task_preSave_valid, Task_touch_valid.
    apply (Task_findById_valid id w T Hvalid Hf).
  - intros taskIds assignedTo. unfold bulkAssignTasks.
    destruct (negb (canAssignTask u)); [exact Hvalid|].
    destruct taskIds as [[|i l]|]; try exact Hvalid.
    destruct (assignedTo ≫= _), assignedTo; try exact Hvalid.
    unfold tasksValid, Task_assignMany. simpl. apply Forall_fmap.
    eapply Forall_impl; [exact Hvalid|]. intros x Hv. simpl.
    destruct (bool_decide _); exact Hv.
Qed.

(** The seeded tasks are valid, and stay so when the admin renames one. *)
Lemma handlers_keep_tasks_valid_witness :
  tasksValid
    (snd (updateTask (Some seedAdmin) "t1"
            (UpdateTaskBody.mk (Some "Renamed") None None None None) 50 seedWorld)).
Proof.
  assert (Hvalid : tasksValid seedWorld).
  { apply (bool_decide_unpack _). vm_compute. exact I. }
  destruct (handlers_keep_tasks_valid (Some seedAdmin) 50 seedWorld Hvalid)
    as (_ & H & _).
  apply H.
Defined.

(** ** Effects of the single-task handlers ([controllers/task.controller.ts]) *)

Lemma saved_fields (now : Z) (orig t : ITask.t) :
  let r := Task_preSave now (Task_touch now orig t) in
  sameOwnership r t
  /\ ITask.title r = ITask.title t
  /\ ITask.description r = ITask.description t
  /\ ITask.dueDate r = ITask.dueDate t
  /\ ITask.priority r = ITask.priority t.
Proof.
  simpl. rewrite Task_preSave_with_status, <- Task_touch_fields.
  unfold sameOwnership. simpl. repeat split.
Qed.

Lemma applyUpdate_sameOwnership (body : UpdateTaskBody.t) (T : ITask.t) :
  sameOwnership (applyUpdate body T) T.
Proof.
  unfold applyUpdate, sameOwnership.
  destruct (truthy (UpdateTaskBody.title body)),
    (UpdateTaskBody.description body), (UpdateTaskBody.dueDate body),
    (truthy (UpdateTaskBody.priority body)),
    (truthy (UpdateTaskBody.status body)); simpl; repeat split.
Qed.

Lemma sameOwnership_trans (a b c : ITask.t) :
  sameOwnership a b -> sameOwnership b c -> sameOwnership a c.
Proof.
  unfold sameOwnership. intros (? & ? & ? & ? & ?) (? & ? & ? & ? & ?).
  repeat split; congruence.
Qed.

Lemma sameOwnership_canAccessTask (P : IUser.t) (a b : ITask.t) :
  sameOwnership a b ->
  canAccessTask (ofRequest P) (ofQuery "task" a)
  = canAccessTask (ofRequest P) (ofQuery "task" b).
Proof.
  unfold sameOwnership. intros (_ & _ & _ & Ht & _).
  rewrite !canAccessTask_documents, Ht. reflexivity.
Qed.

Lemma Task_findById_replace (t' : ITask.t) (ts : list ITask.t) (id : string) :
  Task_findById id (Task_replace t' ts)
  = if bool_decide (id = ITask._id t')
    then match Task_findById id ts with Some _ => Some t' | None => None end
    else Task_findById id ts.
Proof. apply (find_replace ITask._id). Qed.

Lemma Task_findById_deleteOne (t' : ITask.t) (ts : list ITask.t) (id : string) :
  Task_findById id (Task_deleteOne t' ts)
  = if bool_decide (id = ITask._id t') then None else Task_findById id ts.
Proof. apply (find_remove ITask._id). Qed.

(** X14. [updateTask] never moves a task.  When it answers 200 the task
    existed and the requester is an admin or a manager with the task's team
    (being its creator or assignee does not count: a requester of role user
    is always answered "Task not found"); the stored version is the
    returned one and has the identifier, creator, assignee, team and
    creation time it had, so the requester still passes the same test;
    tasks under other identifiers are untouched.  With any other answer
    nothing is written. *)
Theorem updateTask_effect (P : IUser.t) (id : string) (body : UpdateTaskBody.t)
    (now : Z) (w : World) :
  (statusCode (fst (updateTask (Some P) id body now w)) <> 200 ->
   snd (updateTask (Some P) id body now w) = w)
  /\ (IUser.role P = RUser ->
      updateTask (Some P) id body now w = (taskNotFound, w))
  /\ (statusCode (fst (updateTask (Some P) id body now w)) = 200 ->
      exists T t',
        Task_findById id (tasks w) = Some T
        /\ grantedByRole P T
        /\ fst (updateTask (Some P) id body now w)
           = ok 200 (TaskData (Some "Task updated successfully") t')
        /\ sameOwnership t' T
        /\ grantedByRole P t'
        /\ canAccessTask (ofRequest P) (ofQuery "task" t') = true
        /\ Task_findById id (tasks (snd (updateTask (Some P) id body now w)))
           = Some t'
        /\ forall id', id' <> id ->
             Task_findById id' (tasks (snd (updateTask (Some P) id body now w)))
             = Task_findById id' (tasks w)).
Proof.
  unfold updateTask.
  destruct (Task_findById id (tasks w)) as [T|] eqn:Hf;
    [|split; [reflexivity | split; [reflexivity | discriminate]]].
  destruct (canAccessTask (ofRequest P) (ofQuery "task" T)) eqn:Hacc; simpl;
    [|split; [reflexivity | split; [reflexivity | discriminate]]].
  assert (Hnu : IUser.role P <> RUser).
  { intros Hu. rewrite (canAccessTask_user P "task" T Hu) in Hacc.
    discriminate. }
  unfold Task_save.
  destruct (Task_valid_modified _ _); simpl;
    [|split; [reflexivity | split; [contradiction | discriminate]]].
  split; [congruence|]. split; [contradiction|]. intros _.
  set (t' := Task_preSave now (Task_touch now T (applyUpdate body T))).
  assert (Hown : sameOwnership t' T).
  { eapply sameOwnership_trans; [apply saved_fields|].
    apply applyUpdate_sameOwnership. }
  apply Task_findById_id in Hf as Hid. destruct Hid as [Hid _].
  assert (Hid' : ITask._id t' = id) by (destruct Hown as (-> & _); exact Hid).
  assert (Hacc' : canAccessTask (ofRequest P) (ofQuery "task" t') = true)
    by (rewrite (sameOwnership_canAccessTask P t' T Hown); exact Hacc).
  exists T, t'. split; [reflexivity|].
  split; [apply (canAccessTask_grantedByRole P "task" T), Hacc|].
  split; [reflexivity|]. split; [exact Hown|].
  split; [apply (canAccessTask_grantedByRole P "task" t'), Hacc'|].
  split; [exact Hacc'|].
  rewrite invalidateTaskCaches_tasks. simpl. split.
  - rewrite Task_findById_replace, bool_decide_eq_true_2 by congruence.
    rewrite Hf. reflexivity.
  - intros id' Hne.
    rewrite Task_findById_replace, bool_decide_eq_false_2 by congruence.
    reflexivity.
Qed.

(** The seeded manager renames a task of its team; the seeded user, its
    assignee, is refused. *)
Lemma updateTask_effect_witness :
  (exists t',
     Task_findById "t1"
       (tasks (snd (updateTask (Some seedManager) "t1"
                      (UpdateTaskBody.mk (Some "Renamed") None None None None)
                      50 seedWorld))) = Some t'
     /\ sameOwnership t' seedTask1)
  /\ updateTask (Some seedUser) "t1"
       (UpdateTaskBody.mk (Some "Renamed") None None None None) 50 seedWorld
     = (taskNotFound, seedWorld).
Proof.
  split.
  - destruct (updateTask_effect seedManager "t1"
                (UpdateTaskBody.mk (Some "Renamed") None None None None)
                50 seedWorld) as (_ & _ & H).
    assert (Hok : statusCode
                    (fst (updateTask (Some seedManager) "t1"
                            (UpdateTaskBody.mk (Some "Renamed") None None None None)
                            50 seedWorld)) = 200) by reflexivity.
    destruct (H Hok) as (T & t' & Hf & _ & _ & Hown & _ & _ & Hafter & _).
    injection Hf as <-. exists t'. split; [exact Hafter | exact Hown].
  - destruct (updateTask_effect seedUser "t1"
                (UpdateTaskBody.mk (Some "Renamed") None None None None)
                50 seedWorld) as (_ & H & _).
    assert (Hrole : IUser.role seedUser = RUser) by reflexivity.
    exact (H Hrole).
Defined.

(** X15. [deleteTask] answers 200 exactly when the task exists and the
    requester is an admin or a manager with the task's team; a requester of
    role user is always answered "Task not found", also for a task it
    created or is assigned.  After a 200 no task is found under the
    identifier and the tasks under other identifiers are untouched.  With
    any other answer nothing is deleted. *)
Theorem deleteTask_effect (P : IUser.t) (id : string) (w : World) :
  (statusCode (fst (deleteTask (Some P) id w)) = 200
   <-> exists T, Task_findById id (tasks w) = Some T /\ grantedByRole P T)
  /\ (IUser.role P = RUser -> deleteTask (Some P) id w = (taskNotFound, w))
  /\ (statusCode (fst (deleteTask (Some P) id w)) <> 200 ->
      snd (deleteTask (Some P) id w) = w)
  /\ (statusCode (fst (deleteTask (Some P) id w)) = 200 ->
      Task_findById id (tasks (snd (deleteTask (Some P) id w))) = None
      /\ forall id', id' <> id ->
           Task_findById id' (tasks (snd (deleteTask (Some P) id w)))
           = Task_findById id' (tasks w)).
Proof.
  unfold deleteTask.
  destruct (Task_findById id (tasks w)) as [T|] eqn:Hf.
  2:{ split; [|split; [reflexivity | split; [reflexivity | discriminate]]].
      split; [discriminate | intros (T & ? & _); discriminate]. }
  destruct (canAccessTask (ofRequest P) (ofQuery "task" T)) eqn:Hacc; simpl.
  2:{ split; [|split; [reflexivity | split; [reflexivity | discriminate]]].
      split; [discriminate|]. intros (T' & [= <-] & Hg).
      apply (canAccessTask_grantedByRole P "task" T) in Hg. congruence. }
  apply Task_findById_id in Hf as Hid. destruct Hid as [Hid _].
  split.
  { split; [intros _; exists T|reflexivity]. split; [reflexivity|].
    apply (canAccessTask_grantedByRole P "task" T), Hacc. }
  split.
  { intros Hu. rewrite (canAccessTask_user P "task" T Hu) in Hacc.
    discriminate. }
  split; [congruence|]. intros _.
  rewrite invalidateTaskCaches_tasks. simpl. split.
  - rewrite Task_findById_deleteOne, bool_decide_eq_true_2 by congruence.
    reflexivity.
  - intros id' Hne.
    rewrite Task_findById_deleteOne, bool_decide_eq_false_2 by congruence.
    reflexivity.
Qed.

(** The seeded manager deletes a task of its team, and [t2] stays; the
    seeded user, assignee of [t1], is refused. *)
Lemma deleteTask_effect_witness :
  Task_findById "t1" (tasks (snd (deleteTask (Some seedManager) "t1" seedWorld)))
  = None
  /\ Task_findById "t2" (tasks (snd (deleteTask (Some seedManager) "t1" seedWorld)))
     = Some seedTask2
  /\ deleteTask (Some seedUser) "t1" seedWorld = (taskNotFound, seedWorld).
Proof.
  destruct (deleteTask_effect seedManager "t1" seedWorld) as (_ & _ & _ & H).
  assert (Hok : statusCode (fst (deleteTask (Some seedManager) "t1" seedWorld))
                = 200) by reflexivity.
  destruct (H Hok) as (Hgone & Hrest).
  split; [exact Hgone|]. split; [rewrite Hrest; [reflexivity | discriminate]|].
  destruct (deleteTask_effect seedUser "t1" seedWorld) as (_ & Hu & _).
  assert (Hrole : IUser.role seedUser = RUser) by reflexivity.
  exact (Hu Hrole).
Defined.

(** X16. [assignTask] answers 200 exactly when the task exists and the
    requester is an admin or a manager with the task's team: a manager
    without that team is answered "Task not found" also for a task it
    created or is assigned.  The answer does not depend on the assignee,
    which is not looked up, so a task can be given to an identifier that
    names no user, or to nobody.  Afterwards the task is found with the
    requested assignee and with its identifier, creator, team, title,
    description, priority and due date as before; with any other answer
    nothing is written. *)
Theorem assignTask_effect (P : IUser.t) (id : string) (assignedTo : option string)
    (now : Z) (w : World) :
  (statusCode (fst (assignTask (Some P) id assignedTo now w)) = 200
   <-> exists T, Task_findById id (tasks w) = Some T /\ grantedByRole P T)
  /\ (statusCode (fst (assignTask (Some P) id assignedTo now w)) <> 200 ->
      snd (assignTask (Some P) id assignedTo now w) = w)
  /\ (statusCode (fst (assignTask (Some P) id assignedTo now w)) = 200 ->
      exists T t',
        Task_findById id (tasks w) = Some T
        /\ Task_findById id
             (tasks (snd (assignTask (Some P) id assignedTo now w))) = Some t'
        /\ ITask.assignedTo t' = assignedTo
        /\ ITask._id t' = id
        /\ ITask.createdBy t' = ITask.createdBy T
        /\ ITask.team t' = ITask.team T
        /\ ITask.title t' = ITask.title T
        /\ ITask.description t' = ITask.description T
        /\ ITask.priority t' = ITask.priority T
        /\ ITask.dueDate t' = ITask.dueDate T).
Proof.
  assert (Hcap : forall T, grantedByRole P T -> canAssignTask P = true).
  { intros T [Ha|(Hm & _)]; unfold canAssignTask; rewrite ?Ha, ?Hm;
      reflexivity. }
  unfold assignTask.
  destruct (canAssignTask P) eqn:Hcan; simpl.
  2:{ split; [|split; [reflexivity | discriminate]].
      split; [discriminate|]. intros (T & _ & Hg).
      specialize (Hcap T Hg). discriminate. }
  destruct (Task_findById id (tasks w)) as [T|] eqn:Hf.
  2:{ split; [|split; [reflexivity | discriminate]].
      split; [discriminate | intros (T & ? & _); discriminate]. }
  destruct (canAccessTask (ofRequest P) (ofQuery "task" T)) eqn:Hacc; simpl.
  2:{ split; [|split; [reflexivity | discriminate]].
      split; [discriminate|]. intros (T' & [= <-] & Hg).
      apply (canAccessTask_grantedByRole P "task" T) in Hg. congruence. }
  apply Task_findById_id in Hf as Hid. destruct Hid as [Hid _].
  split.
  { split; [intros _; exists T|reflexivity]. split; [reflexivity|].
    apply (canAccessTask_grantedByRole P "task" T), Hacc. }
  split; [congruence|]. intros _.
  set (t' := Task_preSave now (Task_touch now T (with_assignedTo assignedTo T))).
  destruct (saved_fields now T (with_assignedTo assignedTo T))
    as ((H1 & H2 & H3 & H4 & _) & H5 & H6 & H7 & H8).
  fold t' in H1, H2, H3, H4, H5, H6, H7, H8. simpl in *.
  exists T, t'. split; [reflexivity|].
  rewrite invalidateTaskCaches_tasks. simpl.
  rewrite Task_findById_replace, bool_decide_eq_true_2 by congruence.
  rewrite Hf. repeat split; congruence.
Qed.

(** The admin gives [t1] to an identifier that names no user. *)
Lemma assignTask_effect_witness :
  User_findById "u9" (users seedWorld) = None
  /\ exists t',
      Task_findById "t1"
        (tasks (snd (assignTask (Some seedAdmin) "t1" (Some "u9") 50
                       seedWorld))) = Some t'
      /\ ITask.assignedTo t' = Some "u9".
Proof.
  split; [reflexivity|].
  destruct (assignTask_effect seedAdmin "t1" (Some "u9") 50 seedWorld)
    as (_ & _ & H).
  assert (Hok : statusCode (fst (assignTask (Some seedAdmin) "t1" (Some "u9") 50
                                   seedWorld)) = 200) by reflexivity.
  destruct (H Hok) as (T & t' & _ & Hafter & Hto & _).
  exists t'. split; [exact Hafter | exact Hto].
Defined.

(** X17. The three answers of [createTask] to an authenticated request:
    403 exactly when the body names an assignee and the requester has no
    assignment capability, also when the assignee named is the requester
    itself (the test [assignedTo !== req.user._id] compares a string with
    an ObjectId and always holds), so a plain user can create a task only
    without naming an assignee; otherwise 201 exactly when the validators
    of the schema accept the trimmed title (3 to 200 characters), the
    trimmed description (at most 2000) and the priority, if given (one of
    the three); otherwise 400.  A body without a title is never accepted,
    and nothing is stored unless the answer is 201. *)
Theorem createTask_outcomes (P : IUser.t) (body : CreateTaskBody.t)
    (oid : string) (now : Z) (w : World) :
  let forbidden :=
    truthy (CreateTaskBody.assignedTo body) && negb (canAssignTask P) in
  let valid :=
    title_ok (trim (from_option id "" (CreateTaskBody.title body)))
    && description_ok (trim <$> CreateTaskBody.description body)
    && priority_ok (or_else (CreateTaskBody.priority body) "medium") in
  statusCode (fst (createTask (Some P) body oid now w))
  = (if forbidden then 403 else if valid then 201 else 400)
  /\ (IUser.role P = RUser ->
      truthy (CreateTaskBody.assignedTo body) = true ->
      createTask (Some P) body oid now w
      = (fail 403 "You do not have permission to assign tasks to others"
           "FORBIDDEN", w))
  /\ (CreateTaskBody.title body = None ->
      statusCode (fst (createTask (Some P) body oid now w)) <> 201)
  /\ (statusCode (fst (createTask (Some P) body oid now w)) <> 201 ->
      snd (createTask (Some P) body oid now w) = w).
Proof.
  assert (Hne : forall a, strictEquals (ofBody a) (user_id (ofRequest P)) = false)
    by (intros [a|]; reflexivity).
  cbn zeta. unfold createTask. rewrite Hne. cbn [negb]. rewrite andb_true_r.
  split; [|split].
  - destruct (truthy _ && negb _); [reflexivity|].
    unfold Task_create, Task_valid. simpl.
    replace (status_ok "todo") with true by reflexivity. rewrite andb_true_r.
    destruct (title_ok _ && description_ok _ && priority_ok _); reflexivity.
  - intros Hrole Ha. unfold canAssignTask.
    rewrite Ha, Hrole. reflexivity.
  - destruct (truthy _ && negb _); [split; [discriminate | reflexivity]|].
    unfold Task_create, Task_valid. simpl.
    destruct (title_ok _) eqn:Ht; simpl.
    + destruct (description_ok _ && priority_ok _ && status_ok _); simpl;
        (split; [|congruence || reflexivity]).
      * intros Hnone. rewrite Hnone in Ht. discriminate.
      * discriminate.
    + split; [discriminate | reflexivity].
Qed.

(** The seeded user may not create a task that names itself as the
    assignee. *)
Lemma createTask_outcomes_witness :
  createTask (Some seedUser)
    (CreateTaskBody.mk (Some "For myself") None None None (Some "u2") None)
    "t4" 40 seedWorld
  = (fail 403 "You do not have permission to assign tasks to others" "FORBIDDEN",
     seedWorld).
Proof.
  destruct (createTask_outcomes seedUser
              (CreateTaskBody.mk (Some "For myself") None None None
                 (Some "u2") None) "t4" 40 seedWorld) as (_ & H & _).
  apply H; reflexivity.
Defined.

(** X18. [bulkAssignTasks] answers 200 exactly when the requester has
    assignment capability, the identifier list is a non-empty array and the
    assignee names a stored user; with any other answer nothing is written.
    On 200 every stored task whose identifier is in the list gets the
    assignee and the current time as [updatedAt] and nothing else changes
    on it: the save hook does not run, so its status stays; all other tasks
    and all users stay as they were, and the reported count is the number
    of stored tasks in the list. *)
Theorem bulkAssignTasks_effect (P : IUser.t) (taskIds : option (list string))
    (assignedTo : option string) (now : Z) (w : World) :
  (statusCode (fst (bulkAssignTasks (Some P) taskIds assignedTo now w)) = 200
   <-> canAssignTask P = true
       /\ (exists i l, taskIds = Some (i :: l))
       /\ exists a, assignedTo = Some a /\ is_Some (User_findById a (users w)))
  /\ (statusCode (fst (bulkAssignTasks (Some P) taskIds assignedTo now w)) <> 200 ->
      snd (bulkAssignTasks (Some P) taskIds assignedTo now w) = w)
  /\ (statusCode (fst (bulkAssignTasks (Some P) taskIds assignedTo now w)) = 200 ->
      exists ids a,
        taskIds = Some ids /\ assignedTo = Some a
        /\ fst (bulkAssignTasks (Some P) taskIds assignedTo now w)
           = ok 200 (ModifiedCount
                       (Z.of_nat (length (List.filter
                                            (fun t => bool_decide (ITask._id t ∈ ids))
                                            (tasks w)))))
        /\ users (snd (bulkAssignTasks (Some P) taskIds assignedTo now w))
           = users w
        /\ forall (i : nat),
            tasks (snd (bulkAssignTasks (Some P) taskIds assignedTo now w)) !! i
            = (fun t => if bool_decide (ITask._id t ∈ ids)
                        then with_updatedAt now (with_assignedTo (Some a) t)
                        else t) <$> (tasks w !! i)).
Proof.
  unfold bulkAssignTasks.
  destruct (canAssignTask P) eqn:Hcan; simpl.
  2:{ split; [|split; [reflexivity | discriminate]].
      split; [discriminate | intros [? _]; discriminate]. }
  destruct taskIds as [[|i l]|].
  1,3: split; [|split; [reflexivity | discriminate]];
       (split; [discriminate | intros (_ & (? & ? & ?) & _); discriminate]).
  destruct assignedTo as [a|]; simpl.
  2:{ split; [|split; [reflexivity | discriminate]].
      split; [discriminate | intros (_ & _ & a & ? & _); discriminate]. }
  destruct (User_findById a (users w)) as [u|] eqn:Hu; simpl.
  2:{ split; [|split; [reflexivity | discriminate]].
      split; [discriminate|]. intros (_ & _ & a' & [= <-] & [x Hx]). congruence. }
  split.
  { split; [|reflexivity]. intros _. split; [reflexivity|].
    split; [eauto|]. exists a. split; [reflexivity|]. rewrite Hu. eauto. }
  split; [congruence|]. intros _.
  exists (i :: l), a. split; [reflexivity|]. split; [reflexivity|].
  split; [reflexivity|]. split; [reflexivity|].
  intros n. unfold Task_assignMany. apply list_lookup_fmap.
Qed.

(** The admin bulk-assigns [t1] to the Sales user; [t1] keeps its status. *)
Lemma bulkAssignTasks_effect_witness :
  tasks (snd (bulkAssignTasks (Some seedAdmin) (Some ["t1"]) (Some "u3") 100
                seedWorld)) !! 0%nat
  = Some (with_updatedAt 100 (with_assignedTo (Some "u3") seedTask1)).
Proof.
  destruct (bulkAssignTasks_effect seedAdmin (Some ["t1"]) (Some "u3") 100
              seedWorld) as (_ & _ & H).
  destruct (H eq_refl) as (ids & a & Hids & Ha & _ & _ & Hat).
  injection Hids as <-. injection Ha as <-.
  rewrite (Hat 0%nat). reflexivity.
Defined.

(** ** Bulk reads: pages, totals and what can be opened *)

Lemma matches_insert (q : gmap string Cond) (k : string) (c : Cond) (t : ITask.t) :
  q !! k = None -> matches (<[k := c]> q) t = matches q t && sat t k c.
Proof.
  intros Hk. apply eq_true_iff_eq.
  unfold matches. rewrite andb_true_iff, !bool_decide_eq_true.
  rewrite map_Forall_insert by exact Hk. tauto.
Qed.

(** The condition that [if (v) query[k] = v] adds. *)
Lemma matches_set_if (q : gmap string Cond) (v : option string) (k : string)
    (t : ITask.t) :
  q !! k = None ->
  matches (set_if v k Is q) t
  = matches q t && (negb (truthy v) || bool_decide (field k t = v)).
Proof.
  intros Hk. unfold set_if. destruct v as [[|a s]|]; simpl;
    rewrite ?andb_true_r; try reflexivity.
  apply matches_insert, Hk.
Qed.

Lemma roleScope_no_key (P : IUser.t) (k : string) :
  k <> "$or" -> k <> "team" -> roleScope P !! k = None.
Proof.
  intros H1 H2. destruct (roleScope P !! k) as [c|] eqn:Hk; [|reflexivity].
  apply roleScope_keys in Hk as [[-> _]|[-> _]]; contradiction.
Qed.

Lemma Task_findById_of_elem (ts : list ITask.t) (t : ITask.t) :
  NoDup (ITask._id <$> ts) -> t ∈ ts -> Task_findById (ITask._id t) ts = Some t.
Proof.
  unfold Task_findById. induction ts as [|x ts IH]; intros Hnd Hin.
  - apply elem_of_nil in Hin. contradiction.
  - rewrite fmap_cons in Hnd. apply NoDup_cons in Hnd as [Hx Hnd].
    cbn [List.find]. apply elem_of_cons in Hin as [->|Hin].
    + rewrite bool_decide_eq_true_2 by reflexivity. reflexivity.
    + rewrite bool_decide_eq_false_2; [apply IH; assumption|].
      intros He. apply Hx. rewrite He. apply list_elem_of_fmap. eauto.
Qed.

Section PagesOfTasks.

Variable field_le : string -> ITask.t -> ITask.t -> bool.



(** X20. [getMyAssignedTasks] lists, for every role, only stored tasks
    whose assignee is the requester, and only those that pass the [status]
    and [priority] filters; an admin or manager gets no wider view here. *)
Theorem getMyAssignedTasks_only_own (P : IUser.t) (rq : GetTasksQuery.t)
    (w : World) (t : ITask.t)
    (Hin : t ∈ listed (getMyAssignedTasks field_le (Some P) rq w)) :
  t ∈ tasks w
  /\ ITask.assignedTo t = Some (IUser._id P)
  /\ (truthy (GetTasksQuery.status rq) = true ->
      Some (ITask.status t) = GetTasksQuery.status rq)
  /\ (truthy (GetTasksQuery.priority rq) = true ->
      Some (ITask.priority t) = GetTasksQuery.priority rq).
Proof.
  revert Hin. unfold getMyAssignedTasks, listed.
  destruct (Task_query _ _ _ _ _ _) as [found|] eqn:Hq; simpl;
    [|intros H; apply elem_of_nil in H; contradiction].
  intros Hin. destruct (Task_query_elem _ _ _ _ _ _ _ _ Hq Hin) as [Hw Hm].
  split; [exact Hw|].
  rewrite matches_set_if in Hm.
  2:{ rewrite lookup_set_if_ne by discriminate.
      apply lookup_singleton_ne. discriminate. }
  rewrite matches_set_if in Hm by (apply lookup_singleton_ne; discriminate).
  rewrite matches_singleton in Hm.
  apply andb_true_iff in Hm as [Hm Hprio].
  apply andb_true_iff in Hm as [Hto Hstatus].
  simpl in Hto. apply bool_decide_eq_true in Hto.
  split; [exact Hto|]. split.
  - intros Ht. rewrite Ht in Hstatus. simpl in Hstatus.
    apply bool_decide_eq_true in Hstatus. exact Hstatus.
  - intros Ht. rewrite Ht in Hprio. simpl in Hprio.
    apply bool_decide_eq_true in Hprio. exact Hprio.
Qed.

(** X21. Listing against opening.  For an admin and for a manager with
    a team the role scope of the bulk queries is exactly what
    [canAccessTask] grants in the handlers, and with unique identifiers
    [getTaskById] answers 200 with every task that [getTasks] lists.  A
    principal of role user is shown by [getTasks] only tasks it created or
    is assigned, and can open none of them: [getTaskById] answers it "Task
    not found" for every identifier; so it does for a manager without a
    team, to whom the list shows every task. *)
Theorem listing_against_opening (P : IUser.t) (rq : GetTasksQuery.t)
    (w : World) (T : ITask.t) :
  (IUser.role P = RAdmin
   \/ (IUser.role P = RManager /\ truthy (IUser.team P) = true) ->
   matches (roleScope P) T = canAccessTask (ofRequest P) (ofQuery "task" T)
   /\ (NoDup (ITask._id <$> tasks w) ->
       T ∈ listed (getTasks field_le (Some P) rq w) ->
       getTaskById (Some P) (ITask._id T) w = ok 200 (TaskData None T)))
  /\ (IUser.role P = RUser
      \/ (IUser.role P = RManager /\ truthy (IUser.team P) = false) ->
      forall id, getTaskById (Some P) id w = taskNotFound)
  /\ (IUser.role P = RUser ->
      T ∈ listed (getTasks field_le (Some P) rq w) ->
      T ∈ tasks w
      /\ ownTask P T = true
      /\ getTaskById (Some P) (ITask._id T) w = taskNotFound).
Proof.
  assert (Hdenied : IUser.role P = RUser
                    \/ (IUser.role P = RManager /\ truthy (IUser.team P) = false) ->
                    forall id, getTaskById (Some P) id w = taskNotFound).
  { intros Hr id. unfold getTaskById.
    destruct (Task_findById id (tasks w)) as [x|]; [|reflexivity].
    rewrite canAccessTask_documents.
    destruct Hr as [Hr|[Hr Ht]]; rewrite Hr; [reflexivity|].
    rewrite Ht. reflexivity. }
  split; [|split; [exact Hdenied|]].
  - intros Hr.
    assert (Heq : matches (roleScope P) T
                  = canAccessTask (ofRequest P) (ofQuery "task" T)).
    { rewrite roleScope_matches, canAccessTask_documents.
      destruct Hr as [Hr|[Hr Ht]]; rewrite Hr; [reflexivity|].
      rewrite Ht. reflexivity. }
    split; [exact Heq|].
    intros Hnd Hin. apply getTasks_in_scope in Hin as [Hin Hm].
    unfold getTaskById. rewrite (Task_findById_of_elem _ _ Hnd Hin).
    rewrite <- Heq, Hm. reflexivity.
  - intros Hr Hin. apply getTasks_in_scope in Hin as [Hin Hm].
    split; [exact Hin|]. split.
    + rewrite roleScope_matches, Hr in Hm. exact Hm.
    + apply Hdenied. left. exact Hr.
Qed.

End PagesOfTasks.


(** The seeded user is the assignee of [t1]. *)
Lemma getMyAssignedTasks_only_own_witness :
  ITask.assignedTo seedTask1 = Some (IUser._id seedUser).
Proof.
  assert (Hin : seedTask1
                ∈ listed (getMyAssignedTasks sampleFieldLe (Some seedUser)
                            plainList seedWorld)).
  { assert (Hl : listed (getMyAssignedTasks sampleFieldLe (Some seedUser)
                           plainList seedWorld) = [seedTask2; seedTask1])
      by (vm_compute; reflexivity).
    rewrite Hl. apply elem_of_cons. right. apply elem_of_cons. left.
    reflexivity. }
  destruct (getMyAssignedTasks_only_own sampleFieldLe seedUser plainList
              seedWorld seedTask1 Hin) as (_ & H & _).
  exact H.
Defined.

(** The seeded manager opens a task from its list; the seeded user is
    listed [t1], which is assigned to it, and cannot open it. *)
Lemma listing_against_opening_witness :
  getTaskById (Some seedManager) "t1" seedWorld = ok 200 (TaskData None seedTask1)
  /\ ownTask seedUser seedTask1 = true
  /\ getTaskById (Some seedUser) "t1" seedWorld = taskNotFound.
Proof.
  split.
  - destruct (listing_against_opening sampleFieldLe seedManager plainList
                seedWorld seedTask1) as (H & _).
    assert (Hrole : IUser.role seedManager = RAdmin
                    \/ (IUser.role seedManager = RManager
                        /\ truthy (IUser.team seedManager) = true))
      by (right; split; reflexivity).
    destruct (H Hrole) as (_ & Hopen).
    apply Hopen.
    + apply (bool_decide_unpack _). vm_compute. exact I.
    + assert (Hl : listed (getTasks sampleFieldLe (Some seedManager) plainList
                             seedWorld) = [seedTask2; seedTask1])
        by (vm_compute; reflexivity).
      rewrite Hl. apply elem_of_cons. right. apply elem_of_cons. left.
      reflexivity.
  - destruct (listing_against_opening sampleFieldLe seedUser plainList
                seedWorld seedTask1) as (_ & _ & H).
    assert (Hrole : IUser.role seedUser = RUser) by reflexivity.
    assert (Hin : seedTask1 ∈ listed (getTasks sampleFieldLe (Some seedUser)
                                        plainList seedWorld)).
    { assert (Hl : listed (getTasks sampleFieldLe (Some seedUser) plainList
                             seedWorld) = [seedTask2; seedTask1])
        by (vm_compute; reflexivity).
      rewrite Hl. apply elem_of_cons. right. apply elem_of_cons. left.
      reflexivity. }
    destruct (H Hrole Hin) as (_ & Hown & Hno).
    split; [exact Hown | exact Hno].
Defined.

(** ** Analytics ([controllers/analytics.controller.ts]) *)

Lemma sat_status_Is (t : ITask.t) (s : string) :
  sat t "status" (Is s) = bool_decide (ITask.status t = s).
Proof.
  simpl. change (field "status" t) with (Some (ITask.status t)).
  apply bool_decide_ext. split; congruence.
Qed.

Lemma sat_status_OneOf (t : ITask.t) (l : list string) :
  sat t "status" (OneOf l) = bool_decide (ITask.status t ∈ l).
Proof. reflexivity. Qed.

Lemma count_with_status (q : gmap string Cond) (c : Cond) (ts : list ITask.t) :
  q !! "status" = None ->
  Task_countDocuments (<["status" := c]> q) ts
  = Z.of_nat (length (List.filter (fun t => matches q t && sat t "status" c) ts)).
Proof.
  intros Hq. unfold Task_countDocuments, Task_find. do 2 f_equal.
  apply filter_ext. intros t. apply matches_insert, Hq.
Qed.

Lemma status_partition (f : ITask.t -> bool) (ts : list ITask.t) :
  Forall (fun t => Task_valid t = true) ts ->
  let n c := Z.of_nat (length (List.filter (fun t => f t && sat t "status" c) ts)) in
  Z.of_nat (length (List.filter f ts))
  = n (Is "todo") + n (Is "in-progress") + n (Is "completed") + n (Is "overdue")
  /\ n (OneOf ["todo"; "in-progress"]) = n (Is "todo") + n (Is "in-progress").
Proof.
  intros Hv. induction Hv as [|t ts Ht _ IH]; [split; reflexivity|].
  cbn zeta in IH. destruct IH as [IH1 IH2]. cbn zeta.
  assert (Hs : ITask.status t ∈ ["todo"; "in-progress"; "completed"; "overdue"]).
  { unfold Task_valid in Ht. apply andb_true_iff in Ht as [_ Ht].
    apply bool_decide_eq_true in Ht. exact Ht. }
  cbn [List.filter].
  rewrite !sat_status_Is, sat_status_OneOf.
  destruct (f t); cbn [andb]; [|split; assumption].
  repeat (apply elem_of_cons in Hs as [Hs|Hs]);
    [| | | |apply elem_of_nil in Hs; contradiction];
    rewrite Hs;
    repeat match goal with
           | |- context [bool_decide ?P] =>
               let b := eval vm_compute in (bool_decide P) in
               change (bool_decide P) with b
           end;
    cbn [length]; rewrite ?Nat2Z.inj_succ; split; lia.
Qed.

(** X22. The two analytics endpoints agree.  With valid stored tasks and
    no cached entry, for the same principal the overview's [completed] and
    [overdue] are the counts that [getTasksByStatus] reports, its [pending]
    is the sum of "todo" and "in-progress", and its [totalTasks] is the sum
    of the four status counts, which is the number of stored tasks inside
    the role scope. *)
Theorem analytics_counts_agree (P : IUser.t) (w : World)
    (Hvalid : tasksValid w)
    (Hmiss : cache_get (overviewKey P) w = None) :
  exists o a b c d,
    fst (getOverview (Some P) w) = ok 200 (OverviewData o false)
    /\ getTasksByStatus (Some P) w = ok 200 (StatusCounts a b c d)
    /\ completed o = c
    /\ overdue o = d
    /\ pending o = a + b
    /\ totalTasks o = a + b + c + d
    /\ totalTasks o
       = Z.of_nat (length (List.filter (matches (roleScope P)) (tasks w))).
Proof.
  unfold getOverview, getTasksByStatus. rewrite Hmiss. simpl.
  do 5 eexists. split; [reflexivity|]. split; [reflexivity|].
  unfold countOverview. simpl.
  assert (Hq : roleScope P !! "status" = None)
    by (apply roleScope_no_key; discriminate).
  rewrite !(count_with_status _ _ _ Hq).
  destruct (status_partition (matches (roleScope P)) (tasks w) Hvalid)
    as [Hsum Hpend].
  simpl in Hsum, Hpend.
  split; [reflexivity|]. split; [reflexivity|]. split; [exact Hpend|].
  unfold Task_countDocuments, Task_find. split; [exact Hsum | reflexivity].
Qed.

(** The seeded manager: two tasks in scope, one "todo", one
    "in-progress". *)
Lemma analytics_counts_agree_witness :
  exists o, fst (getOverview (Some seedManager) seedWorld)
            = ok 200 (OverviewData o false)
            /\ pending o = 2.
Proof.
  assert (Hvalid : tasksValid seedWorld).
  { apply (bool_decide_unpack _). vm_compute. exact I. }
  assert (Hmiss : cache_get (overviewKey seedManager) seedWorld = None)
    by (vm_compute; reflexivity).
  destruct (analytics_counts_agree seedManager seedWorld Hvalid Hmiss)
    as (o & a & b & c & d & Ho & _ & _ & _ & _ & _).
  exists o. split; [exact Ho|].
  assert (Hcomp : fst (getOverview (Some seedManager) seedWorld)
                  = ok 200 (OverviewData (mkOverview 2 0 2 0) false))
    by (vm_compute; reflexivity).
  rewrite Hcomp in Ho. injection Ho as <-. reflexivity.
Defined.

Lemma cache_get_set (k : string) (v : Overview) (w : World) :
  redis w <> None -> cache_get k (cache_set k v w) = Some v.
Proof.
  unfold cache_get, cache_set. destruct (redis w) as [r|]; [|congruence].
  intros _. destruct w. simpl. apply lookup_insert_eq.
Qed.

Lemma cache_set_stores (k : string) (v : Overview) (w : World) :
  tasks (cache_set k v w) = tasks w
  /\ users (cache_set k v w) = users w
  /\ tokenBlacklist (cache_set k v w) = tokenBlacklist w.
Proof.
  unfold cache_set. destruct (redis w); destruct w; repeat split.
Qed.

Lemma getOverview_hit (P : IUser.t) (w : World) (o : Overview) :
  cache_get (overviewKey P) w = Some o ->
  getOverview (Some P) w = (ok 200 (OverviewData o true), w).
Proof. intros H. unfold getOverview. rewrite H. reflexivity. Qed.

Lemma getOverview_miss (P : IUser.t) (w : World) :
  cache_get (overviewKey P) w = None ->
  getOverview (Some P) w
  = (ok 200 (OverviewData (countOverview (roleScope P) (tasks w)) false),
     cache_set (overviewKey P) (countOverview (roleScope P) (tasks w)) w).
Proof. intros H. unfold getOverview. rewrite H. reflexivity. Qed.

Lemma getOverview_tasks (P : IUser.t) (w : World) :
  tasks (snd (getOverview (Some P) w)) = tasks w.
Proof.
  destruct (cache_get (overviewKey P) w) as [o|] eqn:Hk.
  - rewrite (getOverview_hit P w o Hk). reflexivity.
  - rewrite (getOverview_miss P w Hk). apply cache_set_stores.
Qed.

(** X23. The overview cache.  With a Redis client, a read that follows
    a read by the same principal returns the same figures marked as cached
    and changes nothing; without a client every read is computed from the
    stored tasks and nothing is remembered.  A read never changes tasks or
    users. *)
Theorem getOverview_cache (P : IUser.t) (w : World) :
  (redis w <> None ->
   exists o c,
     fst (getOverview (Some P) w) = ok 200 (OverviewData o c)
     /\ getOverview (Some P) (snd (getOverview (Some P) w))
        = (ok 200 (OverviewData o true), snd (getOverview (Some P) w)))
  /\ (redis w = None ->
      getOverview (Some P) w
      = (ok 200 (OverviewData (countOverview (roleScope P) (tasks w)) false), w))
  /\ tasks (snd (getOverview (Some P) w)) = tasks w
  /\ users (snd (getOverview (Some P) w)) = users w.
Proof.
  destruct (cache_get (overviewKey P) w) as [o|] eqn:Hk.
  - rewrite (getOverview_hit P w o Hk). cbn [fst snd].
    split; [|split; [|split; reflexivity]].
    + intros _. exists o, true. split; [reflexivity|].
      apply getOverview_hit, Hk.
    + intros Hr. unfold cache_get in Hk. rewrite Hr in Hk. discriminate.
  - rewrite (getOverview_miss P w Hk). cbn [fst snd].
    split; [|split; [|split; apply cache_set_stores]].
    + intros Hr. eexists _, false. split; [reflexivity|].
      apply getOverview_hit, cache_get_set, Hr.
    + intros Hr. unfold cache_set. rewrite Hr. reflexivity.
Qed.

(** The seeded manager reads the overview twice. *)
Lemma getOverview_cache_witness :
  fst (getOverview (Some seedManager)
         (snd (getOverview (Some seedManager) seedWorld)))
  = ok 200 (OverviewData (mkOverview 2 0 2 0) true).
Proof.
  destruct (getOverview_cache seedManager seedWorld) as (H & _).
  assert (Hclient : redis seedWorld <> None) by discriminate.
  destruct (H Hclient) as (o & c & Ho & Hagain).
  rewrite Hagain. simpl.
  assert (Hcomp : fst (getOverview (Some seedManager) seedWorld)
                  = ok 200 (OverviewData (mkOverview 2 0 2 0) false))
    by (vm_compute; reflexivity).
  rewrite Hcomp in Ho. injection Ho as <- _. reflexivity.
Defined.

(** ** Cache keys and the cache service ([services/cacheService.ts]) *)

Lemma role_suffix_inj (a b : string) (r1 r2 : Role) :
  a +:+ ":" +:+ role_name r1 = b +:+ ":" +:+ role_name r2 ->
  a = b /\ r1 = r2.
Proof.
  intros H. apply (f_equal String.rev) in H. unfold String.rev in H.
  rewrite !rev_app_append in H.
  destruct r1, r2; simpl in H; try discriminate;
    (split; [|reflexivity]);
    injection H as H; apply (f_equal String.rev) in H;
    fold (String.rev a) in H; fold (String.rev b) in H;
    rewrite !rev_involutive in H; exact H.
Qed.

Lemma overviewKey_eq (P : IUser.t) :
  overviewKey P
  = "analytics:overview:" +:+ IUser._id P +:+ ":" +:+ role_name (IUser.role P).
Proof.
  unfold overviewKey, getAnalyticsKey.
  destruct (IUser._id P +:+ ":" +:+ role_name (IUser.role P)) as [|c s] eqn:E;
    [|reflexivity].
  apply (f_equal String.rev) in E. unfold String.rev in E.
  rewrite !rev_app_append in E.
  destruct (IUser.role P); simpl in E; discriminate.
Qed.

Lemma overviewKey_inj (P Q : IUser.t) :
  overviewKey P = overviewKey Q ->
  IUser._id P = IUser._id Q /\ IUser.role P = IUser.role Q.
Proof.
  rewrite !overviewKey_eq. intros H.
  apply (inj (String.app "analytics:overview:")) in H.
  apply role_suffix_inj, H.
Qed.

Lemma cache_get_set_ne (k k' : string) (v : Overview) (w : World) :
  k <> k' -> cache_get k' (cache_set k v w) = cache_get k' w.
Proof.
  intros Hne. unfold cache_get, cache_set.
  destruct (redis w) as [r|] eqn:Hr; [|rewrite Hr; reflexivity].
  destruct w. simpl. apply lookup_insert_ne, Hne.
Qed.

Lemma delPattern_keeps (pattern key : string) (w : World) :
  glob pattern key = false ->
  cache_get key (delPattern pattern w) = cache_get key w.
Proof.
  intros Hg. unfold cache_get, delPattern.
  destruct (redis w) as [r|] eqn:Hr; [|rewrite Hr; reflexivity].
  destruct w. simpl.
  destruct (r !! key) as [v|] eqn:Hk.
  - apply map_lookup_filter_Some. split; [exact Hk | exact Hg].
  - apply map_lookup_filter_None. left. exact Hk.
Qed.

Lemma cache_get_del (k k' : string) (w : World) :
  cache_get k' (snd (cache_del k w))
  = if bool_decide (k = k') then None else cache_get k' w.
Proof.
  unfold cache_get, cache_del.
  destruct (redis w) as [r|] eqn:Hr.
  - destruct w. simpl. case_bool_decide as E.
    + subst k'. apply lookup_delete_eq.
    + apply lookup_delete_ne, E.
  - simpl. rewrite Hr. case_bool_decide; reflexivity.
Qed.

(** X24. The overview cache is kept per principal.  The cache keys of two
    principals that differ in identifier or role are different, so a read by
    one neither fills nor changes the other's entry, and the other's next
    read without an entry of its own is computed from its own scope. *)
Theorem overview_cache_per_principal (P Q : IUser.t) (w : World)
    (Hdiff : IUser._id P <> IUser._id Q \/ IUser.role P <> IUser.role Q) :
  overviewKey P <> overviewKey Q
  /\ cache_get (overviewKey Q) (snd (getOverview (Some P) w))
     = cache_get (overviewKey Q) w
  /\ (cache_get (overviewKey Q) w = None ->
      fst (getOverview (Some Q) (snd (getOverview (Some P) w)))
      = ok 200 (OverviewData (countOverview (roleScope Q) (tasks w)) false)).
Proof.
  assert (Hne : overviewKey P <> overviewKey Q).
  { intros H. apply overviewKey_inj in H as [Hi Hr]. tauto. }
  assert (Hkeep : cache_get (overviewKey Q) (snd (getOverview (Some P) w))
                  = cache_get (overviewKey Q) w).
  { destruct (cache_get (overviewKey P) w) as [o|] eqn:Hk.
    - rewrite (getOverview_hit P w o Hk). reflexivity.
    - rewrite (getOverview_miss P w Hk). cbn [snd].
      apply cache_get_set_ne, Hne. }
  split; [exact Hne|]. split; [exact Hkeep|].
  intros Hq. rewrite <- Hkeep in Hq.
  rewrite (getOverview_miss Q _ Hq). cbn [fst].
  rewrite (getOverview_tasks P w). reflexivity.
Qed.

(** The seeded user reads after the seeded manager. *)
Lemma overview_cache_per_principal_witness :
  fst (getOverview (Some seedUser)
         (snd (getOverview (Some seedManager) seedWorld)))
  = ok 200 (OverviewData
              (countOverview (roleScope seedUser) (tasks seedWorld)) false).
Proof.
  assert (Hdiff : IUser._id seedManager <> IUser._id seedUser
                  \/ IUser.role seedManager <> IUser.role seedUser)
    by (left; discriminate).
  destruct (overview_cache_per_principal seedManager seedUser seedWorld Hdiff)
    as (_ & _ & H).
  apply H. vm_compute. reflexivity.
Defined.

(** X25. Laws of the cache service.  With a Redis client, [get] returns
    what [set] stored under the same key and other keys are untouched;
    [del] reports success, removes the key and only that key; [exists]
    agrees with [get]; [clearAll] leaves nothing; [cached] returns the
    stored value if there is one and the fresh value otherwise, and
    afterwards the key holds what was returned.  Without a client nothing is
    ever stored: every read misses, every write, deletion and invalidation
    leaves the state as it is, and [cached] returns the fresh value. *)
Theorem cache_service_laws (k k' : string) (pattern userId : string)
    (v : Overview) (w : World) :
  (redis w <> None ->
     cache_get k (cache_set k v w) = Some v
     /\ (k <> k' -> cache_get k' (cache_set k v w) = cache_get k' w)
     /\ fst (cache_del k w) = true
     /\ cache_get k (snd (cache_del k w)) = None
     /\ (k <> k' -> cache_get k' (snd (cache_del k w)) = cache_get k' w)
     /\ (cache_exists k w = true <-> is_Some (cache_get k w))
     /\ cache_get k (clearAll w) = None
     /\ fst (cached k v w) = from_option id v (cache_get k w)
     /\ cache_get k (snd (cached k v w)) = Some (fst (cached k v w)))
  /\ (redis w = None ->
        cache_get k w = None
        /\ cache_exists k w = false
        /\ cache_set k v w = w
        /\ cache_del k w = (false, w)
        /\ delPattern pattern w = w
        /\ invalidateTaskCaches w = w
        /\ invalidateUserCache userId w = w
        /\ clearAll w = w
        /\ cached k v w = (v, w)).
Proof.
  split.
  - intros Hclient.
    split; [apply cache_get_set, Hclient|].
    split; [apply cache_get_set_ne|].
    split; [unfold cache_del; destruct (redis w); [reflexivity|congruence]|].
    split; [rewrite cache_get_del, bool_decide_eq_true_2; reflexivity|].
    split; [intros Hne; rewrite cache_get_del, bool_decide_eq_false_2;
            [reflexivity | exact Hne]|].
    split; [unfold cache_exists, cache_get; destruct (redis w);
            [apply bool_decide_eq_true | congruence]|].
    split; [unfold cache_get, clearAll; destruct (redis w); [|congruence];
            destruct w; simpl; apply lookup_empty|].
    unfold cached. destruct (cache_get k w) as [o|] eqn:Hk; cbn [fst snd].
    + split; [reflexivity | exact Hk].
    + split; [reflexivity | apply cache_get_set, Hclient].
  - intros Hnone.
    assert (Hdel : forall p, delPattern p w = w)
      by (intros p; unfold delPattern; rewrite Hnone; reflexivity).
    unfold cache_get, cache_exists, cache_set, cache_del, invalidateTaskCaches,
      invalidateUserCache, clearAll, cached, cache_get, cache_set, cache_del.
    rewrite Hnone. cbn [snd]. rewrite !Hdel. repeat split.
Qed.

(** The seeded world has a client; the same world without one. *)
Lemma cache_service_laws_witness :
  cache_get "k" (cache_set "k" (mkOverview 1 0 1 0) seedWorld)
  = Some (mkOverview 1 0 1 0)
  /\ cached "k" (mkOverview 1 0 1 0) (set_redis None seedWorld)
     = (mkOverview 1 0 1 0, set_redis None seedWorld).
Proof.
  split.
  - destruct (cache_service_laws "k" "k" "*" "u1" (mkOverview 1 0 1 0) seedWorld)
      as (H & _).
    assert (Hclient : redis seedWorld <> None) by discriminate.
    apply (H Hclient).
  - destruct (cache_service_laws "k" "k" "*" "u1" (mkOverview 1 0 1 0)
                (set_redis None seedWorld)) as (_ & H).
    assert (Hnone : redis (set_redis None seedWorld) = None) by reflexivity.
    apply (H Hnone).
Defined.

Lemma glob_analytics_head (key : string) :
  glob "analytics:*" key = true -> exists rest, key = String "a" rest.
Proof.
  destruct key as [|c rest]; [discriminate|]. intros H.
  destruct (Ascii.eqb_spec "a" c) as [<-|Hne]; [eexists; reflexivity|].
  exfalso. apply Ascii.eqb_neq in Hne.
  change (glob "analytics:*" (String c rest))
    with (Ascii.eqb "a" c && glob "nalytics:*" rest) in H.
  rewrite Hne in H. discriminate H.
Qed.

(** X26. Invalidation is selective.  [invalidateTaskCaches] leaves every
    key outside the "tasks:" and "analytics:" name spaces as it is, user
    profiles among them.  [invalidateUserCache] removes the profile entry of
    that user, keeps the profile entries of other users, and keeps every
    analytics entry, the cached overviews among them. *)
Theorem invalidation_is_selective (key userId otherId : string) (P : IUser.t)
    (w : World) :
  (glob "tasks:*" key = false -> glob "analytics:*" key = false ->
   cache_get key (invalidateTaskCaches w) = cache_get key w)
  /\ cache_get (getUserProfileKey otherId) (invalidateTaskCaches w)
     = cache_get (getUserProfileKey otherId) w
  /\ cache_get (getUserProfileKey userId) (invalidateUserCache userId w) = None
  /\ (otherId <> userId ->
      cache_get (getUserProfileKey otherId) (invalidateUserCache userId w)
      = cache_get (getUserProfileKey otherId) w)
  /\ (glob "analytics:*" key = true ->
      cache_get key (invalidateUserCache userId w) = cache_get key w)
  /\ cache_get (overviewKey P) (invalidateUserCache userId w)
     = cache_get (overviewKey P) w.
Proof.
  assert (Hsel : forall k, glob "tasks:*" k = false ->
                           glob "analytics:*" k = false ->
                           cache_get k (invalidateTaskCaches w) = cache_get k w).
  { intros k H1 H2. unfold invalidateTaskCaches.
    rewrite (delPattern_keeps _ _ _ H2). apply delPattern_keeps, H1. }
  assert (Han : forall k, glob "analytics:*" k = true ->
                cache_get k (invalidateUserCache userId w) = cache_get k w).
  { intros k Hk. apply glob_analytics_head in Hk as [rest ->].
    unfold invalidateUserCache.
    rewrite delPattern_keeps by reflexivity.
    rewrite cache_get_del. rewrite bool_decide_eq_false_2; [reflexivity|].
    change (getUserProfileKey userId)
      with (String "u" ("ser:profile:" +:+ userId)).
    discriminate. }
  split; [apply Hsel|].
  split; [apply Hsel; reflexivity|].
  split.
  { unfold invalidateUserCache. apply delPattern_keeps_None.
    rewrite cache_get_del, bool_decide_eq_true_2; reflexivity. }
  split.
  { intros Hne. unfold invalidateUserCache.
    rewrite delPattern_keeps by reflexivity.
    rewrite cache_get_del, bool_decide_eq_false_2; [reflexivity|].
    unfold getUserProfileKey. intros H.
    apply (inj (String.app "user:profile:")) in H. congruence. }
  split; [apply Han|].
  apply Han, overviewKey_analytics.
Qed.

(** A profile entry of the seeded user survives the invalidation that
    follows a task mutation. *)
Lemma invalidation_is_selective_witness :
  cache_get "user:profile:u2"
    (invalidateTaskCaches (cache_set "user:profile:u2" (mkOverview 0 0 0 0) seedWorld))
  = Some (mkOverview 0 0 0 0).
Proof.
  destruct (invalidation_is_selective "user:profile:u2" "u2" "u2" seedUser
              (cache_set "user:profile:u2" (mkOverview 0 0 0 0) seedWorld))
    as (H & _).
  assert (H1 : glob "tasks:*" "user:profile:u2" = false) by reflexivity.
  assert (H2 : glob "analytics:*" "user:profile:u2" = false) by reflexivity.
  rewrite (H H1 H2). vm_compute. reflexivity.
Defined.

(** ** Team and user statistics ([controllers/analytics.controller.ts]) *)

Lemma filter_length_and {A} (f g : A -> bool) (l : list A) :
  (length (List.filter (fun x => f x && g x) l) <= length (List.filter f l))%nat.
Proof.
  induction l as [|x l IH]; [reflexivity|]. simpl.
  destruct (f x), (g x); simpl; lia.
Qed.

(** The four counts that the statistics handlers take under an equality
    on one field. *)
Lemma stats_of_query (k v : string) (ts : list ITask.t) :
  k <> "status" ->
  Forall (fun t => Task_valid t = true) ts ->
  let q : gmap string Cond := {[ k := Is v ]} in
  Task_countDocuments q ts
  = Z.of_nat (length (List.filter (fun t => bool_decide (field k t = Some v)) ts))
  /\ Task_countDocuments q ts
     = Task_countDocuments (<["status" := Is "completed"]> q) ts
       + Task_countDocuments (<["status" := OneOf ["todo"; "in-progress"]]> q) ts
       + Task_countDocuments (<["status" := Is "overdue"]> q) ts
  /\ 0 <= Task_countDocuments (<["status" := Is "completed"]> q) ts
       <= Task_countDocuments q ts.
Proof.
  intros Hk Hvalid q.
  assert (Hq : q !! "status" = None)
    by (apply lookup_singleton_ne; exact Hk).
  rewrite !(count_with_status _ _ _ Hq).
  destruct (status_partition (matches q) ts Hvalid) as [Hsum Hpend].
  cbn zeta in Hsum, Hpend.
  unfold Task_countDocuments, Task_find.
  split.
  { do 2 f_equal. apply filter_ext. intros t. apply matches_singleton. }
  split; [lia|].
  split; [lia|].
  apply inj_le, filter_length_and.
Qed.



(** X28. User statistics.  An unknown user id is answered 404 whoever
    asks.  For a stored target the request is answered exactly when the
    principal is an admin, or is a manager whose team value equals the
    target's (two absent teams are equal); otherwise it is answered 403.
    Asking for one's own statistics does not help: the test
    [req.user._id === userId] compares an ObjectId with a string, so a
    principal of role user is always refused, its own id included.  In an
    answer over valid stored tasks the assigned total is the number of
    tasks assigned to that id and equals completed plus pending plus
    overdue, and the created total is the number of tasks the id
    created. *)
Theorem getUserStats_spec (u : IUser.t) (userId : string) (w : World)
    (Hvalid : tasksValid w) :
  (User_findById userId (users w) = None ->
   getUserStats (Some u) userId w = inl (fail 404 "User not found" "NOT_FOUND"))
  /\ (forall target, User_findById userId (users w) = Some target ->
      ((exists s, getUserStats (Some u) userId w = inr s)
       <-> IUser.role u = RAdmin
           \/ (IUser.role u = RManager /\ IUser.team u = IUser.team target))
      /\ (forall r, getUserStats (Some u) userId w = inl r ->
            r = insufficientPermissions)
      /\ (IUser.role u = RUser ->
          getUserStats (Some u) userId w = inl insufficientPermissions)
      /\ (forall s, getUserStats (Some u) userId w = inr s ->
            UserStats.userId s = userId
            /\ UserStats.username s = IUser.username target
            /\ UserStats.totalAssigned s
               = Z.of_nat (length (List.filter
                     (fun t => bool_decide (ITask.assignedTo t = Some userId))
                     (tasks w)))
            /\ UserStats.totalAssigned s
               = UserStats.completed s + UserStats.pending s + UserStats.overdue s
            /\ UserStats.totalCreated s
               = Z.of_nat (length (List.filter
                     (fun t => bool_decide (ITask.createdBy t = userId))
                     (tasks w))))).
Proof.
  assert (Hassg : "assignedTo" <> "status") by discriminate.
  unfold getUserStats. split.
  - intros ->. reflexivity.
  - intros target Ht. rewrite Ht.
    assert (Hcan : canViewUserStats u userId target = true
                   <-> IUser.role u = RAdmin
                       \/ (IUser.role u = RManager
                           /\ IUser.team u = IUser.team target)).
    { unfold canViewUserStats.
      rewrite (proj2 (strictEquals_string_document userId u)).
      cbn [orb].
      rewrite !orb_true_iff, andb_true_iff, !bool_decide_eq_true. tauto. }
    destruct (canViewUserStats u userId target) eqn:Hc; simpl.
    + split; [split; [intros _; apply Hcan; reflexivity
                     | intros _; eexists; reflexivity]|].
      split; [intros r [=]|].
      split.
      { intros Hu. assert (Hc' : true = true) by reflexivity.
        apply Hcan in Hc' as [Ha|[Hm _]]; congruence. }
      intros s [= <-]. simpl.
      destruct (stats_of_query "assignedTo" userId (tasks w) Hassg Hvalid)
        as (Htot & Hsum & _).
      split; [apply (User_findById_id _ _ _ Ht)|].
      split; [reflexivity|]. split; [exact Htot|]. split; [exact Hsum|].
      unfold Task_countDocuments, Task_find. do 2 f_equal.
      apply filter_ext. intros t. rewrite matches_singleton. simpl.
      change (field "createdBy" t) with (Some (ITask.createdBy t)).
      apply bool_decide_ext. split; congruence.
    + split; [split; [intros [s [=]]
                     | intros H; apply Hcan in H; discriminate]|].
      split; [intros r [= <-]; reflexivity|].
      split; [reflexivity|].
      intros s [=].
Qed.

(** The seeded manager asks for the seeded user, of the same team; the
    seeded user asks for itself. *)
Lemma getUserStats_spec_witness :
  (exists s, getUserStats (Some seedManager) "u2" seedWorld = inr s
             /\ UserStats.userId s = "u2")
  /\ getUserStats (Some seedUser) "u2" seedWorld = inl insufficientPermissions.
Proof.
  assert (Hvalid : tasksValid seedWorld).
  { apply (bool_decide_unpack _). vm_compute. exact I. }
  assert (Ht : User_findById "u2" (users seedWorld) = Some seedUser)
    by reflexivity.
  split.
  - destruct (getUserStats_spec seedManager "u2" seedWorld Hvalid) as (_ & H).
    destruct (H seedUser Ht) as (Hacc & _ & _ & Hfig).
    assert (Hmgr : IUser.role seedManager = RAdmin
                   \/ (IUser.role seedManager = RManager
                       /\ IUser.team seedManager = IUser.team seedUser))
      by (right; split; reflexivity).
    destruct (proj2 Hacc Hmgr) as [s Hs].
    exists s. split; [exact Hs|].
    apply (Hfig s Hs).
  - destruct (getUserStats_spec seedUser "u2" seedWorld Hvalid) as (_ & H).
    destruct (H seedUser Ht) as (_ & _ & Hself & _).
    assert (Hrole : IUser.role seedUser = RUser) by reflexivity.
    exact (Hself Hrole).
Defined.

(** ** User listing ([controllers/auth.controller.ts]) *)


Section UsersListed.

Variable createdAt_le : IUser.t -> IUser.t -> bool.


End UsersListed.


(** ** Socket notifications ([services/socketService.ts]) *)

Lemma receives_user (u : IUser.t) (userId ev m : string) :
  receives u (mkEmit ("user:" +:+ userId) ev m) = bool_decide (IUser._id u = userId).
Proof.
  unfold receives, rooms. cbn [room]. apply bool_decide_ext.
  rewrite !elem_of_app, list_elem_of_singleton. split.
  - intros [H|[H|H]].
    + apply (inj (String.app "user:")) in H. congruence.
    + destruct (truthy (IUser.team u)); [|apply elem_of_nil in H; contradiction].
      apply list_elem_of_singleton in H. vm_compute in H. discriminate H.
    + destruct (bool_decide (IUser.role u = RAdmin));
        [|apply elem_of_nil in H; contradiction].
      apply list_elem_of_singleton in H. vm_compute in H. discriminate H.
  - intros <-. left. reflexivity.
Qed.

Lemma receives_team (u : IUser.t) (teamName ev m : string) :
  teamName <> "" ->
  receives u (mkEmit ("team:" +:+ teamName) ev m)
  = bool_decide (IUser.team u = Some teamName).
Proof.
  intros Hne. unfold receives, rooms. cbn [room]. apply bool_decide_ext.
  rewrite !elem_of_app, list_elem_of_singleton. split.
  - intros [H|[H|H]].
    + vm_compute in H. discriminate H.
    + destruct (truthy (IUser.team u)) eqn:Ht;
        [|apply elem_of_nil in H; contradiction].
      apply list_elem_of_singleton in H.
      apply (inj (String.app "team:")) in H.
      apply truthy_Some in Ht as (l & Hl & _). rewrite Hl in H |- *.
      simpl in H. congruence.
    + destruct (bool_decide (IUser.role u = RAdmin));
        [|apply elem_of_nil in H; contradiction].
      apply list_elem_of_singleton in H. vm_compute in H. discriminate H.
  - intros Ht. right; left. rewrite Ht.
    destruct teamName as [|c s]; [congruence|]. simpl.
    apply list_elem_of_singleton. reflexivity.
Qed.

Lemma receives_admins (u : IUser.t) (ev m : string) :
  receives u (mkEmit "admins" ev m) = bool_decide (IUser.role u = RAdmin).
Proof.
  unfold receives, rooms. cbn [room]. apply bool_decide_ext.
  rewrite !elem_of_app, list_elem_of_singleton. split.
  - intros [H|[H|H]].
    + vm_compute in H. discriminate H.
    + destruct (truthy (IUser.team u)); [|apply elem_of_nil in H; contradiction].
      apply list_elem_of_singleton in H. vm_compute in H. discriminate H.
    + destruct (bool_decide_reflect (IUser.role u = RAdmin)) as [Hr|];
        [exact Hr | apply elem_of_nil in H; contradiction].
  - intros Hr. right; right. rewrite (bool_decide_eq_true_2 _ Hr).
    apply list_elem_of_singleton. reflexivity.
Qed.

(** What reaches the team room of a task, if it has a team. *)
Lemma receives_team_of (u : IUser.t) (team : option string) (ev m : string) :
  existsb (receives u)
    (if truthy team then emitToTeam (from_option id "" team) ev m else [])
  = truthy team && bool_decide (IUser.team u = team).
Proof.
  destruct (truthy team) eqn:Ht; [|reflexivity].
  apply truthy_Some in Ht as (l & -> & Hne). simpl.
  rewrite (receives_team _ _ _ _ Hne), orb_false_r. reflexivity.
Qed.

Lemma receives_user_of (u : IUser.t) (d : option IUser.t) (ev m : string) :
  existsb (receives u)
    (match d with Some a => emitToUser (IUser._id a) ev m | None => [] end)
  = bool_decide (IUser._id <$> d = Some (IUser._id u)).
Proof.
  destruct d as [a|]; simpl.
  - rewrite receives_user, orb_false_r. apply bool_decide_ext.
    split; congruence.
  - reflexivity.
Qed.

(** X30. Who is notified.  A connected user receives the creation
    notice of a task exactly when it is the stored assignee, or the task has
    a team and it is the user's team, or the user is an admin; the other
    notices reach the rooms the source names: assignment the new assignee
    and the team, update the assignee, the creator and the team, completion
    the creator, the team and the admins, deletion the team and the
    admins.  The team room is joined by every member whatever its role, so
    a plain team member that [canAccessTask] refuses is still notified.
    Before the server is initialised nothing is emitted. *)
Theorem notifications_recipients (u : IUser.t) (task : Populated)
    (assigneeId taskId : string) (team : option string) :
  let t := doc task in
  let inTeam (tm : option string) :=
    truthy tm && bool_decide (IUser.team u = tm) in
  let isAdmin := bool_decide (IUser.role u = RAdmin) in
  let isDoc (d : option IUser.t) :=
    bool_decide (IUser._id <$> d = Some (IUser._id u)) in
  existsb (receives u) (notifyTaskCreated true task)
  = isDoc (assigneeDoc task) || inTeam (ITask.team t) || isAdmin
  /\ existsb (receives u) (notifyTaskAssigned true task assigneeId)
     = bool_decide (IUser._id u = assigneeId) || inTeam (ITask.team t)
  /\ existsb (receives u) (notifyTaskUpdated true task)
     = isDoc (assigneeDoc task) || isDoc (creatorDoc task) || inTeam (ITask.team t)
  /\ existsb (receives u) (notifyTaskCompleted true task)
     = isDoc (creatorDoc task) || inTeam (ITask.team t) || isAdmin
  /\ existsb (receives u) (notifyTaskDeleted true taskId team)
     = inTeam team || isAdmin
  /\ (IUser.role u = RUser -> truthy (IUser.team u) = true ->
      ITask.team t = IUser.team u ->
      ITask.createdBy t <> IUser._id u ->
      ITask.assignedTo t <> Some (IUser._id u) ->
      canAccessTask (ofRequest u) (ofQuery "task" t) = false
      /\ existsb (receives u) (notifyTaskCreated true task) = true
      /\ existsb (receives u) (notifyTaskUpdated true task) = true)
  /\ notifyTaskCreated false task = []
  /\ notifyTaskAssigned false task assigneeId = []
  /\ notifyTaskUpdated false task = []
  /\ notifyTaskCompleted false task = []
  /\ notifyTaskDeleted false taskId team = [].
Proof.
  cbn zeta.
  assert (Hadm : forall ev m, existsb (receives u) (emitToAdmins ev m)
                              = bool_decide (IUser.role u = RAdmin)).
  { intros ev m. simpl. rewrite receives_admins, orb_false_r. reflexivity. }
  assert (Hc : existsb (receives u) (notifyTaskCreated true task)
               = bool_decide (IUser._id <$> assigneeDoc task = Some (IUser._id u))
                 || truthy (ITask.team (doc task))
                    && bool_decide (IUser.team u = ITask.team (doc task))
                 || bool_decide (IUser.role u = RAdmin)).
  { unfold notifyTaskCreated. cbn [negb].
    rewrite !existsb_app, receives_user_of, receives_team_of, Hadm.
    apply orb_assoc. }
  assert (Hu : existsb (receives u) (notifyTaskUpdated true task)
               = bool_decide (IUser._id <$> assigneeDoc task = Some (IUser._id u))
                 || bool_decide (IUser._id <$> creatorDoc task = Some (IUser._id u))
                 || truthy (ITask.team (doc task))
                    && bool_decide (IUser.team u = ITask.team (doc task))).
  { unfold notifyTaskUpdated. cbn [negb].
    rewrite !existsb_app, !receives_user_of, receives_team_of.
    apply orb_assoc. }
  split; [exact Hc|].
  split.
  { unfold notifyTaskAssigned. cbn [negb].
    rewrite existsb_app, receives_team_of. simpl.
    rewrite receives_user, orb_false_r. reflexivity. }
  split; [exact Hu|].
  split.
  { unfold notifyTaskCompleted. cbn [negb].
    rewrite !existsb_app, receives_user_of, receives_team_of, Hadm.
    apply orb_assoc. }
  split.
  { unfold notifyTaskDeleted. cbn [negb].
    rewrite existsb_app, receives_team_of, Hadm. reflexivity. }
  split; [|repeat split].
  intros Hrole Hteam Hsame Hcr Has.
  assert (Hin : truthy (ITask.team (doc task))
                && bool_decide (IUser.team u = ITask.team (doc task)) = true).
  { rewrite Hsame, Hteam. apply bool_decide_eq_true_2. reflexivity. }
  split.
  { apply canAccessTask_user, Hrole. }
  rewrite Hc, Hu, Hin, !orb_true_r. split; reflexivity.
Qed.

(** The Engineering user of the seeded world is notified of a task of its
    team that the manager created and holds, and that it cannot open. *)
Lemma notifications_recipients_witness :
  canAccessTask (ofRequest seedUser)
    (ofQuery "task" (with_assignedTo (Some "u1") seedTask2)) = false
  /\ existsb (receives seedUser)
       (notifyTaskCreated true
          (populate seedWorld (with_assignedTo (Some "u1") seedTask2))) = true.
Proof.
  set (task := with_assignedTo (Some "u1") seedTask2).
  destruct (notifications_recipients seedUser (populate seedWorld task)
              "u1" "t2" (Some "Engineering"))
    as (_ & _ & _ & _ & _ & H & _).
  assert (Hrole : IUser.role seedUser = RUser) by reflexivity.
  assert (Hteam : truthy (IUser.team seedUser) = true) by reflexivity.
  assert (Hsame : ITask.team (doc (populate seedWorld task))
                  = IUser.team seedUser) by reflexivity.
  assert (Hcr : ITask.createdBy (doc (populate seedWorld task))
                <> IUser._id seedUser) by discriminate.
  assert (Has : ITask.assignedTo (doc (populate seedWorld task))
                <> Some (IUser._id seedUser)) by discriminate.
  destruct (H Hrole Hteam Hsame Hcr Has) as (Hno & Hyes & _).
  split; [exact Hno | exact Hyes].
Defined.
